(** * scripts/api.py of sd-webui-controlnet: a shallow embedding

    The module adds REST endpoints for the ControlNet extension of the
    image-generation web UI.  This development embeds the functions of
    [scripts/api.py] in Rocq and states what they do.

    Python values are embedded as the sum type [pyval]; exceptions as the
    type [exn]; a call that may raise returns a [result].  Code that
    touches the interpreter's object store or performs calls into the host
    application threads a state (the heap of objects, or the trace of
    external calls).  The external collaborators (base64, PIL, numpy,
    piexif, the annotators, the host's processing pipeline and options)
    are the fields of the class [Host]. *)

From Stdlib Require Import ZArith String Ascii List Bool Lia.
From Corelib Require Import PrimFloat.
From stdpp Require Import gmap strings list fin_maps pretty.

Set Warnings "-register-all".
Local Open Scope Z_scope.
Local Open Scope string_scope.

(* ================================================================== *)
(** * Python basics *)
(* ================================================================== *)

(** ** Exceptions

    [IndexError] carries the indexing expression that raised it (the place
    a traceback would show); [KeyError] and [AttributeError] carry the
    missing name.  [OtherError] stands for an exception of any other
    type, as the libraries raise them; it carries the name of the type
    and whether the type is a subclass of [ValueError]. *)
Inductive exn : Type :=
| HTTPException (status_code : Z) (detail : string)
| IndexError (site : string)
| ValueError (msg : string)
| KeyError (key : string)
| AttributeError (attr : string)
| TypeError (msg : string)
| ValidationError (field : string)
| binascii_Error
| UnidentifiedImageError
| OtherError (type_name : string) (value_error : bool).

(** [except ValueError] also catches the subclasses of [ValueError]:
    [binascii.Error] and pydantic's [ValidationError]. *)
Definition is_ValueError (e : exn) : bool :=
  match e with
  | ValueError _ | ValidationError _ | binascii_Error => true
  | OtherError _ value_error => value_error
  | _ => false
  end.

Inductive result (A : Type) : Type :=
| Ret (a : A)
| Raise (e : exn).
Arguments Ret {A} a.
Arguments Raise {A} e.

Definition bind {A B} (m : result A) (k : A -> result B) : result B :=
  match m with
  | Ret a => k a
  | Raise e => Raise e
  end.

(** [try: body except Exception as err: handler err] *)
Definition try_except {A} (body : result A) (handler : exn -> result A) : result A :=
  match body with
  | Ret a => Ret a
  | Raise e => handler e
  end.

Notation "x <- m ;; k" := (bind m (fun x => k))
  (at level 100, m at next level, right associativity).

Definition raises {A} (m : result A) : Prop := exists e, m = Raise e.

(** A [for] loop whose body may raise, threading the variables it updates. *)
Fixpoint for_each {A S} (body : S -> A -> result S) (l : list A) (s : S) : result S :=
  match l with
  | [] => Ret s
  | x :: l' => s' <- body s x ;; for_each body l' s'
  end.

(** A list comprehension (or [map]) whose body may raise: the elements are
    evaluated left to right and the first exception ends it. *)
Fixpoint comprehension {A B} (f : A -> result B) (l : list A) : result (list B) :=
  match l with
  | [] => Ret []
  | x :: l' => y <- f x ;; ys <- comprehension f l' ;; Ret (y :: ys)
  end.

(** ** Strings ([str]) *)

(** [s.startswith(p)] *)
Definition startswith (s p : string) : bool := String.prefix p s.

(** [s.split(sep)] for a separator of one character. *)
Fixpoint split (s : string) (sep : ascii) : list string :=
  match s with
  | EmptyString => [EmptyString]
  | String c s' =>
      if Ascii.eqb c sep then EmptyString :: split s' sep
      else match split s' sep with
           | piece :: pieces => String c piece :: pieces
           | [] => [String c EmptyString]
           end
  end.

(** [l[i]], raising [IndexError] out of range; [site] names the expression. *)
Definition index {A} (site : string) (l : list A) (i : nat) : result A :=
  match nth_error l i with
  | Some x => Ret x
  | None => Raise (IndexError site)
  end.

(** [s[n:]] *)
Fixpoint slice_from (n : nat) (s : string) : string :=
  match n, s with
  | O, _ => s
  | S n', String _ s' => slice_from n' s'
  | S _, EmptyString => EmptyString
  end.

(** [s.lower()], on ASCII text. *)
Definition lower_char (c : ascii) : ascii :=
  let n := N_of_ascii c in
  if ((65 <=? n) && (n <=? 90))%N then ascii_of_N (n + 32) else c.

Fixpoint lower (s : string) : string :=
  match s with
  | EmptyString => EmptyString
  | String c s' => String (lower_char c) (lower s')
  end.

(** Truth value of a string: [if s:]. *)
Definition str_truthy (s : string) : bool :=
  match s with
  | EmptyString => false
  | _ => true
  end.

(** ** bytes, numpy arrays, PIL images *)

Definition bytes := list Byte.byte.

Inductive dtype_t := np_bool | np_uint8 | np_int64 | np_float32 | np_float64.

(** A numpy array: element type, shape, and the elements in row-major
    order.  Elements are kept as integers (pixel values); the one float
    array the module builds itself is [np.zeros(...)]. *)
Record ndarray := mk_ndarray {
  dtype : dtype_t;
  shape : list Z;
  data : list Z
}.

Definition np_size (shp : list Z) : Z := fold_right Z.mul 1 shp.

(** [np.zeros(shape=shp)]: float64 zeros. *)
Definition np_zeros (shp : list Z) : ndarray :=
  {| dtype := np_float64; shape := shp; data := repeat 0 (Z.to_nat (np_size shp)) |}.

(** [np.array(n)] of a Python int: a 0-dimensional int64 array. *)
Definition np_array_of_int (n : Z) : ndarray :=
  {| dtype := np_int64; shape := []; data := [n] |}.

(** [a.reshape(shp)]; numpy raises [ValueError] when the sizes differ. *)
Definition reshape (a : ndarray) (shp : list Z) : result ndarray :=
  if Z.eqb (np_size shp) (Z.of_nat (length (data a)))
  then Ret {| dtype := dtype a; shape := shp; data := data a |}
  else Raise (ValueError "cannot reshape array").

(** [a.astype('uint8')] *)
Definition astype_uint8 (a : ndarray) : ndarray :=
  {| dtype := np_uint8; shape := shape a; data := map (fun x => x mod 256) (data a) |}.

(** A key or value of [Image.info]: the code only asks whether it is a [str]. *)
Inductive info_value :=
| InfoStr (s : string)
| InfoBytes (b : bytes)
| InfoInt (n : Z).

Record Image := mk_Image {
  im_mode : string;
  im_size : Z * Z;
  im_info : list (info_value * info_value);
  im_data : bytes
}.

(** ** Values *)

(** A Python [float] is an IEEE binary64 number. *)
Fixpoint float_of_positive (p : positive) : float :=
  match p with
  | xH => 1%float
  | xO p' => (2 * float_of_positive p')%float
  | xI p' => (2 * float_of_positive p' + 1)%float
  end.

(** [float(n)] for a Python int (exact below 2^53). *)
Definition float_of_int (n : Z) : float :=
  match n with
  | Z0 => 0%float
  | Zpos p => float_of_positive p
  | Zneg p => (- float_of_positive p)%float
  end.

(** [np.pi] *)
Definition np_pi : float := 0x1.921fb54442d18p+1%float.

(** A pydantic [ControlNetUnitRequest] (lines 119-131). *)
Record ControlNetUnitRequest := mk_unit {
  input_image : string;
  mask : string;
  module : string;
  model : string;
  weight : float;
  resize_mode : string;
  lowvram : bool;
  processor_res : Z;
  threshold_a : float;
  threshold_b : float;
  guidance : float;
  guessmode : bool
}.

(** Addresses of the mutable objects of the interpreter's store. *)
Definition loc := positive.

Inductive pyval : Type :=
| VNone
| VBool (b : bool)
| VInt (n : Z)
| VFloat (x : float)
| VStr (s : string)
| VBytes (b : bytes)
| VArray (a : ndarray)
| VImage (im : Image)
| VUnit (u : ControlNetUnitRequest)
| VRef (l : loc)
| VList (l : list pyval)
| VDict (d : list (string * pyval)).

(** [v is None] *)
Definition is_None (v : pyval) : bool :=
  match v with
  | VNone => true
  | _ => false
  end.

(** Truth value of a Python value: [if v:], [a or b]. *)
Definition truthy (v : pyval) : bool :=
  match v with
  | VNone => false
  | VBool b => b
  | VInt n => negb (Z.eqb n 0)
  | VFloat x => negb (PrimFloat.eqb x 0)
  | VStr s => str_truthy s
  | VBytes b => negb (Nat.eqb (length b) 0)
  | VList l => negb (Nat.eqb (length l) 0)
  | VDict d => negb (Nat.eqb (length d) 0)
  | VArray _ | VImage _ | VUnit _ | VRef _ => true
  end.

(** [a or b] *)
Definition py_or (a b : pyval) : pyval := if truthy a then a else b.

(** [d.get(k, default)] on a dict kept as an association list. *)
Fixpoint dict_get (d : list (string * pyval)) (k : string) (default : pyval) : pyval :=
  match d with
  | [] => default
  | (k', v) :: d' => if String.eqb k' k then v else dict_get d' k default
  end.

(** ** The object store

    A script of the host ([scripts.Script]): what [title()] returns, the
    slice of the argument list it reads, and its other attributes.  A
    script runner ([scripts.ScriptRunner]) holds a reference to its list
    of always-on scripts.  Lists are objects of their own. *)
Record Script := mk_Script {
  title : string;
  args_from : pyval;
  args_to : pyval;
  script_attrs : list (string * pyval)
}.

Record ScriptRunner := mk_ScriptRunner {
  alwayson_scripts : loc;
  runner_attrs : list (string * pyval)
}.

Inductive object : Type :=
| ObjScript (s : Script)
| ObjRunner (r : ScriptRunner)
| ObjList (items : list loc).

Abbreviation heap := (gmap loc object).

(** ** Calls into the host that the module makes for their effect *)
Inductive event : Type :=
| EvPrint (what : pyval)
| EvAnnotate (annotator : string) (img : ndarray)
| EvUnload (annotator : string)
| EvProcessImages (p : list (string * pyval))
| EvClose
| EvUpdateModels.

(* ================================================================== *)
(** * The host application and the libraries *)
(* ================================================================== *)

(** What [image.save] is given besides the format and the quality. *)
Inductive save_option : Type :=
| pnginfo (metadata : option (list (string * string)))
| exif (exif_bytes : bytes).

(** The result of [process_images]: its images and what [js()] returns. *)
Record Processed := mk_Processed {
  images : list pyval;
  js : string
}.

(** Everything [scripts/api.py] imports and calls but does not define.
    A call into base64, PIL, numpy or piexif, a call of an annotator and
    the call of [process_images] may raise, and what it raises is up to
    the library: each of them returns a [result].  [b64encode] of bytes,
    the options, the constructor of the processing object and the other
    calls made for their effect are taken to return. *)
Class Host := {
  (** [base64.b64decode] of a [str], [base64.b64encode] *)
  b64decode : string -> result bytes;
  b64encode : bytes -> bytes;
  (** [Image.open(io.BytesIO(b))], [Image.fromarray], [image.save] into a
      buffer followed by [getvalue()] *)
  Image_open : bytes -> result Image;
  Image_fromarray : ndarray -> result Image;
  Image_save : Image -> string -> save_option -> Z -> result bytes;
  (** [np.array(image)] *)
  np_array : Image -> result ndarray;
  (** [piexif.helper.UserComment.dump(data, encoding="unicode")] and
      [piexif.dump({"Exif": {piexif.ExifIFD.UserComment: comment}})] *)
  UserComment_dump : info_value -> result bytes;
  piexif_dump : bytes -> result bytes;
  (** [modules.shared.opts] and [shared.cmd_opts] *)
  samples_format : string;
  jpeg_quality : Z;
  outdir_samples : string;
  outdir_img2img_samples : string;
  outdir_grids : string;
  outdir_img2img_grids : string;
  samples_log_stdout : bool;
  do_not_show_images : bool;
  enable_console_prompts : bool;
  (** [shared.sd_model], [scripts.scripts_img2img] *)
  sd_model : pyval;
  scripts_img2img : pyval;
  (** [StableDiffusionProcessingImg2Img] called with keyword arguments:
      the attributes of the new object; [process_images(p)] *)
  StableDiffusionProcessingImg2Img : list (string * pyval) -> list (string * pyval);
  process_images : list (string * pyval) -> result Processed;
  (** [scripts.controlnet]: the values of [cn_models_names] after
      [update_cn_models()] *)
  cn_models_names : list string;
  (** [scripts.processor]: the annotators *)
  canny : ndarray -> Z -> float -> float -> result pyval;
  hed : ndarray -> Z -> result pyval;
  mlsd : ndarray -> Z -> float -> float -> result pyval;
  midas : ndarray -> Z -> float -> result pyval;
  midas_normal : ndarray -> Z -> float -> float -> result pyval;
  leres : ndarray -> Z -> float -> float -> float -> result pyval;
  openpose : ndarray -> Z -> bool -> result pyval;
  fake_scribble : ndarray -> Z -> result pyval;
  uniformer : ndarray -> Z -> result pyval
}.

(* ================================================================== *)
(** * Images in and out (lines 32-85) *)
(* ================================================================== *)

Section Codec.
Context {host : Host}.

(** Lines 36-37: the text after the header of a data URI. *)
Definition strip_header (encoding : string) : result string :=
  if startswith encoding "data:image/" then
    part <- index "encoding.split(';')[1]" (split encoding ";") 1 ;;
    index "encoding.split(';')[1].split(',')[1]" (split part ",") 1
  else Ret encoding.

(** Lines 35-42. *)
Definition decode_base64_to_image (encoding : string) : result Image :=
  encoding <- strip_header encoding ;;
  try_except
    (raw <- b64decode encoding ;;
     image <- Image_open raw ;;
     Ret image)
    (fun err => Raise (HTTPException 500 "Invalid encoded image")).

(** Lines 32-33: [np.array] is called outside the [try] of lines 38-42. *)
Definition to_base64_nparray (encoding : string) : result ndarray :=
  image <- decode_base64_to_image encoding ;;
  a <- np_array image ;;
  Ret (astype_uint8 a).

(** [isinstance(key, str) and isinstance(value, str)] over
    [image.info.items()] (lines 64-67). *)
Fixpoint text_items (items : list (info_value * info_value)) : list (string * string) :=
  match items with
  | [] => []
  | (InfoStr key, InfoStr value) :: rest => (key, value) :: text_items rest
  | _ :: rest => text_items rest
  end.

(** [image.info.get('parameters', None)] *)
Fixpoint info_get_parameters (items : list (info_value * info_value)) : option info_value :=
  match items with
  | [] => None
  | (InfoStr key, value) :: rest =>
      if String.eqb key "parameters" then Some value else info_get_parameters rest
  | _ :: rest => info_get_parameters rest
  end.

Definition info_truthy (v : info_value) : bool :=
  match v with
  | InfoStr s => str_truthy s
  | InfoBytes b => negb (Nat.eqb (length b) 0)
  | InfoInt n => negb (Z.eqb n 0)
  end.

(** [parameters or ""] *)
Definition parameters_or_empty (parameters : option info_value) : info_value :=
  match parameters with
  | Some v => if info_truthy v then v else InfoStr ""
  | None => InfoStr ""
  end.

(** Lines 58-85. *)
Definition encode_pil_to_base64 (image : Image) : result bytes :=
  bytes_data <-
    (if String.eqb (lower samples_format) "png" then
       let metadata := text_items (im_info image) in
       let use_metadata := negb (Nat.eqb (length metadata) 0) in
       Image_save image "PNG"
         (pnginfo (if use_metadata then Some metadata else None)) jpeg_quality
     else if existsb (String.eqb (lower samples_format)) ["jpg"; "jpeg"; "webp"] then
       let parameters := info_get_parameters (im_info image) in
       comment <- UserComment_dump (parameters_or_empty parameters) ;;
       exif_bytes <- piexif_dump comment ;;
       if existsb (String.eqb (lower samples_format)) ["jpg"; "jpeg"] then
         Image_save image "JPEG" (exif exif_bytes) jpeg_quality
       else
         Image_save image "WEBP" (exif exif_bytes) jpeg_quality
     else Raise (HTTPException 500 "Invalid image format")) ;;
  Ret (b64encode bytes_data).

(** Lines 54-56. *)
Definition encode_np_to_base64 (image : ndarray) : result bytes :=
  pil <- Image_fromarray image ;;
  encode_pil_to_base64 pil.

(** Lines 44-52. *)
Definition encode_to_base64 (image : pyval) : result pyval :=
  match image with
  | VStr s => Ret (VStr s)
  | VImage im => b <- encode_pil_to_base64 im ;; Ret (VBytes b)
  | VArray a => b <- encode_np_to_base64 a ;; Ret (VBytes b)
  | _ => Ret (VStr "")
  end.

End Codec.

(* ================================================================== *)
(** * The request schema (lines 88-159) *)
(* ================================================================== *)

(** A pydantic [Field(...)]. *)
Record FieldInfo := mk_Field {
  default : pyval;
  field_title : string;
  deprecated : bool;
  max_length : option Z
}.

Definition Field (default : pyval) (title : string) : FieldInfo :=
  {| default := default; field_title := title; deprecated := false; max_length := None |}.

(** Lines 88-101. *)
Definition cn_fields : gmap string FieldInfo :=
  list_to_map [
    ("input_image", Field (VStr "") "ControlNet Input Image");
    ("mask", Field (VStr "") "ControlNet Input Mask");
    ("module", Field (VStr "none") "Controlnet Module");
    ("model", Field (VStr "None") "Controlnet Model");
    ("weight", Field (VFloat 1) "Controlnet Weight");
    ("resize_mode", Field (VStr "Scale to Fit (Inner Fit)") "Controlnet Resize Mode");
    ("lowvram", Field (VBool false) "Controlnet Low VRAM");
    ("processor_res", Field (VInt 64) "Controlnet Processor Res");
    ("threshold_a", Field (VInt 64) "Controlnet Threshold a");
    ("threshold_b", Field (VInt 64) "Controlnet Threshold b");
    ("guidance", Field (VFloat 1) "ControlNet Guidance Strength");
    ("guessmode", Field (VBool true) "Guess Mode")
  ].

(** [cn_fields[field_name]] *)
Definition cn_fields_getitem (field_name : string) : result FieldInfo :=
  match cn_fields !! field_name with
  | Some field => Ret field
  | None => Raise (KeyError field_name)
  end.

(** [field_name in ('input_image', 'mask')] *)
Definition is_image_field (field_name : string) : bool :=
  existsb (String.eqb field_name) ["input_image"; "mask"].

(** Lines 104-110. *)
Definition get_deprecated_cn_field (field_name : string) : result FieldInfo :=
  field <- cn_fields_getitem field_name ;;
  Ret {| default := VNone;
         field_title := field_title field;
         deprecated := true;
         max_length := if is_image_field field_name then Some 1 else max_length field |}.

(** Lines 113-116. *)
Definition get_deprecated_field_default (field_name : string) : result pyval :=
  if is_image_field field_name then Ret (VList [])
  else field <- cn_fields_getitem field_name ;; Ret (default field).

(** ** Construction of a [ControlNetUnitRequest] from keyword arguments

    pydantic validates each argument against the field's type and takes
    the field's default for an argument that is absent.  The arguments
    that reach the constructor in this module are values of a request that
    pydantic has parsed already, or defaults of [cn_fields]: a [str] for a
    [str] field, a [float] or an [int] for a [float] field, and so on.
    Any other value is refused here. *)
Definition validate_str (name : string) (v : pyval) : result string :=
  match v with
  | VStr s => Ret s
  | _ => Raise (ValidationError name)
  end.

Definition validate_float (name : string) (v : pyval) : result float :=
  match v with
  | VFloat x => Ret x
  | VInt n => Ret (float_of_int n)
  | _ => Raise (ValidationError name)
  end.

Definition validate_int (name : string) (v : pyval) : result Z :=
  match v with
  | VInt n => Ret n
  | _ => Raise (ValidationError name)
  end.

Definition validate_bool (name : string) (v : pyval) : result bool :=
  match v with
  | VBool b => Ret b
  | _ => Raise (ValidationError name)
  end.

(** The argument [name], or the default of the field. *)
Definition argument (kwargs : gmap string pyval) (name : string) : result pyval :=
  match kwargs !! name with
  | Some v => Ret v
  | None => field <- cn_fields_getitem name ;; Ret (default field)
  end.

Definition field_of {A} (validate : string -> pyval -> result A)
    (kwargs : gmap string pyval) (name : string) : result A :=
  v <- argument kwargs name ;; validate name v.

(** [ControlNetUnitRequest] called with the keyword arguments [kwargs]. *)
Definition new_ControlNetUnitRequest (kwargs : gmap string pyval) : result ControlNetUnitRequest :=
  input_image <- field_of validate_str kwargs "input_image" ;;
  mask <- field_of validate_str kwargs "mask" ;;
  module <- field_of validate_str kwargs "module" ;;
  model <- field_of validate_str kwargs "model" ;;
  weight <- field_of validate_float kwargs "weight" ;;
  resize_mode <- field_of validate_str kwargs "resize_mode" ;;
  lowvram <- field_of validate_bool kwargs "lowvram" ;;
  processor_res <- field_of validate_int kwargs "processor_res" ;;
  threshold_a <- field_of validate_float kwargs "threshold_a" ;;
  threshold_b <- field_of validate_float kwargs "threshold_b" ;;
  guidance <- field_of validate_float kwargs "guidance" ;;
  guessmode <- field_of validate_bool kwargs "guessmode" ;;
  Ret (mk_unit input_image mask module model weight resize_mode lowvram
         processor_res threshold_a threshold_b guidance guessmode).

(* ================================================================== *)
(** * The deprecated flat request shape (lines 203-220) *)
(* ================================================================== *)

(** A request object is embedded as its attribute dictionary,
    [vars(txt2imgreq)]: the fields of the host's txt2img request,
    [controlnet_units] (a list of units) and the twelve optional flat
    fields [controlnet_input_image], ..., [controlnet_guessmode]. *)

(** [k.startswith('controlnet_') and k != 'controlnet_units'] *)
Definition is_deprecated_key (k : string) : bool :=
  startswith k "controlnet_" && negb (String.eqb k "controlnet_units").

(** [v[i]] on a value. *)
Definition getitem (site : string) (v : pyval) (i : nat) : result pyval :=
  match v with
  | VList l => index site l i
  | VStr s =>
      match String.get i s with
      | Some c => Ret (VStr (String c EmptyString))
      | None => Raise (IndexError site)
      end
  | _ => Raise (TypeError "object is not subscriptable")
  end.

(** [d[k]] on a dictionary. *)
Definition dict_getitem (d : gmap string pyval) (k : string) : result pyval :=
  match d !! k with
  | Some v => Ret v
  | None => Raise (KeyError k)
  end.

(** The dictionary comprehension of line 211: every key loses the prefix
    [controlnet_]. *)
Definition strip_prefix (d : gmap string pyval) : gmap string pyval :=
  list_to_map ((fun kv => (slice_from (String.length "controlnet_") kv.1, kv.2)) <$> map_to_list d).

(** [txt2imgreq.copy(exclude=keys)]: a new object with the other fields;
    their values are shared with the original. *)
Definition copy_exclude (req : gmap string pyval) (keys : gset string) : gmap string pyval :=
  filter (fun kv => kv.1 ∉ keys) req.

(** [txt2imgreq.controlnet_units.insert(0, unit)] *)
Definition controlnet_units_insert0 (req : gmap string pyval) (unit : ControlNetUnitRequest)
  : result (gmap string pyval) :=
  match req !! "controlnet_units" with
  | Some (VList units) => Ret (<["controlnet_units" := VList (VUnit unit :: units)]> req)
  | Some _ => Raise (AttributeError "insert")
  | None => Raise (AttributeError "controlnet_units")
  end.

Definition nest_deprecated_cn_fields (txt2imgreq : gmap string pyval) : result (gmap string pyval) :=
  let deprecated_cn_fields : gmap string pyval :=
    filter (fun kv => is_deprecated_key kv.1 = true) txt2imgreq in
  let txt2imgreq := copy_exclude txt2imgreq (dom deprecated_cn_fields) in
  if forallb is_None (map_to_list deprecated_cn_fields).*2 then Ret txt2imgreq
  else
    let deprecated_cn_fields := strip_prefix deprecated_cn_fields in
    deprecated_cn_fields <-
      for_each (fun (d : gmap string pyval) kv =>
                  if is_None kv.2 then
                    v <- get_deprecated_field_default kv.1 ;; Ret (<[kv.1 := v]> d)
                  else Ret d)
               (map_to_list deprecated_cn_fields) deprecated_cn_fields ;;
    deprecated_cn_fields <-
      for_each (fun (d : gmap string pyval) k =>
                  cond <- get_deprecated_field_default k ;;
                  v <- (if truthy cond then
                          l <- dict_getitem d k ;; getitem "deprecated_cn_fields[k][0]" l 0
                        else Ret (VStr "")) ;;
                  Ret (<[k := v]> d))
               ["input_image"; "mask"] deprecated_cn_fields ;;
    unit <- new_ControlNetUnitRequest deprecated_cn_fields ;;
    controlnet_units_insert0 txt2imgreq unit.

(* ================================================================== *)
(** * State: the object store, the trace of host calls *)
(* ================================================================== *)

(** A computation over a state [S] that returns or raises; the state
    reached when an exception is raised is kept. *)
Definition stateful (S A : Type) : Type := S -> result A * S.

Definition sret {S A} (a : A) : stateful S A := fun s => (Ret a, s).
Definition sraise {S A} (e : exn) : stateful S A := fun s => (Raise e, s).
Definition sbind {S A B} (m : stateful S A) (k : A -> stateful S B) : stateful S B :=
  fun s => match m s with
           | (Ret a, s') => k a s'
           | (Raise e, s') => (Raise e, s')
           end.
Definition lift {S A} (m : result A) : stateful S A := fun s => (m, s).

Notation "x <~ m ;; k" := (sbind m (fun x => k))
  (at level 100, m at next level, right associativity).

(** [try: body except ValueError: handler] *)
Definition try_except_ValueError {S A} (body handler : stateful S A) : stateful S A :=
  fun s => match body s with
           | (Raise e, s') => if is_ValueError e then handler s' else (Raise e, s')
           | r => r
           end.

(** A [for] loop over a state. *)
Fixpoint sfor {S A B} (body : B -> A -> stateful S B) (l : list A) (b : B) : stateful S B :=
  match l with
  | [] => sret b
  | x :: l' => b' <~ body b x ;; sfor body l' b'
  end.

(** ** Operations on the object store *)

Definition alloc (o : object) : stateful heap loc :=
  fun h => let l := fresh (dom h) in (Ret l, <[l := o]> h).

Definition deref (l : loc) : stateful heap object :=
  fun h => match h !! l with
           | Some o => (Ret o, h)
           | None => (Raise (AttributeError "dangling reference"), h)
           end.

(** [copy.copy(x)]: a new object with the attributes of [x]. *)
Definition copy_copy (l : loc) : stateful heap loc :=
  o <~ deref l ;; alloc o.

(** [runner.alwayson_scripts], as the list of the scripts' addresses. *)
Definition get_alwayson_scripts (runner : loc) : stateful heap (list loc) :=
  o <~ deref runner ;;
  match o with
  | ObjRunner r =>
      items <~ deref (alwayson_scripts r) ;;
      match items with
      | ObjList scripts => sret scripts
      | _ => sraise (TypeError "object is not iterable")
      end
  | _ => sraise (AttributeError "alwayson_scripts")
  end.

(** [script.title()] *)
Definition script_title (script : loc) : stateful heap string :=
  o <~ deref script ;;
  match o with
  | ObjScript s => sret (title s)
  | _ => sraise (AttributeError "title")
  end.

(** [script.args_from = v], [script.args_to = v] *)
Definition set_args_from (script : loc) (v : pyval) : stateful heap unit :=
  o <~ deref script ;;
  match o with
  | ObjScript s =>
      fun h => (Ret tt, <[script := ObjScript (mk_Script (title s) v (args_to s) (script_attrs s))]> h)
  | _ => sraise (AttributeError "args_from")
  end.

Definition set_args_to (script : loc) (v : pyval) : stateful heap unit :=
  o <~ deref script ;;
  match o with
  | ObjScript s =>
      fun h => (Ret tt, <[script := ObjScript (mk_Script (title s) (args_from s) v (script_attrs s))]> h)
  | _ => sraise (AttributeError "args_to")
  end.

(** [runner.alwayson_scripts = lst] *)
Definition set_alwayson_scripts (runner : loc) (lst : loc) : stateful heap unit :=
  o <~ deref runner ;;
  match o with
  | ObjRunner r =>
      fun h => (Ret tt, <[runner := ObjRunner (mk_ScriptRunner lst (runner_attrs r))]> h)
  | _ => sraise (AttributeError "alwayson_scripts")
  end.

(** [l.index(x)] on a list of strings. *)
Fixpoint list_index (l : list string) (x : string) : result nat :=
  match l with
  | [] => Raise (ValueError "x is not in list")
  | y :: l' => if String.eqb y x then Ret O else i <- list_index l' x ;; Ret (S i)
  end.

(* ================================================================== *)
(** * Script arguments (lines 223-262) *)
(* ================================================================== *)

Section ScriptArgs.
Context {host : Host}.

(** Lines 243-262.  The tuple is kept as the list of its fourteen
    components. *)
Definition create_processing_unit_args (unit_request : ControlNetUnitRequest)
  : result (list pyval) :=
  image <- (if str_truthy (input_image unit_request)
            then a <- to_base64_nparray (input_image unit_request) ;; Ret (VArray a)
            else Ret VNone) ;;
  mask <- (if str_truthy (mask unit_request)
           then a <- to_base64_nparray (mask unit_request) ;; Ret (VArray a)
           else a <- reshape (np_array_of_int 0) [1; 1; 1] ;; Ret (VArray a)) ;;
  Ret [ VBool true;
        VStr (module unit_request);
        VStr (model unit_request);
        VFloat (weight unit_request);
        VDict [("image", image); ("mask", mask)];
        VBool false;
        VStr (resize_mode unit_request);
        VBool false;
        VBool (lowvram unit_request);
        VInt (processor_res unit_request);
        VFloat (threshold_a unit_request);
        VFloat (threshold_b unit_request);
        VFloat (guidance unit_request);
        VBool (guessmode unit_request) ].

(** Lines 223-241.  The result is the pair [(cn_script_runner,
    cn_punit_args)], the first component a reference or [None]. *)
Definition create_cn_script_runner (script_runner : loc)
    (control_unit_requests : list ControlNetUnitRequest)
  : stateful heap (pyval * list pyval) :=
  try_except_ValueError
    (cn_script_runner <~ copy_copy script_runner ;;
     cn_punit_args <~
       lift (for_each (fun args control_unit_request =>
                         more <- create_processing_unit_args control_unit_request ;;
                         Ret (args ++ more)%list)
                      control_unit_requests [VBool false]) ;;
     scripts <~ get_alwayson_scripts script_runner ;;
     script_titles <~
       sfor (fun titles script => t <~ script_title script ;; sret (titles ++ [lower t])%list)
            scripts [] ;;
     cn_script_id <~ lift (list_index script_titles "controlnet") ;;
     script <~ lift (index "script_runner.alwayson_scripts[cn_script_id]" scripts cn_script_id) ;;
     cn_script <~ copy_copy script ;;
     _ <~ set_args_from cn_script (VInt 0) ;;
     _ <~ set_args_to cn_script (VInt (Z.of_nat (length cn_punit_args))) ;;
     lst <~ alloc (ObjList [cn_script]) ;;
     _ <~ set_alwayson_scripts cn_script_runner lst ;;
     sret (VRef cn_script_runner, cn_punit_args))
    (sret (VNone, [])).

End ScriptArgs.

(* ================================================================== *)
(** * The endpoints (lines 265-466) *)
(* ================================================================== *)

(** The trace of the calls made into the host, oldest first. *)
Definition emit (e : event) : stateful (list event) unit :=
  fun t => (Ret tt, (t ++ [e])%list).

(** [setattr(p, k, v)] on an object kept as the list of its attributes. *)
Fixpoint setattr (p : list (string * pyval)) (k : string) (v : pyval) : list (string * pyval) :=
  match p with
  | [] => [(k, v)]
  | (k', v') :: p' => if String.eqb k' k then (k, v) :: p' else (k', v') :: setattr p' k v
  end.

Fixpoint getattr (p : list (string * pyval)) (k : string) : result pyval :=
  match p with
  | [] => Raise (AttributeError k)
  | (k', v) :: p' => if String.eqb k' k then Ret v else getattr p' k
  end.

(** The body of a request to [/controlnet/img2img] (lines 268-304). *)
Module Img2ImgBody.
Record t := mk {
  init_images : list string;
  mask : option string;
  mask_blur : Z;
  inpainting_fill : Z;
  inpaint_full_res : bool;
  inpaint_full_res_padding : Z;
  inpainting_mask_invert : Z;
  resize_mode : Z;
  denoising_strength : float;
  prompt : string;
  negative_prompt : string;
  controlnet_input_image : list string;
  controlnet_mask : list string;
  controlnet_module : string;
  controlnet_model : string;
  controlnet_weight : float;
  controlnet_resize_mode : string;
  controlnet_lowvram : bool;
  controlnet_processor_res : Z;
  controlnet_threshold_a : float;
  controlnet_threshold_b : float;
  controlnet_guidance : float;
  controlnet_guessmode : bool;
  seed : Z;
  subseed : Z;
  subseed_strength : Z;
  sampler_index : string;
  batch_size : Z;
  n_iter : Z;
  steps : Z;
  cfg_scale : float;
  width : Z;
  height : Z;
  restore_faces : bool;
  include_init_images : bool;
  override_settings : pyval;
  override_settings_restore_afterwards : bool
}.
End Img2ImgBody.

(** The body of a request to [/controlnet/detect] (lines 404-408). *)
Module DetectBody.
Record t := mk {
  controlnet_module : string;
  controlnet_input_images : list string;
  controlnet_processor_res : Z;
  controlnet_threshold_a : float;
  controlnet_threshold_b : float
}.
End DetectBody.

Section Endpoints.
Context {host : Host}.

(** [a or b] on two option strings of [opts]. *)
Definition str_or (a b : string) : string := if str_truthy a then a else b.

(** [np.array(Image.open(io.BytesIO(base64.b64decode(s)))).astype('uint8')]
    (lines 346-347, 352-353, 431): no exception is caught here. *)
Definition decode_to_nparray (s : string) : result ndarray :=
  raw <- b64decode s ;;
  image <- Image_open raw ;;
  a <- np_array image ;;
  Ret (astype_uint8 a).

(** Lines 346-353: the control image and the control mask. *)
Definition control_arrays (controlnet_input_image controlnet_mask : list string)
  : result (ndarray * ndarray) :=
  first_image <- index "controlnet_input_image[0]" controlnet_input_image 0 ;;
  cn_image_np <- decode_to_nparray first_image ;;
  cn_mask_np <-
    (match controlnet_mask with
     | [] => Ret (astype_uint8 (np_zeros [512; 512; 3]))
     | _ => first_mask <- index "controlnet_mask[0]" controlnet_mask 0 ;;
            decode_to_nparray first_mask
     end) ;;
  Ret (cn_image_np, cn_mask_np).

(** Lines 267-394. *)
Definition img2img (body : Img2ImgBody.t) : stateful (list event) pyval :=
  let b := body in
  mask <~ lift (match Img2ImgBody.mask b with
                | Some m => if str_truthy m
                            then im <- decode_base64_to_image m ;; Ret (VImage im)
                            else Ret (VStr m)
                | None => Ret VNone
                end) ;;
  init_images <~ lift (comprehension decode_base64_to_image (Img2ImgBody.init_images b)) ;;
  let p := StableDiffusionProcessingImg2Img [
    ("sd_model", sd_model);
    ("outpath_samples", VStr (str_or outdir_samples outdir_img2img_samples));
    ("outpath_grids", VStr (str_or outdir_grids outdir_img2img_grids));
    ("prompt", VStr (Img2ImgBody.prompt b));
    ("negative_prompt", VStr (Img2ImgBody.negative_prompt b));
    ("init_images", VList (VImage <$> init_images));
    ("styles", VList []);
    ("seed", VInt (Img2ImgBody.seed b));
    ("subseed", VInt (Img2ImgBody.subseed b));
    ("subseed_strength", VInt (Img2ImgBody.subseed_strength b));
    ("seed_resize_from_h", VInt (-1));
    ("seed_resize_from_w", VInt (-1));
    ("seed_enable_extras", VBool false);
    ("sampler_name", VStr (Img2ImgBody.sampler_index b));
    ("batch_size", VInt (Img2ImgBody.batch_size b));
    ("n_iter", VInt (Img2ImgBody.n_iter b));
    ("steps", VInt (Img2ImgBody.steps b));
    ("cfg_scale", VFloat (Img2ImgBody.cfg_scale b));
    ("width", VInt (Img2ImgBody.width b));
    ("height", VInt (Img2ImgBody.height b));
    ("restore_faces", VBool (Img2ImgBody.restore_faces b));
    ("tiling", VBool false);
    ("mask", mask);
    ("mask_blur", VInt (Img2ImgBody.mask_blur b));
    ("inpainting_fill", VInt (Img2ImgBody.inpainting_fill b));
    ("resize_mode", VInt (Img2ImgBody.resize_mode b));
    ("denoising_strength", VFloat (Img2ImgBody.denoising_strength b));
    ("inpaint_full_res", VBool (Img2ImgBody.inpaint_full_res b));
    ("inpaint_full_res_padding", VInt (Img2ImgBody.inpaint_full_res_padding b));
    ("inpainting_mask_invert", VInt (Img2ImgBody.inpainting_mask_invert b));
    ("override_settings", Img2ImgBody.override_settings b);
    ("do_not_save_samples", VBool true);
    ("do_not_save_grid", VBool true) ] in
  arrays <~ lift (control_arrays (Img2ImgBody.controlnet_input_image b)
                                 (Img2ImgBody.controlnet_mask b)) ;;
  let cn_args := [
    ("control_net_enabled", VBool true);
    ("control_net_module", VStr (Img2ImgBody.controlnet_module b));
    ("control_net_model", VStr (Img2ImgBody.controlnet_model b));
    ("control_net_weight", VFloat (Img2ImgBody.controlnet_weight b));
    ("control_net_image", VDict [("image", VArray arrays.1); ("mask", VArray arrays.2)]);
    ("control_net_scribble_mode", VBool false);
    ("control_net_resize_mode", VStr (Img2ImgBody.controlnet_resize_mode b));
    ("control_net_rgbbgr_mode", VBool false);
    ("control_net_lowvram", VBool (Img2ImgBody.controlnet_lowvram b));
    ("control_net_pres", VInt (Img2ImgBody.controlnet_processor_res b));
    ("control_net_pthr_a", VFloat (Img2ImgBody.controlnet_threshold_a b));
    ("control_net_pthr_b", VFloat (Img2ImgBody.controlnet_threshold_b b));
    ("control_net_guidance_strength", VFloat (Img2ImgBody.controlnet_guidance b));
    ("control_net_guess_mode", VBool (Img2ImgBody.controlnet_guessmode b));
    ("control_net_api_access", VBool true) ] in
  let p := setattr p "scripts" scripts_img2img in
  let p := setattr p "script_args" (VList [VInt 0]) in
  let p := fold_left (fun p kv => setattr p kv.1 kv.2) cn_args p in
  _ <~ (if enable_console_prompts
        then emit (EvPrint (VStr (String "010" "img2img: " ++ Img2ImgBody.prompt b)))
        else sret tt) ;;
  params <~ lift (getattr p "extra_generation_params") ;;
  p <~ (match params with
        | VDict d => sret (setattr p "extra_generation_params"
                             (VDict (setattr d "Mask blur" (VInt (Img2ImgBody.mask_blur b)))))
        | _ => sraise (TypeError "object does not support item assignment")
        end) ;;
  _ <~ emit (EvProcessImages p) ;;
  processed <~ lift (process_images p) ;;
  _ <~ emit EvClose ;;
  let generation_info_js := js processed in
  _ <~ (if samples_log_stdout then emit (EvPrint (VStr generation_info_js)) else sret tt) ;;
  let processed_images := if do_not_show_images then [] else images processed in
  b64images <~ lift (comprehension encode_to_base64 processed_images) ;;
  sret (VDict [("images", VList b64images); ("info", VStr (js processed))]).

(** Lines 396-400. *)
Definition model_list : stateful (list event) pyval :=
  _ <~ emit EvUpdateModels ;;
  _ <~ emit (EvPrint (VList (VStr <$> cn_models_names))) ;;
  sret (VDict [("model_list", VList (VStr <$> cn_models_names))]).

(** Lines 411-419. *)
Definition available_modules : list string :=
  ["canny"; "depth"; "depth_leres"; "fake_scribble"; "hed"; "mlsd";
   "normal_map"; "openpose"; "segmentation"].

(** [x in l] on strings. *)
Definition str_in (x : string) (l : list string) : bool := existsb (String.eqb x) l.

(** A call of an annotator of [scripts.processor], recorded in the trace;
    [res] is what the call returns or raises. *)
Definition annotator_call (name : string) (img : ndarray) (res : result pyval)
  : stateful (list event) pyval :=
  _ <~ emit (EvAnnotate name img) ;; lift res.

(** Lines 433-450: the annotator the module selects, applied to [img];
    [None] when no branch matches. *)
Definition annotate (b : DetectBody.t) (img : ndarray) : stateful (list event) (option pyval) :=
  let m := DetectBody.controlnet_module b in
  let res := DetectBody.controlnet_processor_res b in
  let thr_a := DetectBody.controlnet_threshold_a b in
  let thr_b := DetectBody.controlnet_threshold_b b in
  if String.eqb m "canny" then
    r <~ annotator_call "canny" img (canny img res thr_a thr_b) ;; sret (Some r)
  else if String.eqb m "hed" then
    r <~ annotator_call "hed" img (hed img res) ;; sret (Some r)
  else if String.eqb m "mlsd" then
    r <~ annotator_call "mlsd" img (mlsd img res thr_a thr_b) ;; sret (Some r)
  else if String.eqb m "depth" then
    r <~ annotator_call "midas" img (midas img res (np_pi * 2)%float) ;; sret (Some r)
  else if String.eqb m "normal_map" then
    r <~ annotator_call "midas_normal" img (midas_normal img res (np_pi * 2)%float thr_a) ;;
    sret (Some r)
  else if String.eqb m "depth_leres" then
    r <~ annotator_call "leres" img (leres img res (np_pi * 2)%float thr_a thr_b) ;;
    sret (Some r)
  else if String.eqb m "openpose" then
    r <~ annotator_call "openpose" img (openpose img res false) ;; sret (Some r)
  else if String.eqb m "fake_scribble" then
    r <~ annotator_call "fake_scribble" img (fake_scribble img res) ;; sret (Some r)
  else if String.eqb m "segmentation" then
    r <~ annotator_call "uniformer" img (uniformer img res) ;; sret (Some r)
  else sret None.

(** Lines 452-463. *)
Definition unload (m : string) : stateful (list event) unit :=
  if String.eqb m "hed" then emit (EvUnload "hed")
  else if String.eqb m "mlsd" then emit (EvUnload "mlsd")
  else if String.eqb m "depth" || String.eqb m "normal_map" then emit (EvUnload "midas")
  else if String.eqb m "depth_leres" then emit (EvUnload "leres")
  else if String.eqb m "openpose" then emit (EvUnload "openpose")
  else if String.eqb m "segmentation" then emit (EvUnload "uniformer")
  else sret tt.

(** Lines 403-466. *)
Definition detect (body : DetectBody.t) : stateful (list event) pyval :=
  let controlnet_module := DetectBody.controlnet_module body in
  let controlnet_input_images := DetectBody.controlnet_input_images body in
  if negb (str_in controlnet_module available_modules) then
    sret (VDict [("images", VList []); ("info", VStr "Module not available")])
  else if Nat.eqb (length controlnet_input_images) 0 then
    sret (VDict [("images", VList []); ("info", VStr "No image selected")])
  else
    _ <~ emit (EvPrint (VStr ("Detecting " ++ pretty (length controlnet_input_images)
                                ++ " images with the " ++ controlnet_module ++ " module."))) ;;
    results <~
      sfor (fun results input_image =>
              img <~ lift (decode_to_nparray input_image) ;;
              r <~ annotate body img ;;
              match r with
              | Some v => sret (results ++ [v])%list
              | None => sret results
              end)
           controlnet_input_images [] ;;
    _ <~ unload controlnet_module ;;
    results64 <~ lift (comprehension encode_to_base64 results) ;;
    sret (VDict [("images", VList results64); ("info", VStr "Success")]).

End Endpoints.

(* ================================================================== *)
(** * Routes (lines 162-181, 265-266, 396, 402, 468-473) *)
(* ================================================================== *)

Inductive http_method := GET | POST.

(** A route of the FastAPI application: path, methods, and the name of
    the function that serves it.  The application is the list of its
    routes, in the order of registration. *)
Record route := mk_route {
  route_path : string;
  route_methods : list http_method;
  route_endpoint : string
}.

(** [app.add_api_route(path, endpoint, methods=...)], which is also what
    the decorators [app.get(path)] and [app.post(path)] do. *)
Definition add_api_route (app : list route) (path : string) (methods : list http_method)
    (endpoint : string) : list route :=
  (app ++ [mk_route path methods endpoint])%list.

(** A class whose instances are built on an application: what its
    [__init__] does to the application's routes. *)
Definition api_class := list route -> list route.

(** Lines 164-167: [class Api(OriginalApi)]. *)
Definition Api (OriginalApi : api_class) : api_class :=
  fun app =>
    let app := OriginalApi app in
    add_api_route app "/controlnet/txt2img" [POST] "api_txt2img".

(** Lines 265-266, 396, 402: the callback run with the application. *)
Definition controlnet_api (app : list route) : list route :=
  let app := add_api_route app "/controlnet/img2img" [POST] "img2img" in
  let app := add_api_route app "/controlnet/model_list" [GET] "model_list" in
  let app := add_api_route app "/controlnet/detect" [POST] "detect" in
  app.

(** What the module reads and rebinds in the host when it is imported:
    the attribute [Api] of [modules.api.api], and the callbacks that
    [modules.script_callbacks.on_app_started] has collected ([None] when
    the host has no such module or function). *)
Record host_modules := mk_host_modules {
  api_Api : api_class;
  app_started_callbacks : option (list (list route -> list route))
}.

(** Lines 162-181 and 468-473: the statements the import of the module
    runs. *)
Definition import_api_module (m : host_modules) : host_modules :=
  let OriginalApi := api_Api m in
  {| api_Api := Api OriginalApi;
     app_started_callbacks :=
       match app_started_callbacks m with
       | Some callbacks => Some (callbacks ++ [controlnet_api])%list   (* try *)
       | None => None                                                  (* except: pass *)
       end |}.

(* ================================================================== *)
(** * A concrete host, for the examples *)
(* ================================================================== *)

(** The standard base64 alphabet, decoded the way CPython's
    [binascii.a2b_base64] does in its default (lenient) mode: characters
    outside the alphabet are skipped, a pad that completes a quad ends the
    input, and an incomplete quad at the end is an error. *)
Module Base64.

Definition value_of (c : ascii) : option N :=
  let n := N_of_ascii c in
  if ((65 <=? n) && (n <=? 90))%N then Some (n - 65)%N
  else if ((97 <=? n) && (n <=? 122))%N then Some (n - 71)%N
  else if ((48 <=? n) && (n <=? 57))%N then Some (n + 4)%N
  else if (n =? 43)%N then Some 62%N
  else if (n =? 47)%N then Some 63%N
  else None.

Definition byte_of_N (n : N) : Byte.byte := byte_of_ascii (ascii_of_N n).

Fixpoint a2b (s : string) (quad_pos leftchar pads : N) (out : bytes) : option bytes :=
  match s with
  | EmptyString =>
      if (quad_pos =? 0)%N then Some (rev out) else None
  | String c s' =>
      if Ascii.eqb c "=" then
        if ((2 <=? quad_pos) && (4 <=? quad_pos + (pads + 1)))%N then Some (rev out)
        else a2b s' quad_pos leftchar (if (2 <=? quad_pos)%N then pads + 1 else pads)%N out
      else
        match value_of c with
        | None => a2b s' quad_pos leftchar pads out
        | Some v =>
            if (quad_pos =? 0)%N then a2b s' 1%N v 0%N out
            else if (quad_pos =? 1)%N then
              a2b s' 2%N (N.land v 15) 0%N
                  (byte_of_N (N.lor (N.shiftl leftchar 2) (N.shiftr v 4)) :: out)
            else if (quad_pos =? 2)%N then
              a2b s' 3%N (N.land v 3) 0%N
                  (byte_of_N (N.lor (N.shiftl leftchar 4) (N.shiftr v 2)) :: out)
            else
              a2b s' 0%N 0%N 0%N (byte_of_N (N.lor (N.shiftl leftchar 6) v) :: out)
        end
  end.

Fixpoint is_ascii (s : string) : bool :=
  match s with
  | EmptyString => true
  | String c s' => (N_of_ascii c <? 128)%N && is_ascii s'
  end.

(** [base64.b64decode(s)] for a [str]: a string with a character that is
    not ASCII is refused with a [ValueError], before it is decoded; the
    decoding fails with a [binascii.Error]. *)
Definition b64decode (s : string) : result bytes :=
  if is_ascii s then
    match a2b s 0%N 0%N 0%N [] with
    | Some raw => Ret raw
    | None => Raise binascii_Error
    end
  else Raise (ValueError "string argument should contain only ASCII characters").

Definition digit (n : N) : Byte.byte :=
  byte_of_N (if (n <? 26) then n + 65
             else if (n <? 52) then n + 71
             else if (n <? 62) then n - 4
             else if (n =? 62) then 43 else 47)%N.

Definition pad : Byte.byte := byte_of_ascii "=".

Fixpoint b2a (l : list N) : bytes :=
  match l with
  | a :: b :: c :: rest =>
      digit (N.shiftr a 2)
      :: digit (N.lor (N.shiftl (N.land a 3) 4) (N.shiftr b 4))
      :: digit (N.lor (N.shiftl (N.land b 15) 2) (N.shiftr c 6))
      :: digit (N.land c 63) :: b2a rest
  | [a; b] =>
      [digit (N.shiftr a 2);
       digit (N.lor (N.shiftl (N.land a 3) 4) (N.shiftr b 4));
       digit (N.shiftl (N.land b 15) 2); pad]
  | [a] => [digit (N.shiftr a 2); digit (N.shiftl (N.land a 3) 4); pad; pad]
  | [] => []
  end.

(** [base64.b64encode(b)] *)
Definition b64encode (b : bytes) : bytes := b2a (Byte.to_N <$> b).

End Base64.

Module Demo.

(** The eight bytes every PNG file starts with. *)
Definition png_signature : bytes :=
  Base64.byte_of_N <$> [137; 80; 78; 71; 13; 10; 26; 10]%N.

Fixpoint has_prefix (p b : bytes) : bool :=
  match p, b with
  | [], _ => true
  | x :: p', y :: b' => Byte.eqb x y && has_prefix p' b'
  | _ :: _, [] => false
  end.

(** An image library that knows one format: a file that starts with the
    PNG signature is a one-pixel RGB image whose pixel is the three bytes
    after the signature (zero where the file ends). *)
Definition open_png (raw : bytes) : result Image :=
  if has_prefix png_signature raw
  then Ret {| im_mode := "RGB"; im_size := (1, 1); im_info := [];
             im_data := firstn 3 (skipn 8 raw ++ repeat Byte.x00 3) |}
  else Raise UnidentifiedImageError.

Definition pixels (im : Image) : ndarray :=
  {| dtype := np_uint8; shape := [1; 1; 3];
     data := (fun b => Z.of_N (Byte.to_N b)) <$> im_data im |}.

Definition from_pixels (a : ndarray) : Image :=
  {| im_mode := "RGB"; im_size := (1, 1); im_info := [];
     im_data := (fun x => Base64.byte_of_N (Z.to_N x)) <$> data a |}.

Definition save_png (im : Image) (format : string) (o : save_option) (quality : Z) : bytes :=
  (png_signature ++ im_data im)%list.

Definition new_processing (kwargs : list (string * pyval)) : list (string * pyval) :=
  (kwargs ++ [("extra_generation_params", VDict []); ("scripts", VNone);
              ("script_args", VList [])])%list.

Definition host_with (format : string) : Host := {|
  b64decode := Base64.b64decode;
  b64encode := Base64.b64encode;
  Image_open := open_png;
  Image_fromarray := fun a => Ret (from_pixels a);
  Image_save := fun im format o quality => Ret (save_png im format o quality);
  np_array := fun im => Ret (pixels im);
  UserComment_dump := fun _ => Ret [];
  piexif_dump := fun b => Ret b;
  samples_format := format;
  jpeg_quality := 80;
  outdir_samples := "";
  outdir_img2img_samples := "outputs/img2img-images";
  outdir_grids := "";
  outdir_img2img_grids := "outputs/img2img-grids";
  samples_log_stdout := false;
  do_not_show_images := false;
  enable_console_prompts := false;
  sd_model := VNone;
  scripts_img2img := VNone;
  StableDiffusionProcessingImg2Img := new_processing;
  process_images := fun p => Ret {| images := []; js := "{}" |};
  cn_models_names := ["control_sd15_canny [fef5e48e]"];
  canny := fun img _ _ _ => Ret (VArray img);
  hed := fun img _ => Ret (VArray img);
  mlsd := fun img _ _ _ => Ret (VArray img);
  midas := fun img _ _ => Ret (VArray img);
  midas_normal := fun img _ _ _ => Ret (VArray img);
  leres := fun img _ _ _ _ => Ret (VArray img);
  openpose := fun img _ _ => Ret (VArray img);
  fake_scribble := fun img _ => Ret (VArray img);
  uniformer := fun img _ => Ret (VArray img)
|}.

(** The host as it is configured out of the box: samples are PNG files. *)
Definition host : Host := host_with "png".

(** The PNG signature in base64, and a string that is not base64. *)
Definition png_b64 : string := "iVBORw0KGgo=".
Definition not_b64 : string := "A".

(** A unit with every field at its default, and two units with an image. *)
Definition unit_default : ControlNetUnitRequest :=
  mk_unit "" "" "none" "None" 1 "Scale to Fit (Inner Fit)" false 64 64 64 1 true.
Definition unit_png : ControlNetUnitRequest :=
  mk_unit png_b64 "" "canny" "None" 1 "Scale to Fit (Inner Fit)" false 64 64 64 1 true.
Definition unit_bad : ControlNetUnitRequest :=
  mk_unit not_b64 "" "canny" "None" 1 "Scale to Fit (Inner Fit)" false 64 64 64 1 true.

(** A store with a script runner (at 1) whose always-on scripts (the list
    at 2) are a script titled "Seed" (at 3) and one titled "ControlNet"
    (at 4); and a runner (at 5) whose list (at 6) holds the first only. *)
Definition store : gmap loc object :=
  list_to_map [
    (1%positive, ObjRunner (mk_ScriptRunner 2%positive [("titles", VList [VStr "Seed"; VStr "ControlNet"])]));
    (2%positive, ObjList [3; 4]%positive);
    (3%positive, ObjScript (mk_Script "Seed" (VInt 0) (VInt 3) []));
    (4%positive, ObjScript (mk_Script "ControlNet" (VInt 3) (VInt 18) []));
    (5%positive, ObjRunner (mk_ScriptRunner 6%positive []));
    (6%positive, ObjList [3%positive])
  ].

(** A store with a script runner (at 1) whose always-on scripts (the list
    at 2) are a script titled "Seed" (at 3) and two scripts titled
    "ControlNet" (at 4) and "controlnet" (at 5). *)
Definition store_two_controlnets : gmap loc object :=
  list_to_map [
    (1%positive, ObjRunner (mk_ScriptRunner 2%positive [("name", VStr "txt2img")]));
    (2%positive, ObjList [3; 4; 5]%positive);
    (3%positive, ObjScript (mk_Script "Seed" (VInt 0) (VInt 3) []));
    (4%positive, ObjScript (mk_Script "ControlNet" (VInt 3) (VInt 18) [("first", VBool true)]));
    (5%positive, ObjScript (mk_Script "controlnet" (VInt 18) (VInt 33) []))
  ].

(** A txt2img request in the deprecated flat shape: one flat field is
    set, the others are absent. *)
Definition flat_request : gmap string pyval :=
  list_to_map [
    ("prompt", VStr "a cat"); ("steps", VInt 20);
    ("controlnet_units", VList []);
    ("controlnet_input_image", VList [VStr "A"]);
    ("controlnet_mask", VNone);
    ("controlnet_module", VStr "canny");
    ("controlnet_model", VNone);
    ("controlnet_weight", VNone);
    ("controlnet_resize_mode", VNone);
    ("controlnet_lowvram", VNone);
    ("controlnet_processor_res", VNone);
    ("controlnet_threshold_a", VNone);
    ("controlnet_threshold_b", VNone);
    ("controlnet_guidance", VNone);
    ("controlnet_guessmode", VNone)
  ].

(** A txt2img request in the new shape: no flat field is set. *)
Definition nested_request : gmap string pyval :=
  list_to_map [
    ("prompt", VStr "a cat"); ("steps", VInt 20);
    ("controlnet_units", VList [VUnit unit_default]);
    ("controlnet_input_image", VNone);
    ("controlnet_mask", VNone);
    ("controlnet_module", VNone)
  ].

Definition detect_body (m : string) (imgs : list string) : DetectBody.t :=
  DetectBody.mk m imgs 512 64 64.

Definition img2img_body (cn_images cn_masks : list string) : Img2ImgBody.t :=
  Img2ImgBody.mk [] None 30 0 true 1 1 0 0x1.6666666666666p-1 "a cat" EmptyString
    cn_images cn_masks "canny" "control_sd15_canny [fef5e48e]" 1
    "Scale to Fit (Inner Fit)" false 64 64 64 1 true
    (-1) (-1) (-1) "Euler a" 1 1 20 7 512 512 true true VNone true.

(** A host without [script_callbacks.on_app_started], and one with it. *)
Definition old_host_modules : host_modules :=
  {| api_Api := fun app => add_api_route app "/sdapi/v1/txt2img" [POST] "text2imgapi";
     app_started_callbacks := None |}.
Definition host_modules_now : host_modules :=
  {| api_Api := fun app => add_api_route app "/sdapi/v1/txt2img" [POST] "text2imgapi";
     app_started_callbacks := Some [] |}.

End Demo.

(* ================================================================== *)
(** * Vocabulary of the statements *)
(* ================================================================== *)

(** Whether the character [c] occurs in [s]. *)
Fixpoint occurs (c : ascii) (s : string) : bool :=
  match s with
  | EmptyString => false
  | String c' s' => Ascii.eqb c' c || occurs c s'
  end.

(** [np.array(0).reshape((1, 1, 1))] *)
Definition zero_1x1x1 : ndarray :=
  {| dtype := np_int64; shape := [1; 1; 1]; data := [0] |}.

(** The tuple that lines 244-262 build from the image and mask entries. *)
Definition unit_args (u : ControlNetUnitRequest) (image mask_entry : pyval) : list pyval :=
  [ VBool true; VStr (module u); VStr (model u); VFloat (weight u);
    VDict [("image", image); ("mask", mask_entry)];
    VBool false; VStr (resize_mode u); VBool false; VBool (lowvram u);
    VInt (processor_res u); VFloat (threshold_a u); VFloat (threshold_b u);
    VFloat (guidance u); VBool (guessmode u) ].

(** The entry for an image field: [fallback] for the empty string, the
    decoded array otherwise. *)
Definition entry_of `{host : Host} (field : string) (fallback entry : pyval) : Prop :=
  (field = EmptyString /\ entry = fallback) \/
  (field <> EmptyString /\ exists a, to_base64_nparray field = Ret a /\ entry = VArray a).

(** In the store [h], [runner] is a script runner whose always-on scripts
    are the scripts [ss], in this order. *)
Definition runner_scripts (h : gmap loc object) (runner : loc) (ss : list Script) : Prop :=
  exists r scripts,
    h !! runner = Some (ObjRunner r) /\
    h !! alwayson_scripts r = Some (ObjList scripts) /\
    Forall2 (fun l s => h !! l = Some (ObjScript s)) scripts ss.

(** [keeps h0 m Q]: run from any store that extends [h0], [m] ends in a
    store that extends [h0], whether it returns or raises, and what it
    returns satisfies [Q]. *)
Definition keeps (h0 : gmap loc object) {A} (m : stateful heap A) (Q : A -> Prop) : Prop :=
  forall h, h0 ⊆ h -> h0 ⊆ (m h).2 /\ forall a, (m h).1 = Ret a -> Q a.

(** The runner that [create_cn_script_runner] returns, if it returns one,
    is an object that was not in the store [h0]. *)
Definition new_runner (h0 : gmap loc object) (res : pyval * list pyval) : Prop :=
  match res.1 with
  | VRef l => h0 !! l = None
  | _ => True
  end.

(** The annotator of [scripts.processor] that belongs to each module of
    [/controlnet/detect], with the arguments it takes from the request:
    the name of the function and the function of the image. *)
Definition annotator_table `{host : Host} (b : DetectBody.t)
  : list (string * (string * (ndarray -> result pyval))) :=
  let res := DetectBody.controlnet_processor_res b in
  let thr_a := DetectBody.controlnet_threshold_a b in
  let thr_b := DetectBody.controlnet_threshold_b b in
  [ ("canny", ("canny", fun img => canny img res thr_a thr_b));
    ("depth", ("midas", fun img => midas img res (np_pi * 2)%float));
    ("depth_leres", ("leres", fun img => leres img res (np_pi * 2)%float thr_a thr_b));
    ("fake_scribble", ("fake_scribble", fun img => fake_scribble img res));
    ("hed", ("hed", fun img => hed img res));
    ("mlsd", ("mlsd", fun img => mlsd img res thr_a thr_b));
    ("normal_map", ("midas_normal", fun img => midas_normal img res (np_pi * 2)%float thr_a));
    ("openpose", ("openpose", fun img => openpose img res false));
    ("segmentation", ("uniformer", fun img => uniformer img res)) ].

Fixpoint assoc {A} (k : string) (table : list (string * A)) : option A :=
  match table with
  | [] => None
  | (k', v) :: rest => if String.eqb k k' then Some v else assoc k rest
  end.

Definition selected_annotator `{host : Host} (b : DetectBody.t)
  : option (string * (ndarray -> result pyval)) :=
  assoc (DetectBody.controlnet_module b) (annotator_table b).

(** [out] is the processed image of the input [input]: the input decodes
    to an array, and the result of the selected annotator on this array
    encodes to [out]. *)
Definition processed_image `{host : Host} (b : DetectBody.t) (input : string) (img : ndarray)
    (out : pyval) : Prop :=
  decode_to_nparray input = Ret img /\
  exists name f v,
    selected_annotator b = Some (name, f) /\ f img = Ret v /\ encode_to_base64 v = Ret out.

(** The configured sample format is one that [encode_pil_to_base64] knows. *)
Definition known_samples_format `{host : Host} : Prop :=
  In (lower samples_format) ["png"; "jpg"; "jpeg"; "webp"].

(** The calls into the host that a computation makes, oldest first. *)
Definition calls {A} (m : stateful (list event) A) : list event := (m []).2.

(** An [IndexError] raised by one of the two list accesses of lines 346
    and 352. *)
Definition list_access_error (e : exn) : Prop :=
  e = IndexError "controlnet_input_image[0]" \/ e = IndexError "controlnet_mask[0]".

(** The placeholder of line 350. *)
Definition zeros_512x512x3 : ndarray := astype_uint8 (np_zeros [512; 512; 3]).

(** The four routes of the module. *)
Definition route_txt2img : route := mk_route "/controlnet/txt2img" [POST] "api_txt2img".
Definition route_img2img : route := mk_route "/controlnet/img2img" [POST] "img2img".
Definition route_model_list : route := mk_route "/controlnet/model_list" [GET] "model_list".
Definition route_detect : route := mk_route "/controlnet/detect" [POST] "detect".

(** The routes of an application whose path is under [/controlnet/]. *)
Definition controlnet_routes (app : list route) : list route :=
  List.filter (fun r => startswith (route_path r) "/controlnet/") app.

(** The default of the field [f] of [cn_fields]. *)
Definition field_default (f : string) : pyval :=
  match cn_fields !! f with
  | Some field => default field
  | None => VNone
  end.

(** What the flat field [controlnet_<f>] of a request contributes to the
    unit built from the flat fields: its value when the request has one
    that is not [None], the default of the field [f] otherwise. *)
Definition flat_value (req : gmap string pyval) (f : string) : pyval :=
  match req !! ("controlnet_" ++ f) with
  | Some VNone | None => field_default f
  | Some v => v
  end.

(** The flat fields of a request are among the twelve that the request
    class declares (lines 148-159). *)
Definition declared_flat_fields (req : gmap string pyval) : Prop :=
  forall k v, is_deprecated_key k = true -> req !! k = Some v ->
    exists f, k = "controlnet_" ++ f /\ is_Some (cn_fields !! f).

(** The request has a flat field that is set. *)
Definition some_flat_field_set (req : gmap string pyval) : Prop :=
  exists k v, is_deprecated_key k = true /\ req !! k = Some v /\ v <> VNone.

(** An item of [image.info] whose key and value are both [str]. *)
Definition is_text_item (item : info_value * info_value) : bool :=
  match item with
  | (InfoStr _, InfoStr _) => true
  | _ => false
  end.

(** A value that [encode_to_base64] encodes: a PIL image or an array. *)
Definition is_picture (v : pyval) : bool :=
  match v with
  | VImage _ | VArray _ => true
  | _ => false
  end.

(** The two places of line 37 where the header of a data URI is split. *)
Definition header_error (e : exn) : Prop :=
  e = IndexError "encoding.split(';')[1]" \/
  e = IndexError "encoding.split(';')[1].split(',')[1]".

(** An exception that one of the library calls of
    [encode_pil_to_base64] raised for [image]: [image.save],
    [piexif.helper.UserComment.dump] or [piexif.dump]. *)
Definition raised_by_save `{host : Host} (image : Image) (e : exn) : Prop :=
  (exists format o, Image_save image format o jpeg_quality = Raise e) \/
  (exists parameters, UserComment_dump parameters = Raise e) \/
  (exists comment, piexif_dump comment = Raise e).

(** [encode_pil_to_base64] with the format [format] of [image.save] and
    an EXIF block (lines 70-77). *)
Definition saved_with_exif `{host : Host} (image : Image) (format : string) : result bytes :=
  comment <- UserComment_dump (parameters_or_empty (info_get_parameters (im_info image))) ;;
  exif_bytes <- piexif_dump comment ;;
  raw <- Image_save image format (exif exif_bytes) jpeg_quality ;;
  Ret (b64encode raw).

(** What [/controlnet/img2img] prints before it generates (lines
    378-379) and after (lines 387-388). *)
Definition console_events `{host : Host} (body : Img2ImgBody.t) : list event :=
  if enable_console_prompts
  then [EvPrint (VStr (String "010" "img2img: " ++ Img2ImgBody.prompt body))]
  else [].

Definition log_events `{host : Host} (generation_info_js : string) : list event :=
  if samples_log_stdout then [EvPrint (VStr generation_info_js)] else [].

(** The attributes that lines 355-381 set on the processing object [p]
    before it is handed to [process_images]. *)
Definition controlnet_attributes `{host : Host} (body : Img2ImgBody.t)
    (p : list (string * pyval)) : Prop :=
  getattr p "scripts" = Ret scripts_img2img /\
  getattr p "script_args" = Ret (VList [VInt 0]) /\
  getattr p "control_net_enabled" = Ret (VBool true) /\
  getattr p "control_net_module" = Ret (VStr (Img2ImgBody.controlnet_module body)) /\
  getattr p "control_net_model" = Ret (VStr (Img2ImgBody.controlnet_model body)) /\
  getattr p "control_net_weight" = Ret (VFloat (Img2ImgBody.controlnet_weight body)) /\
  getattr p "control_net_scribble_mode" = Ret (VBool false) /\
  getattr p "control_net_resize_mode" = Ret (VStr (Img2ImgBody.controlnet_resize_mode body)) /\
  getattr p "control_net_rgbbgr_mode" = Ret (VBool false) /\
  getattr p "control_net_lowvram" = Ret (VBool (Img2ImgBody.controlnet_lowvram body)) /\
  getattr p "control_net_pres" = Ret (VInt (Img2ImgBody.controlnet_processor_res body)) /\
  getattr p "control_net_pthr_a" = Ret (VFloat (Img2ImgBody.controlnet_threshold_a body)) /\
  getattr p "control_net_pthr_b" = Ret (VFloat (Img2ImgBody.controlnet_threshold_b body)) /\
  getattr p "control_net_guidance_strength"
  = Ret (VFloat (Img2ImgBody.controlnet_guidance body)) /\
  getattr p "control_net_guess_mode" = Ret (VBool (Img2ImgBody.controlnet_guessmode body)) /\
  getattr p "control_net_api_access" = Ret (VBool true) /\
  exists params,
    getattr p "extra_generation_params" = Ret (VDict params) /\
    getattr params "Mask blur" = Ret (VInt (Img2ImgBody.mask_blur body)).

(** The mask of an img2img request is absent, empty, or decodes. *)
Definition mask_decodes `{host : Host} (body : Img2ImgBody.t) : Prop :=
  match Img2ImgBody.mask body with
  | Some m => m = "" \/ exists image, decode_base64_to_image m = Ret image
  | None => True
  end.

(** The processing objects that the host builds from keyword arguments
    that do not name [extra_generation_params] have a dictionary
    [extra_generation_params]. *)
Definition processing_has_params `{host : Host} : Prop :=
  forall kwargs,
    forallb (fun kv : string * pyval => negb (String.eqb kv.1 "extra_generation_params"))
            kwargs = true ->
    exists params,
      getattr (StableDiffusionProcessingImg2Img kwargs) "extra_generation_params"
      = Ret (VDict params).

(** How a run of the endpoint ends once the processing object [p] is
    built: [process_images] raises, and the object is not closed; or it
    returns, the object is closed, and what was generated is encoded. *)
Definition img2img_generation `{host : Host} (body : Img2ImgBody.t) (t : list event)
    (p : list (string * pyval)) (r : result pyval) (t' : list event) : Prop :=
  (exists e, process_images p = Raise e /\ r = Raise e /\
             t' = (t ++ console_events body ++ [EvProcessImages p])%list) \/
  (exists processed,
     process_images p = Ret processed /\
     t' = (t ++ console_events body ++ [EvProcessImages p; EvClose]
             ++ log_events (js processed))%list /\
     r = (b64images <- comprehension encode_to_base64
                         (if do_not_show_images then [] else images processed) ;;
          Ret (VDict [("images", VList b64images); ("info", VStr (js processed))]))).

(** The input [s] of a detect request decodes to the array [a], and the
    selected annotator returns on [a]. *)
Definition annotated `{host : Host} (b : DetectBody.t) (s : string) (a : ndarray) : Prop :=
  decode_to_nparray s = Ret a /\
  exists name f v, selected_annotator b = Some (name, f) /\ f a = Ret v.

(** [v] is what the selected annotator returned on one of [inputs]. *)
Definition annotator_result `{host : Host} (b : DetectBody.t) (inputs : list string)
    (v : pyval) : Prop :=
  exists s a name f,
    In s inputs /\ decode_to_nparray s = Ret a /\
    selected_annotator b = Some (name, f) /\ f a = Ret v.

(** [e] is what the selected annotator raised on one of [inputs]. *)
Definition annotator_raised `{host : Host} (b : DetectBody.t) (inputs : list string)
    (e : exn) : Prop :=
  exists s a name f,
    In s inputs /\ decode_to_nparray s = Ret a /\
    selected_annotator b = Some (name, f) /\ f a = Raise e.

(* ================================================================== *)
(** * Sampler names (lines 25-30) *)
(* ================================================================== *)

(** [all_samplers_map] is [sd_samplers.all_samplers_map] of the host. *)
Definition validate_sampler_name (all_samplers_map : gmap string pyval) (name : string)
  : result string :=
  let config := match all_samplers_map !! name with
                | Some config => config
                | None => VNone
                end in
  if is_None config then Raise (HTTPException 404 "Sampler not found")
  else Ret name.

(* ================================================================== *)
(** * The JSON schema of the request (lines 134-145) *)
(* ================================================================== *)

(** The schema pydantic hands to [schema_extra] is a JSON tree it has
    just built: a dictionary whose entry [properties] is a dictionary of
    dictionaries, none of them shared.  It is embedded as a value; the
    updates the function makes in place are the changes of the value
    returned.  A property [v] that line 141 has put into [props] is the
    same object that line 143 updates, so [props] holds the updated
    property. *)

(** [d.get(k)], as an option. *)
Fixpoint dict_lookup (d : list (string * pyval)) (k : string) : option pyval :=
  match d with
  | [] => None
  | (k', v) :: d' => if String.eqb k' k then Some v else dict_lookup d' k
  end.

(** Lines 142-143 on one property. *)
Definition docs_default_applied (v : list (string * pyval)) : list (string * pyval) :=
  if negb (is_None (dict_get v "docs_default" VNone))
  then setattr v "default" (dict_get v "docs_default" VNone)
  else v.

(** Line 140: [not v.get('deprecated', False)]. *)
Definition not_deprecated (v : list (string * pyval)) : bool :=
  negb (truthy (dict_get v "deprecated" (VBool false))).

(** Lines 139-143: one turn of the loop, which adds to [props] and
    updates the property; [seen] collects the properties as the loop
    leaves them. *)
Definition schema_extra_step (acc : list (string * pyval) * list (string * pyval))
    (kv : string * pyval) : result (list (string * pyval) * list (string * pyval)) :=
  match kv.2 with
  | VDict v =>
      let props := if not_deprecated v
                   then setattr acc.1 kv.1 (VDict (docs_default_applied v))
                   else acc.1 in
      Ret (props, (acc.2 ++ [(kv.1, VDict (docs_default_applied v))])%list)
  | _ => Raise (AttributeError "get")
  end.

(** Lines 138-143. *)
Definition schema_extra_loop (items : list (string * pyval))
  : result (list (string * pyval) * list (string * pyval)) :=
  for_each schema_extra_step items ([], []).

(** Lines 137-145. *)
Definition schema_extra (schema : list (string * pyval)) : result (list (string * pyval)) :=
  match dict_lookup schema "properties" with
  | None => Ret schema
  | Some (VDict items) =>
      acc <- schema_extra_loop items ;;
      if truthy (VDict acc.1)
      then Ret (setattr schema "properties" (VDict acc.1))
      else Ret (setattr schema "properties" (VDict acc.2))
  | Some _ => Raise (AttributeError "items")
  end.

(* ================================================================== *)
(** * The txt2img route (lines 164-200) *)
(* ================================================================== *)

(** What the [__init__] of a class does: from the arguments of the
    constructor to the attributes of the new object. *)
Definition init_fn := list (string * pyval) -> list (string * pyval).

(** The calls that serving a txt2img request makes: on the lock of the
    queue, and into [text2imgapi] of the host. *)
Inductive api_event : Type :=
| EvAcquire
| EvRelease
| EvText2ImgApi (txt2imgreq : gmap string pyval).

(** The state a txt2img request is served in: the object store, the
    [__init__] of [StableDiffusionProcessingTxt2Img], and the calls made
    so far. *)
Record world := mk_world {
  objects : gmap loc object;
  Txt2Img_init : init_fn;
  api_calls : list api_event
}.

(** What the route takes from the host: [scripts.scripts_txt2img], and
    [text2imgapi] of the original class, which builds its processing
    object with the [__init__] that the class has at that time and may
    change the objects of the store. *)
Class Txt2ImgHost := {
  scripts_txt2img : loc;
  text2imgapi : init_fn -> gmap string pyval -> stateful heap pyval
}.

(** Lines 191-194: the [__init__] that [OverrideInit] installs. *)
Definition override_init (original_init : init_fn) (kwargs : list (string * pyval)) : init_fn :=
  fun args =>
    let p := original_init args in
    fold_left (fun p kv => setattr p kv.1 kv.2) kwargs p.

(** [with OverrideInit(StableDiffusionProcessingTxt2Img, **kwargs): body]:
    [__enter__] (lines 190-197), the body, and [__exit__] (lines
    199-200) whether the body returned or raised; [__exit__] returns
    [None], so an exception of the body goes on. *)
Definition with_OverrideInit {A} (kwargs : list (string * pyval)) (body : stateful world A)
  : stateful world A :=
  fun w =>
    let original_init := Txt2Img_init w in
    let w := mk_world (objects w) (override_init original_init kwargs) (api_calls w) in
    let (r, w) := body w in
    (r, mk_world (objects w) original_init (api_calls w)).

Definition record_call (e : api_event) (w : world) : world :=
  mk_world (objects w) (Txt2Img_init w) (api_calls w ++ [e])%list.

(** [with self.queue_lock: body] *)
Definition with_queue_lock {A} (body : stateful world A) : stateful world A :=
  fun w =>
    let w := record_call EvAcquire w in
    let (r, w) := body w in
    (r, record_call EvRelease w).

(** A computation on the object store, run in the world. *)
Definition on_objects {A} (m : stateful heap A) : stateful world A :=
  fun w =>
    let (r, h) := m (objects w) in
    (r, mk_world h (Txt2Img_init w) (api_calls w)).

(** [txt2imgreq.controlnet_units]: a parsed request holds a list of
    units here; anything else is refused. *)
Definition get_controlnet_units (req : gmap string pyval) : result (list ControlNetUnitRequest) :=
  match req !! "controlnet_units" with
  | Some (VList l) =>
      comprehension (fun v => match v with
                              | VUnit u => Ret u
                              | _ => Raise (AttributeError "module")
                              end) l
  | Some _ => Raise (TypeError "object is not iterable")
  | None => Raise (AttributeError "controlnet_units")
  end.

(** [txt2imgreq.script_args += more] *)
Definition iadd_script_args (req : gmap string pyval) (more : list pyval)
  : result (gmap string pyval) :=
  match req !! "script_args" with
  | Some (VList l) => Ret (<["script_args" := VList (l ++ more)]> req)
  | Some _ => Raise (TypeError "unsupported operand type(s) for +=")
  | None => Raise (AttributeError "script_args")
  end.

(** [delattr(txt2imgreq, name)] *)
Definition delattr (req : gmap string pyval) (name : string) : result (gmap string pyval) :=
  match req !! name with
  | Some _ => Ret (delete name req)
  | None => Raise (AttributeError name)
  end.

Section Txt2Img.
Context {host : Host} {txt2img_host : Txt2ImgHost}.

(** [self_copy.text2imgapi(txt2imgreq)]: [self_copy] is a copy of the
    [Api] object whose lock is a [nullcontext], so that the method of the
    host does not wait for the lock that is held. *)
Definition call_text2imgapi (txt2imgreq : gmap string pyval) : stateful world pyval :=
  fun w =>
    let w := record_call (EvText2ImgApi txt2imgreq) w in
    on_objects (text2imgapi (Txt2Img_init w) txt2imgreq) w.

(** Lines 169-178. *)
Definition api_txt2img (txt2imgreq : gmap string pyval) : stateful world pyval :=
  txt2imgreq <~ lift (nest_deprecated_cn_fields txt2imgreq) ;;
  controlnet_units <~ lift (get_controlnet_units txt2imgreq) ;;
  created <~ on_objects (create_cn_script_runner scripts_txt2img controlnet_units) ;;
  let script_runner := created.1 in
  let script_runner_args := created.2 in
  txt2imgreq <~ lift (iadd_script_args txt2imgreq script_runner_args) ;;
  txt2imgreq <~ lift (delattr txt2imgreq "controlnet_units") ;;
  with_queue_lock
    (with_OverrideInit [("scripts", script_runner)]
       (call_text2imgapi txt2imgreq)).

End Txt2Img.

(** A host for the examples of the txt2img route: the script runner is
    the first object of [Demo.store], and [text2imgapi] answers with the
    [scripts] of a processing object it builds. *)
Module DemoApi.

Definition txt2img_host : Txt2ImgHost := {|
  scripts_txt2img := 1%positive;
  text2imgapi := fun init req h =>
    (Ret (VDict [("scripts", dict_get (init []) "scripts" VNone);
                 ("script_args", match req !! "script_args" with
                                 | Some v => v
                                 | None => VNone
                                 end)]), h)
|}.

Definition world0 : world := mk_world Demo.store Demo.new_processing [].

(** A request in the new shape with one default unit. *)
Definition request : gmap string pyval :=
  <["script_args" := VList []]> Demo.nested_request.

(** A schema with a property that has a default for the documentation
    and a deprecated property. *)
Definition schema : list (string * pyval) :=
  [("title", VStr "StableDiffusionTxt2ImgControlNetProcessingAPI");
   ("properties",
    VDict [("controlnet_units",
            VDict [("default", VList []); ("docs_default", VList [VUnit Demo.unit_default])]);
           ("controlnet_module",
            VDict [("deprecated", VBool true); ("type", VStr "string")])])].

End DemoApi.

(** A property of a schema as [schema_extra] leaves it, and whether it
    is one that the documentation shows. *)
Definition property_updated (kv : string * pyval) : string * pyval :=
  match kv.2 with
  | VDict v => (kv.1, VDict (docs_default_applied v))
  | _ => kv
  end.

Definition property_shown (kv : string * pyval) : bool :=
  match kv.2 with
  | VDict v => not_deprecated v
  | _ => false
  end.

Definition is_dict (v : pyval) : Prop := exists d, v = VDict d.

(** The properties of a schema after [schema_extra]: those that are not
    deprecated, or all of them when every one is deprecated. *)
Definition properties_after (items : list (string * pyval)) : list (string * pyval) :=
  match List.filter property_shown items with
  | [] => map property_updated items
  | shown => map property_updated shown
  end.

(* ================================================================== *)
(** * Properties *)
(* ================================================================== *)

(** ** The result monad *)

Lemma bind_Ret {A B} (m : result A) (k : A -> result B) (a : A) :
  m = Ret a -> bind m k = k a.
Proof. intros ->. reflexivity. Qed.

Lemma bind_Ret_inv {A B} (m : result A) (k : A -> result B) (b : B) :
  bind m k = Ret b -> exists a, m = Ret a /\ k a = Ret b.
Proof. destruct m as [a|e]; simpl; [eauto | discriminate]. Qed.

Lemma bind_Raise_inv {A B} (m : result A) (k : A -> result B) (e : exn) :
  bind m k = Raise e -> m = Raise e \/ exists a, m = Ret a /\ k a = Raise e.
Proof. destruct m as [a|e']; simpl; [eauto | intros [= ->]; auto]. Qed.

Lemma comprehension_Forall2 {A B} (f : A -> result B) (l : list A) (l' : list B) :
  Forall2 (fun x y => f x = Ret y) l l' -> comprehension f l = Ret l'.
Proof.
  induction 1 as [|x y l l' Hxy _ IH]; simpl; [reflexivity|].
  rewrite Hxy. simpl. rewrite IH. reflexivity.
Qed.

(** ** Strings *)

Local Arguments String.append !s1 s2 : simpl nomatch.


Lemma split_cons_inv (s : string) (sep : ascii) :
  exists piece pieces, split s sep = piece :: pieces.
Proof.
  induction s as [|c s IH]; simpl; [eauto|].
  destruct (Ascii.eqb c sep); [eauto|].
  destruct IH as (p & ps & ->). eauto.
Qed.

Lemma split_absent (s : string) (sep : ascii) :
  occurs sep s = false -> split s sep = [s].
Proof.
  induction s as [|c s IH]; simpl; [reflexivity|].
  intros H. apply orb_false_iff in H as [Hc Hs].
  rewrite Hc, (IH Hs). reflexivity.
Qed.

Lemma split_at_first (s1 s2 : string) (sep : ascii) :
  occurs sep s1 = false ->
  split (s1 ++ String sep s2) sep = s1 :: split s2 sep.
Proof.
  induction s1 as [|c s1 IH]; simpl.
  - intros _. rewrite Ascii.eqb_refl. reflexivity.
  - intros H. apply orb_false_iff in H as [Hc Hs].
    rewrite Hc, (IH Hs). reflexivity.
Qed.

Lemma occurs_app (c : ascii) (s1 s2 : string) :
  occurs c (s1 ++ s2) = occurs c s1 || occurs c s2.
Proof.
  induction s1 as [|c' s1 IH]; simpl; [reflexivity|].
  rewrite IH. apply orb_assoc.
Qed.

Lemma str_app_assoc (s1 s2 s3 : string) : (s1 ++ s2) ++ s3 = s1 ++ (s2 ++ s3).
Proof. induction s1 as [|c s1 IH]; simpl; [reflexivity | rewrite IH; reflexivity]. Qed.

Lemma prefix_app (p s : string) : String.prefix p (p ++ s) = true.
Proof.
  induction p as [|c p IH]; simpl; [destruct s; reflexivity|].
  destruct (ascii_dec c c); [exact IH | contradiction].
Qed.

(** ** Decoding

    A well-formed data URI, [data:image/<subtype>;<params>,<payload>]
    with one semicolon and one comma, is cut down to its payload. *)
Lemma strip_header_data_uri (subtype params payload : string) :
  occurs ";" subtype = false ->
  occurs ";" params = false -> occurs "," params = false ->
  occurs ";" payload = false -> occurs "," payload = false ->
  strip_header ("data:image/" ++ subtype ++ ";" ++ params ++ "," ++ payload) = Ret payload.
Proof.
  intros Hs Hp1 Hp2 Hq1 Hq2. unfold strip_header, startswith.
  rewrite prefix_app.
  replace ("data:image/" ++ subtype ++ ";" ++ params ++ "," ++ payload)
    with (("data:image/" ++ subtype) ++ String ";" (params ++ String "," payload))
    by (rewrite str_app_assoc; reflexivity).
  rewrite split_at_first by (rewrite occurs_app, Hs; reflexivity).
  rewrite split_absent by (rewrite occurs_app; simpl; rewrite Hp1, Hq1; reflexivity).
  simpl. rewrite split_at_first by assumption.
  rewrite split_absent by assumption. reflexivity.
Qed.

(** The header split raises nothing but one of the two [IndexError]s of
    line 37, and only for a string that starts with [data:image/]. *)
Lemma strip_header_header_error (encoding : string) (e : exn) :
  strip_header encoding = Raise e ->
  startswith encoding "data:image/" = true /\ header_error e.
Proof.
  unfold strip_header, header_error.
  destruct (startswith encoding "data:image/"); [|discriminate].
  intros H. split; [reflexivity|].
  apply bind_Raise_inv in H as [Hr | (part & _ & Hr)];
    unfold index in Hr;
    match type of Hr with
    | context [nth_error ?l ?i] => destruct (nth_error l i)
    end; try discriminate; injection Hr as <-; auto.
Qed.

Lemma strip_header_Raise (encoding : string) (e : exn) :
  strip_header encoding = Raise e -> exists site, e = IndexError site.
Proof.
  intros H. apply strip_header_header_error in H as [_ [-> | ->]]; eauto.
Qed.

(** A data URI without a semicolon, and one whose second piece between
    semicolons has no comma. *)
Lemma strip_header_no_semicolon (encoding : string) :
  startswith encoding "data:image/" = true -> occurs ";" encoding = false ->
  strip_header encoding = Raise (IndexError "encoding.split(';')[1]").
Proof.
  intros Hp Hs. unfold strip_header. rewrite Hp, (split_absent _ _ Hs). reflexivity.
Qed.

Lemma split_second (s1 s2 tail : string) (sep : ascii) :
  occurs sep s1 = false -> occurs sep s2 = false ->
  tail = "" \/ (exists t, tail = String sep t) ->
  exists pieces, split (s1 ++ String sep (s2 ++ tail)) sep = s1 :: s2 :: pieces.
Proof.
  intros H1 H2 Ht. rewrite split_at_first by assumption.
  destruct Ht as [-> | [t ->]].
  - replace (s2 ++ "") with s2 by (clear; induction s2; simpl; congruence).
    rewrite split_absent by assumption. eauto.
  - rewrite split_at_first by assumption. eauto.
Qed.

Lemma strip_header_no_comma (head params tail : string) :
  startswith (head ++ ";" ++ params ++ tail) "data:image/" = true ->
  occurs ";" head = false ->
  occurs ";" params = false -> occurs "," params = false ->
  tail = "" \/ (exists t, tail = String ";" t) ->
  strip_header (head ++ ";" ++ params ++ tail)
  = Raise (IndexError "encoding.split(';')[1].split(',')[1]").
Proof.
  intros Hp Hh Hp1 Hp2 Ht. unfold strip_header. rewrite Hp.
  destruct (split_second head params tail ";" Hh Hp1 Ht) as [pieces E].
  change (head ++ ";" ++ params ++ tail) with (head ++ String ";" (params ++ tail)).
  rewrite E. cbn [index nth_error bind].
  rewrite (split_absent _ _ Hp2). reflexivity.
Qed.

(** What [decode_base64_to_image] does once the header is cut off. *)
Lemma decode_base64_to_image_stripped `{host : Host} (encoding rest : string) :
  strip_header encoding = Ret rest ->
  decode_base64_to_image encoding
  = match b64decode rest with
    | Ret raw =>
        match Image_open raw with
        | Ret image => Ret image
        | Raise _ => Raise (HTTPException 500 "Invalid encoded image")
        end
    | Raise _ => Raise (HTTPException 500 "Invalid encoded image")
    end.
Proof.
  intros H. unfold decode_base64_to_image. rewrite H. cbn [bind].
  destruct (b64decode rest) as [raw|e]; cbn [bind try_except]; [|reflexivity].
  destruct (Image_open raw); reflexivity.
Qed.

Lemma decode_base64_to_image_raises `{host : Host} (encoding : string) (e : exn) :
  decode_base64_to_image encoding = Raise e ->
  e = HTTPException 500 "Invalid encoded image" \/
  (startswith encoding "data:image/" = true /\ header_error e).
Proof.
  intros H. destruct (strip_header encoding) as [rest|e'] eqn:Hrest.
  - left. rewrite (decode_base64_to_image_stripped _ _ Hrest) in H.
    destruct (b64decode rest) as [raw|]; [destruct (Image_open raw)|]; congruence.
  - right. unfold decode_base64_to_image in H. rewrite Hrest in H.
    injection H as <-. apply strip_header_header_error. exact Hrest.
Qed.

Lemma decode_base64_to_image_HTTPException `{host : Host} (encoding : string)
    (status : Z) (detail : string) :
  decode_base64_to_image encoding = Raise (HTTPException status detail) ->
  status = 500 /\ detail = "Invalid encoded image" /\
  exists rest, strip_header encoding = Ret rest /\
    ((exists e, b64decode rest = Raise e) \/
     exists raw, b64decode rest = Ret raw /\ exists e, Image_open raw = Raise e).
Proof.
  intros H. destruct (strip_header encoding) as [rest|e'] eqn:Hrest.
  - rewrite (decode_base64_to_image_stripped _ _ Hrest) in H.
    destruct (b64decode rest) as [raw|e1] eqn:Hraw.
    + destruct (Image_open raw) as [image|e2] eqn:Him; [discriminate|].
      injection H as <- <-. eauto 10.
    + injection H as <- <-. eauto 10.
  - unfold decode_base64_to_image in H. rewrite Hrest in H.
    apply strip_header_Raise in Hrest as [site ->]. discriminate.
Qed.



(** ** Script arguments of one unit *)

Lemma to_base64_nparray_uint8 `{host : Host} (encoding : string) (a : ndarray) :
  to_base64_nparray encoding = Ret a -> dtype a = np_uint8.
Proof.
  unfold to_base64_nparray. intros H.
  apply bind_Ret_inv in H as (im & _ & H).
  apply bind_Ret_inv in H as (b & _ & [= <-]). reflexivity.
Qed.

(** [to_base64_nparray] raises what [decode_base64_to_image] raises, or
    what [np.array] raises on the decoded image. *)
Lemma to_base64_nparray_Raise `{host : Host} (encoding : string) (e : exn) :
  to_base64_nparray encoding = Raise e <->
  decode_base64_to_image encoding = Raise e \/
  exists image, decode_base64_to_image encoding = Ret image /\ np_array image = Raise e.
Proof.
  unfold to_base64_nparray.
  destruct (decode_base64_to_image encoding) as [image|e1]; cbn [bind].
  - destruct (np_array image) as [a|e2] eqn:Ha; cbn [bind].
    + split; [discriminate|]. intros [H | (im & [= <-] & H)]; congruence.
    + split; [intros [= <-]; eauto|]. intros [H | (im & [= <-] & H)]; congruence.
  - split; [intros [= <-]; auto|]. intros [H | (im & H & _)]; congruence.
Qed.

Lemma str_truthy_false (s : string) : str_truthy s = false <-> s = EmptyString.
Proof. destruct s; simpl; split; congruence. Qed.

Lemma str_truthy_true (s : string) : s <> EmptyString -> str_truthy s = true.
Proof. destruct s; [contradiction | reflexivity]. Qed.

Lemma create_processing_unit_args_inv `{host : Host} (u : ControlNetUnitRequest) (args : list pyval) :
  create_processing_unit_args u = Ret args ->
  exists image mask_entry,
    args = unit_args u image mask_entry /\
    entry_of (input_image u) VNone image /\
    entry_of (mask u) (VArray zero_1x1x1) mask_entry.
Proof.
  unfold create_processing_unit_args. intros H.
  apply bind_Ret_inv in H as (image & Himage & H).
  apply bind_Ret_inv in H as (mask_entry & Hmask & [= <-]).
  exists image, mask_entry. split; [reflexivity|]. split.
  - destruct (str_truthy (input_image u)) eqn:Ht.
    + right. apply bind_Ret_inv in Himage as (a & Ha & [= <-]).
      split; [|eauto]. intros E. rewrite E in Ht. discriminate.
    + left. injection Himage as <-. apply str_truthy_false in Ht. auto.
  - destruct (str_truthy (mask u)) eqn:Ht.
    + right. apply bind_Ret_inv in Hmask as (a & Ha & [= <-]).
      split; [|eauto]. intros E. rewrite E in Ht. discriminate.
    + left. injection Hmask as <-. apply str_truthy_false in Ht. auto.
Qed.

Lemma create_processing_unit_args_length `{host : Host} (u : ControlNetUnitRequest) (args : list pyval) :
  create_processing_unit_args u = Ret args -> length args = 14%nat.
Proof.
  intros H. apply create_processing_unit_args_inv in H as (i & m & -> & _). reflexivity.
Qed.

(** C4, as amended.  For a unit whose [input_image] and [mask] are each
    the empty string or a string that [to_base64_nparray] decodes,
    [create_processing_unit_args] returns fourteen components: [True],
    module, model, weight, the dictionary of the image and mask entries,
    [False], resize_mode, [False], lowvram, processor_res, threshold_a,
    threshold_b, guidance, guessmode.  The image entry is [None] exactly
    when [input_image] is empty, and the decoded array otherwise; the mask
    entry is the 1x1x1 zero array exactly when [mask] is empty, and the
    decoded array otherwise.  When [to_base64_nparray] raises for a
    non-empty [input_image], or for a non-empty [mask] after the image
    went through, the function raises the same exception and returns no
    tuple; what [to_base64_nparray] raises is
    [HTTPException(500, "Invalid encoded image")], the [IndexError] of
    the header split of line 37, or what [np.array] raised on the
    decoded image. *)
Theorem create_processing_unit_args_spec `{host : Host} (u : ControlNetUnitRequest) :
  ((input_image u = EmptyString \/ exists a, to_base64_nparray (input_image u) = Ret a) ->
   (mask u = EmptyString \/ exists a, to_base64_nparray (mask u) = Ret a) ->
   exists image mask_entry,
     create_processing_unit_args u =
       Ret [ VBool true; VStr (module u); VStr (model u); VFloat (weight u);
             VDict [("image", image); ("mask", mask_entry)];
             VBool false; VStr (resize_mode u); VBool false; VBool (lowvram u);
             VInt (processor_res u); VFloat (threshold_a u); VFloat (threshold_b u);
             VFloat (guidance u); VBool (guessmode u) ] /\
     (image = VNone <-> input_image u = EmptyString) /\
     (mask_entry = VArray zero_1x1x1 <-> mask u = EmptyString) /\
     (input_image u <> EmptyString ->
        exists a, to_base64_nparray (input_image u) = Ret a /\ image = VArray a) /\
     (mask u <> EmptyString ->
        exists a, to_base64_nparray (mask u) = Ret a /\ mask_entry = VArray a)) /\
  (forall e, input_image u <> EmptyString ->
     to_base64_nparray (input_image u) = Raise e ->
     create_processing_unit_args u = Raise e) /\
  (forall e,
     (input_image u = EmptyString \/ exists a, to_base64_nparray (input_image u) = Ret a) ->
     mask u <> EmptyString ->
     to_base64_nparray (mask u) = Raise e ->
     create_processing_unit_args u = Raise e) /\
  (forall field e,
     to_base64_nparray field = Raise e ->
     e = HTTPException 500 "Invalid encoded image" \/
     (startswith field "data:image/" = true /\ header_error e) \/
     exists image, decode_base64_to_image field = Ret image /\ np_array image = Raise e).
Proof.
  assert (forall fallback : result pyval,
            (input_image u = EmptyString \/
             exists a, to_base64_nparray (input_image u) = Ret a) ->
            exists image,
              (if str_truthy (input_image u)
               then a <- to_base64_nparray (input_image u) ;; Ret (VArray a)
               else Ret VNone) = Ret image /\
              entry_of (input_image u) VNone image) as Himage_entry.
  { intros _ [E | [a Ha]].
    - rewrite E. exists VNone. split; [reflexivity | left; auto].
    - destruct (str_truthy (input_image u)) eqn:Ht.
      + exists (VArray a). rewrite Ha. split; [reflexivity|]. right.
        split; [intros E; rewrite E in Ht; discriminate | eauto].
      + exists VNone. split; [reflexivity|]. left.
        apply str_truthy_false in Ht. auto. }
  split; [|split; [|split]].
  - intros Himage Hmask.
    destruct (Himage_entry (Ret VNone) Himage) as (image & Ei & Pi).
    assert (exists mask_entry, (if str_truthy (mask u)
               then a <- to_base64_nparray (mask u) ;; Ret (VArray a)
               else a <- reshape (np_array_of_int 0) [1; 1; 1] ;; Ret (VArray a))
               = Ret mask_entry /\
              entry_of (mask u) (VArray zero_1x1x1) mask_entry) as (mask_entry & Em & Pm).
    { destruct Hmask as [E | [a Ha]].
      - rewrite E. exists (VArray zero_1x1x1). split; [reflexivity | left; auto].
      - destruct (str_truthy (mask u)) eqn:Ht.
        + exists (VArray a). rewrite Ha. split; [reflexivity|]. right.
          split; [intros E; rewrite E in Ht; discriminate | eauto].
        + exists (VArray zero_1x1x1). split; [reflexivity|]. left.
          apply str_truthy_false in Ht. auto. }
    exists image, mask_entry.
    split; [unfold create_processing_unit_args; rewrite Ei, Em; reflexivity|].
    repeat split.
    + intros ->. destruct Pi as [[E _] | (_ & a & _ & [=])]. exact E.
    + intros E. destruct Pi as [[_ ->] | [N _]]; [reflexivity | contradiction].
    + intros ->. destruct Pm as [[E _] | (_ & a & Ha & [= <-])]; [exact E|].
      apply to_base64_nparray_uint8 in Ha. discriminate.
    + intros E. destruct Pm as [[_ ->] | [N _]]; [reflexivity | contradiction].
    + intros N. destruct Pi as [[E _] | [_ P]]; [contradiction | exact P].
    + intros N. destruct Pm as [[E _] | [_ P]]; [contradiction | exact P].
  - intros e Hne He. unfold create_processing_unit_args.
    rewrite (str_truthy_true _ Hne), He. reflexivity.
  - intros e Himage Hne He.
    destruct (Himage_entry (Ret VNone) Himage) as (image & Ei & _).
    unfold create_processing_unit_args.
    rewrite Ei, (str_truthy_true _ Hne), He. reflexivity.
  - intros field e H. apply to_base64_nparray_Raise in H as [H | H]; [|auto].
    apply decode_base64_to_image_raises in H as [-> | H]; auto.
Qed.

Lemma create_processing_unit_args_witness :
  exists args, create_processing_unit_args (host := Demo.host) Demo.unit_png = Ret args /\
               length args = 14%nat.
Proof.
  destruct (create_processing_unit_args_spec (host := Demo.host) Demo.unit_png)
    as [Hreturns _].
  destruct Hreturns as (image & mask_entry & E & _).
  - right. eexists. vm_compute. reflexivity.
  - left. reflexivity.
  - eexists. split; [exact E | reflexivity].
Defined.

(** An image that is not base64 makes [create_processing_unit_args]
    raise: it returns no tuple for this unit. *)
Lemma create_processing_unit_args_undecodable :
  create_processing_unit_args (host := Demo.host) Demo.unit_bad
  = Raise (HTTPException 500 "Invalid encoded image").
Proof. vm_compute. reflexivity. Qed.


(** ** The state monad and the object store *)

Lemma sbind_Ret {S A B} (m : stateful S A) (k : A -> stateful S B) (s s' : S) (a : A) :
  m s = (Ret a, s') -> sbind m k s = k a s'.
Proof. unfold sbind. intros ->. reflexivity. Qed.

Lemma sbind_Raise {S A B} (m : stateful S A) (k : A -> stateful S B) (s s' : S) (e : exn) :
  m s = (Raise e, s') -> sbind m k s = (Raise e, s').
Proof. unfold sbind. intros ->. reflexivity. Qed.

Lemma fresh_lookup (h : gmap loc object) : h !! fresh (dom h) = None.
Proof. apply not_elem_of_dom, is_fresh. Qed.

Lemma lookup_alloc_old (h : gmap loc object) (l : loc) (o o' : object) :
  h !! l = Some o -> <[fresh (dom h) := o']> h !! l = Some o.
Proof.
  intros H. rewrite lookup_insert_ne; [exact H|].
  intros <-. rewrite fresh_lookup in H. discriminate.
Qed.

Lemma deref_Some (h : gmap loc object) (l : loc) (o : object) :
  h !! l = Some o -> deref l h = (Ret o, h).
Proof. unfold deref. intros ->. reflexivity. Qed.

Lemma copy_copy_Some (h : gmap loc object) (l : loc) (o : object) :
  h !! l = Some o -> copy_copy l h = (Ret (fresh (dom h)), <[fresh (dom h) := o]> h).
Proof. intros H. unfold copy_copy. rewrite (sbind_Ret _ _ _ _ _ (deref_Some _ _ _ H)). reflexivity. Qed.


Lemma get_alwayson_scripts_Some (h : gmap loc object) (runner : loc) (r : ScriptRunner)
    (scripts : list loc) :
  h !! runner = Some (ObjRunner r) ->
  h !! alwayson_scripts r = Some (ObjList scripts) ->
  get_alwayson_scripts runner h = (Ret scripts, h).
Proof.
  intros Hr Hl. unfold get_alwayson_scripts.
  rewrite (sbind_Ret _ _ _ _ _ (deref_Some _ _ _ Hr)).
  rewrite (sbind_Ret _ _ _ _ _ (deref_Some _ _ _ Hl)). reflexivity.
Qed.

Lemma script_title_Some (h : gmap loc object) (l : loc) (s : Script) :
  h !! l = Some (ObjScript s) -> script_title l h = (Ret (title s), h).
Proof.
  intros H. unfold script_title.
  rewrite (sbind_Ret _ _ _ _ _ (deref_Some _ _ _ H)). reflexivity.
Qed.

Lemma script_titles_loop (h : gmap loc object) (scripts : list loc) (ss : list Script)
    (acc : list string) :
  Forall2 (fun l s => h !! l = Some (ObjScript s)) scripts ss ->
  sfor (fun titles script => t <~ script_title script ;; sret (titles ++ [lower t])%list)
       scripts acc h
  = (Ret (acc ++ map (fun s => lower (title s)) ss)%list, h).
Proof.
  intros H. revert acc. induction H as [|l s scripts ss Hl _ IH]; intros acc; simpl.
  - rewrite app_nil_r. reflexivity.
  - assert ((t <~ script_title l ;; sret (acc ++ [lower t])%list) h
            = (Ret (acc ++ [lower (title s)])%list, h)) as Hb.
    { rewrite (sbind_Ret _ _ _ _ _ (script_title_Some _ _ _ Hl)). reflexivity. }
    rewrite (sbind_Ret _ _ _ _ _ Hb), IH, <- app_assoc. reflexivity.
Qed.

Lemma list_index_found (l : list string) (x : string) :
  In x l -> exists i, list_index l x = Ret i /\ nth_error l i = Some x.
Proof.
  induction l as [|y l IH]; simpl; [contradiction|]. intros H.
  destruct (String.eqb_spec y x) as [->|N].
  - exists O. auto.
  - destruct H as [E|H]; [contradiction|].
    destruct (IH H) as (i & -> & Hi). exists (S i). auto.
Qed.


Lemma for_each_args `{host : Host} (units : list ControlNetUnitRequest) (argss : list (list pyval))
    (acc : list pyval) :
  Forall2 (fun u args => create_processing_unit_args u = Ret args) units argss ->
  for_each (fun args control_unit_request =>
              more <- create_processing_unit_args control_unit_request ;;
              Ret (args ++ more)%list) units acc
  = Ret (acc ++ concat argss)%list.
Proof.
  intros H. revert acc. induction H as [|u a units argss Hu _ IH]; intros acc; simpl.
  - rewrite app_nil_r. reflexivity.
  - rewrite Hu. simpl. rewrite IH, app_assoc. reflexivity.
Qed.

Lemma concat_args_length `{host : Host} (units : list ControlNetUnitRequest) (argss : list (list pyval)) :
  Forall2 (fun u args => create_processing_unit_args u = Ret args) units argss ->
  length (concat argss) = (14 * length units)%nat.
Proof.
  induction 1 as [|u a units argss Hu _ IH]; simpl; [reflexivity|].
  rewrite length_app, IH, (create_processing_unit_args_length _ _ Hu). lia.
Qed.

Lemma fresh_ne (h : gmap loc object) (l : loc) :
  is_Some (h !! l) -> fresh (dom h) <> l.
Proof. intros [o H] E. rewrite <- E, fresh_lookup in H. discriminate. Qed.

Lemma set_args_from_Some (h : gmap loc object) (l : loc) (s : Script) (v : pyval) :
  h !! l = Some (ObjScript s) ->
  set_args_from l v h
  = (Ret tt, <[l := ObjScript (mk_Script (title s) v (args_to s) (script_attrs s))]> h).
Proof.
  intros H. unfold set_args_from.
  rewrite (sbind_Ret _ _ _ _ _ (deref_Some _ _ _ H)). reflexivity.
Qed.

Lemma set_args_to_Some (h : gmap loc object) (l : loc) (s : Script) (v : pyval) :
  h !! l = Some (ObjScript s) ->
  set_args_to l v h
  = (Ret tt, <[l := ObjScript (mk_Script (title s) (args_from s) v (script_attrs s))]> h).
Proof.
  intros H. unfold set_args_to.
  rewrite (sbind_Ret _ _ _ _ _ (deref_Some _ _ _ H)). reflexivity.
Qed.

Lemma set_alwayson_scripts_Some (h : gmap loc object) (l lst : loc) (r : ScriptRunner) :
  h !! l = Some (ObjRunner r) ->
  set_alwayson_scripts l lst h
  = (Ret tt, <[l := ObjRunner (mk_ScriptRunner lst (runner_attrs r))]> h).
Proof.
  intros H. unfold set_alwayson_scripts.
  rewrite (sbind_Ret _ _ _ _ _ (deref_Some _ _ _ H)). reflexivity.
Qed.

Lemma Forall2_nth_error_r {A B} (P : A -> B -> Prop) (l : list A) (l' : list B) (i : nat) (y : B) :
  Forall2 P l l' -> nth_error l' i = Some y -> exists x, nth_error l i = Some x /\ P x y.
Proof.
  intros H. revert i. induction H as [|a b l l' Hab _ IH]; intros [|i]; simpl; try discriminate.
  - intros [= <-]. eauto.
  - apply IH.
Qed.

Ltac step H := rewrite (sbind_Ret _ _ _ _ _ H).

Lemma lift_run {S A} (m : result A) (s : S) : lift m s = (m, s).
Proof. reflexivity. Qed.

Lemma for_each_args_Raise `{host : Host} (good : list ControlNetUnitRequest)
    (argss : list (list pyval)) (bad : ControlNetUnitRequest)
    (rest : list ControlNetUnitRequest) (e : exn) (acc : list pyval) :
  Forall2 (fun u args => create_processing_unit_args u = Ret args) good argss ->
  create_processing_unit_args bad = Raise e ->
  for_each (fun args control_unit_request =>
              more <- create_processing_unit_args control_unit_request ;;
              Ret (args ++ more)%list) (good ++ bad :: rest) acc
  = Raise e.
Proof.
  intros H Hbad. revert acc. induction H as [|u a good argss Hu _ IH]; intros acc; simpl.
  - rewrite Hbad. reflexivity.
  - rewrite Hu. simpl. apply IH.
Qed.

(** The first unit for which [create_processing_unit_args] raises
    decides: its exception leaves the call, unless it is a
    [ValueError], which line 239 catches. *)
Lemma create_cn_script_runner_failing_unit `{host : Host} (h : gmap loc object) (runner : loc)
    (o : object) (good : list ControlNetUnitRequest) (argss : list (list pyval))
    (bad : ControlNetUnitRequest) (rest : list ControlNetUnitRequest) (e : exn) :
  h !! runner = Some o ->
  Forall2 (fun u args => create_processing_unit_args u = Ret args) good argss ->
  create_processing_unit_args bad = Raise e ->
  (create_cn_script_runner runner (good ++ bad :: rest) h).1
  = if is_ValueError e then Ret (VNone, []) else Raise e.
Proof.
  intros Hr Hgood Hbad. unfold create_cn_script_runner, try_except_ValueError.
  step (copy_copy_Some _ _ _ Hr).
  rewrite (for_each_args_Raise _ _ _ _ _ _ Hgood Hbad).
  unfold sbind, lift. destruct (is_ValueError e); reflexivity.
Qed.

Lemma Exists_first {A} (P : A -> Prop) (l : list A) :
  (forall x, {P x} + {~ P x}) ->
  Exists P l ->
  exists before x after, l = (before ++ x :: after)%list /\ Forall (fun y => ~ P y) before /\ P x.
Proof.
  intros dec. induction l as [|y l IH]; intros H.
  - apply Exists_nil in H. destruct H.
  - destruct (dec y) as [Hy | Hy].
    + exists [], y, l. split; [reflexivity|]. split; [constructor | exact Hy].
    + apply Exists_cons in H as [H | H]; [contradiction|].
      destruct (IH H) as (before & x & after & -> & Hb & Hx).
      exists (y :: before), x, after. split; [reflexivity|]. split; [|exact Hx].
      constructor; assumption.
Qed.

(** ** Which script is copied *)

Lemma list_index_first (l1 l2 : list string) (x : string) :
  ~ In x l1 -> list_index (l1 ++ x :: l2) x = Ret (length l1).
Proof.
  induction l1 as [|y l1 IH]; intros Hno; cbn [app list_index length].
  - rewrite String.eqb_refl. reflexivity.
  - destruct (String.eqb_spec y x) as [->|N]; [exfalso; apply Hno; left; reflexivity|].
    rewrite IH by (intros Hin; apply Hno; right; exact Hin). reflexivity.
Qed.

Lemma nth_error_middle {A} (l1 l2 : list A) (x : A) :
  nth_error (l1 ++ x :: l2) (length l1) = Some x.
Proof. induction l1 as [|y l1 IH]; [reflexivity | exact IH]. Qed.

Lemma list_index_first_title (before after : list Script) (s : Script) :
  Forall (fun s' => lower (title s') <> "controlnet") before ->
  lower (title s) = "controlnet" ->
  list_index (map (fun s => lower (title s)) (before ++ s :: after)) "controlnet"
  = Ret (length before).
Proof.
  intros Hbefore Htitle. rewrite map_app. cbn [map]. rewrite Htitle.
  rewrite <- (length_map (fun s => lower (title s)) before).
  apply list_index_first. intros Hin. apply in_map_iff in Hin as (s' & Ht & Hin).
  rewrite Forall_forall in Hbefore. apply (Hbefore s'); [|exact Ht].
  apply list_elem_of_In. exact Hin.
Qed.

(** The run of [create_cn_script_runner] when [list.index] finds the
    title at the position [i]. *)
Lemma create_cn_script_runner_at `{host : Host} (h : gmap loc object) (runner : loc)
    (r : ScriptRunner) (scripts : list loc) (ss : list Script)
    (units : list ControlNetUnitRequest) (argss : list (list pyval)) (i : nat) (s : Script) :
  h !! runner = Some (ObjRunner r) ->
  h !! alwayson_scripts r = Some (ObjList scripts) ->
  Forall2 (fun l s => h !! l = Some (ObjScript s)) scripts ss ->
  Forall2 (fun u args => create_processing_unit_args u = Ret args) units argss ->
  list_index (map (fun s => lower (title s)) ss) "controlnet" = Ret i ->
  nth_error ss i = Some s ->
  exists (cn_script_runner cn_script lst : loc) (h' : gmap loc object),
    create_cn_script_runner runner units h
      = (Ret (VRef cn_script_runner, VBool false :: concat argss), h') /\
    h !! cn_script_runner = None /\
    h' !! cn_script_runner = Some (ObjRunner (mk_ScriptRunner lst (runner_attrs r))) /\
    h' !! lst = Some (ObjList [cn_script]) /\
    h' !! cn_script
    = Some (ObjScript (mk_Script (title s) (VInt 0)
                         (VInt (Z.of_nat (length (VBool false :: concat argss))))
                         (script_attrs s))).
Proof.
  intros Hr Hl Hss Hargs Hidx Hs.
  destruct (Forall2_nth_error_r _ _ _ _ _ Hss Hs) as (sl & Hsl & Hobj).
  set (l1 := fresh (dom h)).
  set (h1 := <[l1 := ObjRunner r]> h).
  set (l2 := fresh (dom h1)).
  set (h2 := <[l2 := ObjScript s]> h1).
  set (n := Z.of_nat (length (VBool false :: concat argss))).
  set (h3 := <[l2 := ObjScript (mk_Script (title s) (VInt 0) (args_to s) (script_attrs s))]> h2).
  set (h4 := <[l2 := ObjScript (mk_Script (title s) (VInt 0) (VInt n) (script_attrs s))]> h3).
  set (l3 := fresh (dom h4)).
  set (h5 := <[l3 := ObjList [l2]]> h4).
  set (h6 := <[l1 := ObjRunner (mk_ScriptRunner l3 (runner_attrs r))]> h5).
  assert (forall l o, h !! l = Some o -> h1 !! l = Some o) as Hold
    by (intros; apply lookup_alloc_old; assumption).
  assert (h1 !! l1 = Some (ObjRunner r)) as H11 by apply lookup_insert_eq.
  assert (l2 <> l1) as N21 by (apply fresh_ne; eauto).
  assert (h4 !! l2 = Some (ObjScript (mk_Script (title s) (VInt 0) (VInt n) (script_attrs s))))
    as H42 by apply lookup_insert_eq.
  assert (h4 !! l1 = Some (ObjRunner r)) as H41.
  { unfold h4, h3, h2. rewrite !lookup_insert_ne by congruence. exact H11. }
  assert (l3 <> l2) as N32 by (apply fresh_ne; eauto).
  assert (l3 <> l1) as N31 by (apply fresh_ne; eauto).
  exists l1, l2, l3, h6. split; [|split; [|split; [|split]]].
  - unfold create_cn_script_runner, try_except_ValueError.
    step (copy_copy_Some _ _ _ Hr). fold l1 h1.
    rewrite (for_each_args _ _ _ Hargs).
    step (lift_run (S := gmap loc object) (Ret ([VBool false] ++ concat argss)%list) h1).
    step (get_alwayson_scripts_Some _ _ _ _ (Hold _ _ Hr) (Hold _ _ Hl)).
    step (script_titles_loop h1 scripts ss []
            (Forall2_impl _ _ _ _ Hss (fun l s => Hold l (ObjScript s)))).
    simpl app. rewrite Hidx.
    step (lift_run (S := gmap loc object) (Ret i) h1).
    unfold index. rewrite Hsl.
    step (lift_run (S := gmap loc object) (Ret sl) h1).
    step (copy_copy_Some _ _ _ (Hold _ _ Hobj)). fold l2 h2.
    step (set_args_from_Some h2 l2 s (VInt 0) (lookup_insert_eq _ _ _)). fold h3.
    step (set_args_to_Some h3 l2 _ (VInt n) (lookup_insert_eq _ _ _)). simpl title.
    simpl args_from. simpl script_attrs. fold h4.
    unfold alloc at 1. unfold sbind at 1. fold l3 h5.
    assert (h5 !! l1 = Some (ObjRunner r)) as H51
      by (unfold h5; rewrite lookup_insert_ne by congruence; exact H41).
    step (set_alwayson_scripts_Some h5 l1 l3 r H51). reflexivity.
  - apply fresh_lookup.
  - apply lookup_insert_eq.
  - unfold h6, h5. rewrite lookup_insert_ne by congruence. apply lookup_insert_eq.
  - unfold h6, h5. rewrite !lookup_insert_ne by congruence. exact H42.
Qed.

(** C3, as amended.  Let [runner] be a script runner whose always-on
    scripts are [ss].  When one of them is titled 'controlnet' (in any
    case of the letters) there is a first such script, [s]; and when
    [create_processing_unit_args] returns [args_i] for the i-th of the
    [n] units, [create_cn_script_runner] returns a new runner and the
    argument list [False :: args_1 ++ ... ++ args_n], of length
    [1 + 14 * n]; the always-on scripts of the new runner are one
    script, a copy of [s] with [args_from = 0] and
    [args_to = 1 + 14 * n].  When [create_processing_unit_args] raises
    for a unit, the units before it going through, the call raises the
    same exception, unless it is a [ValueError], which the [except]
    clause of line 239 turns into [(None, [])]. *)
Theorem create_cn_script_runner_spec `{host : Host} (h : gmap loc object) (runner : loc)
    (ss : list Script) (units : list ControlNetUnitRequest) :
  runner_scripts h runner ss ->
  (Exists (fun s => lower (title s) = "controlnet") ss ->
   exists before s after,
     ss = (before ++ s :: after)%list /\
     Forall (fun s' => lower (title s') <> "controlnet") before /\
     lower (title s) = "controlnet") /\
  (forall before s after argss,
     ss = (before ++ s :: after)%list ->
     Forall (fun s' => lower (title s') <> "controlnet") before ->
     lower (title s) = "controlnet" ->
     Forall2 (fun u args => create_processing_unit_args u = Ret args) units argss ->
     exists (cn_script_runner : loc) (h' : gmap loc object),
       create_cn_script_runner runner units h
         = (Ret (VRef cn_script_runner, VBool false :: concat argss), h') /\
       length (VBool false :: concat argss) = (1 + 14 * length units)%nat /\
       runner_scripts h' cn_script_runner
         [mk_Script (title s) (VInt 0) (VInt (1 + 14 * Z.of_nat (length units)))
            (script_attrs s)]) /\
  (forall good argss bad rest e,
     units = (good ++ bad :: rest)%list ->
     Forall2 (fun u args => create_processing_unit_args u = Ret args) good argss ->
     create_processing_unit_args bad = Raise e ->
     (create_cn_script_runner runner units h).1
     = if is_ValueError e then Ret (VNone, []) else Raise e).
Proof.
  intros (r & scripts & Hr & Hl & Hss). split; [|split].
  - apply Exists_first. intros s. apply string_dec.
  - intros before s after argss -> Hbefore Htitle Hargs.
    destruct (create_cn_script_runner_at h runner r scripts _ units argss _ s
                Hr Hl Hss Hargs (list_index_first_title before after s Hbefore Htitle)
                (nth_error_middle before after s))
      as (cn & cs & lst & h' & E & Hnew & Hcn & Hlst & Hcs).
    assert (length (concat argss) = (14 * length units)%nat) as Hlen
      by (apply concat_args_length; assumption).
    exists cn, h'. split; [exact E|]. split; [simpl; rewrite Hlen; reflexivity|].
    exists (mk_ScriptRunner lst (runner_attrs r)), [cs].
    split; [exact Hcn|]. split; [exact Hlst|].
    constructor; [|constructor]. rewrite Hcs.
    cbn [length]. rewrite Hlen.
    replace (Z.of_nat (S (14 * length units))) with (1 + 14 * Z.of_nat (length units)) by lia.
    reflexivity.
  - intros good argss bad rest e -> Hgood Hbad.
    apply (create_cn_script_runner_failing_unit h runner _ good argss bad rest e Hr Hgood Hbad).
Qed.

Lemma create_cn_script_runner_witness :
  exists cn_script_runner args h',
    create_cn_script_runner (host := Demo.host) 1%positive [Demo.unit_png] Demo.store
      = (Ret (VRef cn_script_runner, args), h') /\ length args = 15%nat /\
    runner_scripts h' cn_script_runner [mk_Script "ControlNet" (VInt 0) (VInt 15) []].
Proof.
  destruct (create_cn_script_runner_spec (host := Demo.host) Demo.store 1%positive
              [mk_Script "Seed" (VInt 0) (VInt 3) []; mk_Script "ControlNet" (VInt 3) (VInt 18) []]
              [Demo.unit_png])
    as (_ & Hreturns & _).
  - exists (mk_ScriptRunner 2%positive [("titles", VList [VStr "Seed"; VStr "ControlNet"])]),
           [3%positive; 4%positive].
    split; [reflexivity|]. split; [reflexivity|].
    repeat constructor.
  - destruct (Hreturns [mk_Script "Seed" (VInt 0) (VInt 3) []]
                (mk_Script "ControlNet" (VInt 3) (VInt 18) []) []
                [unit_args Demo.unit_png
                   (VArray {| dtype := np_uint8; shape := [1; 1; 3]; data := [0; 0; 0] |})
                   (VArray zero_1x1x1)])
      as (cn & h' & E & L & S).
    + reflexivity.
    + constructor; [discriminate | constructor].
    + reflexivity.
    + repeat constructor.
    + eexists _, _, _. split; [exact E|]. split; [exact L | exact S].
Defined.

(** A unit whose image is not base64 makes [create_cn_script_runner]
    raise, although a script titled 'controlnet' is there. *)
Lemma create_cn_script_runner_undecodable :
  (create_cn_script_runner (host := Demo.host) 1%positive [Demo.unit_bad] Demo.store).1
  = Raise (HTTPException 500 "Invalid encoded image").
Proof. vm_compute. reflexivity. Qed.


(** ** What a call leaves untouched *)

Lemma keeps_sret (h0 : gmap loc object) {A} (a : A) (Q : A -> Prop) :
  Q a -> keeps h0 (sret a) Q.
Proof. intros HQ h Hh. simpl. split; [exact Hh | intros ? [= <-]; exact HQ]. Qed.

Lemma keeps_sraise (h0 : gmap loc object) {A} (e : exn) (Q : A -> Prop) :
  keeps h0 (sraise e) Q.
Proof. intros h Hh. simpl. split; [exact Hh | discriminate]. Qed.

Lemma keeps_lift (h0 : gmap loc object) {A} (m : result A) :
  keeps h0 (lift m) (fun _ => True).
Proof. intros h Hh. simpl. auto. Qed.

Lemma keeps_sbind (h0 : gmap loc object) {A B} (m : stateful heap A) (k : A -> stateful heap B)
    (Q : A -> Prop) (Q' : B -> Prop) :
  keeps h0 m Q -> (forall a, Q a -> keeps h0 (k a) Q') -> keeps h0 (sbind m k) Q'.
Proof.
  intros Hm Hk h Hh. destruct (Hm h Hh) as [H1 H2]. unfold sbind.
  destruct (m h) as [[a|e] h1]; simpl in *.
  - apply (Hk a (H2 a eq_refl) h1 H1).
  - split; [exact H1 | discriminate].
Qed.

Lemma keeps_weaken (h0 : gmap loc object) {A} (m : stateful heap A) (Q Q' : A -> Prop) :
  keeps h0 m Q -> (forall a, Q a -> Q' a) -> keeps h0 m Q'.
Proof. intros Hm HQ h Hh. destruct (Hm h Hh) as [H1 H2]. split; [exact H1 | auto]. Qed.

Lemma keeps_deref (h0 : gmap loc object) (l : loc) :
  keeps h0 (deref l) (fun _ => True).
Proof. intros h Hh. unfold deref. destruct (h !! l); simpl; auto. Qed.

Lemma insert_outside (h0 h : gmap loc object) (l : loc) (o : object) :
  h0 ⊆ h -> h0 !! l = None -> h0 ⊆ <[l := o]> h.
Proof.
  intros Hh Hl. apply map_subseteq_spec. intros l' o' H.
  rewrite lookup_insert_ne by congruence.
  eapply lookup_weaken; eassumption.
Qed.

Lemma keeps_alloc (h0 : gmap loc object) (o : object) :
  keeps h0 (alloc o) (fun l => h0 !! l = None).
Proof.
  intros h Hh. unfold alloc. simpl.
  assert (h0 !! fresh (dom h) = None) as Hf.
  { destruct (h0 !! fresh (dom h)) as [o'|] eqn:E; [|reflexivity].
    pose proof (lookup_weaken _ _ _ _ E Hh) as E'. rewrite fresh_lookup in E'. discriminate. }
  split; [apply insert_outside; assumption | intros ? [= <-]; exact Hf].
Qed.

Lemma keeps_copy_copy (h0 : gmap loc object) (l : loc) :
  keeps h0 (copy_copy l) (fun l' => h0 !! l' = None).
Proof.
  unfold copy_copy. eapply keeps_sbind; [apply keeps_deref|].
  intros o _. apply keeps_alloc.
Qed.

Lemma keeps_update (h0 : gmap loc object) (l : loc) (o : object) :
  h0 !! l = None ->
  keeps h0 (fun h => (Ret tt, <[l := o]> h)) (fun _ => True).
Proof. intros Hl h Hh. simpl. split; [apply insert_outside; assumption | auto]. Qed.

Lemma keeps_set_args_from (h0 : gmap loc object) (l : loc) (v : pyval) :
  h0 !! l = None -> keeps h0 (set_args_from l v) (fun _ => True).
Proof.
  intros Hl. unfold set_args_from. eapply keeps_sbind; [apply keeps_deref|].
  intros [s|r|items] _; first [apply keeps_update; assumption | apply keeps_sraise].
Qed.

Lemma keeps_set_args_to (h0 : gmap loc object) (l : loc) (v : pyval) :
  h0 !! l = None -> keeps h0 (set_args_to l v) (fun _ => True).
Proof.
  intros Hl. unfold set_args_to. eapply keeps_sbind; [apply keeps_deref|].
  intros [s|r|items] _; first [apply keeps_update; assumption | apply keeps_sraise].
Qed.

Lemma keeps_set_alwayson_scripts (h0 : gmap loc object) (l lst : loc) :
  h0 !! l = None -> keeps h0 (set_alwayson_scripts l lst) (fun _ => True).
Proof.
  intros Hl. unfold set_alwayson_scripts. eapply keeps_sbind; [apply keeps_deref|].
  intros [s|r|items] _; first [apply keeps_update; assumption | apply keeps_sraise].
Qed.

Lemma keeps_get_alwayson_scripts (h0 : gmap loc object) (runner : loc) :
  keeps h0 (get_alwayson_scripts runner) (fun _ => True).
Proof.
  unfold get_alwayson_scripts. eapply keeps_sbind; [apply keeps_deref|].
  intros [s|r|items] _; try apply keeps_sraise.
  eapply keeps_sbind; [apply keeps_deref|].
  intros [s'|r'|items'] _; first [apply keeps_sraise | apply keeps_sret; exact I].
Qed.

Lemma keeps_script_title (h0 : gmap loc object) (script : loc) :
  keeps h0 (script_title script) (fun _ => True).
Proof.
  unfold script_title. eapply keeps_sbind; [apply keeps_deref|].
  intros [s|r|items] _; first [apply keeps_sraise | apply keeps_sret; exact I].
Qed.

Lemma keeps_sfor (h0 : gmap loc object) {A B} (body : B -> A -> stateful heap B) (l : list A) (b : B) :
  (forall b x, keeps h0 (body b x) (fun _ => True)) ->
  keeps h0 (sfor body l b) (fun _ => True).
Proof.
  intros Hbody. revert b. induction l as [|x l IH]; intros b; simpl.
  - apply keeps_sret. exact I.
  - eapply keeps_sbind; [apply Hbody|]. intros b' _. apply IH.
Qed.

Lemma keeps_try_except_ValueError (h0 : gmap loc object) {A} (body handler : stateful heap A)
    (Q : A -> Prop) :
  keeps h0 body Q -> keeps h0 handler Q -> keeps h0 (try_except_ValueError body handler) Q.
Proof.
  intros Hb Hh h Hsub. destruct (Hb h Hsub) as [H1 H2]. unfold try_except_ValueError.
  destruct (body h) as [[a|e] h1]; simpl in *.
  - split; [exact H1 | exact H2].
  - destruct (is_ValueError e).
    + apply (Hh h1 H1).
    + split; [exact H1 | discriminate].
Qed.


Lemma keeps_create_cn_script_runner `{host : Host} (h0 : gmap loc object) (runner : loc)
    (units : list ControlNetUnitRequest) :
  keeps h0 (create_cn_script_runner runner units) (new_runner h0).
Proof.
  unfold create_cn_script_runner. apply keeps_try_except_ValueError.
  - eapply keeps_sbind; [apply keeps_copy_copy|]. intros cn_script_runner Hnew.
    eapply keeps_sbind; [apply keeps_lift|]. intros cn_punit_args _.
    eapply keeps_sbind; [apply keeps_get_alwayson_scripts|]. intros scripts _.
    eapply keeps_sbind.
    { apply keeps_sfor. intros titles script.
      eapply keeps_sbind; [apply keeps_script_title|].
      intros t _. apply keeps_sret. exact I. }
    intros script_titles _.
    eapply keeps_sbind; [apply keeps_lift|]. intros cn_script_id _.
    eapply keeps_sbind; [apply keeps_lift|]. intros script _.
    eapply keeps_sbind; [apply keeps_copy_copy|]. intros cn_script Hscript.
    eapply keeps_sbind; [apply keeps_set_args_from; exact Hscript|]. intros _ _.
    eapply keeps_sbind; [apply keeps_set_args_to; exact Hscript|]. intros _ _.
    eapply keeps_sbind; [apply keeps_alloc|]. intros lst _.
    eapply keeps_sbind; [apply keeps_set_alwayson_scripts; exact Hnew|]. intros _ _.
    apply keeps_sret. exact Hnew.
  - apply keeps_sret. exact I.
Qed.

Lemma list_index_missing (l : list string) (x : string) :
  ~ In x l -> list_index l x = Raise (ValueError "x is not in list").
Proof.
  induction l as [|y l IH]; simpl; [reflexivity|]. intros H.
  destruct (String.eqb_spec y x) as [->|N]; [tauto|].
  rewrite IH by tauto. reflexivity.
Qed.

(** C9, as amended.  [create_cn_script_runner] leaves every object of the
    store as it was: after the call, whether it returned or raised, the
    original runner, its list of always-on scripts and every script
    (their [args_from] and [args_to] included) are unchanged, and a
    runner it returns is a new object.  When [runner] is a script runner
    none of whose always-on scripts is titled 'controlnet', and
    [create_processing_unit_args] returns for every unit, it returns
    [(None, [])].  When [create_processing_unit_args] raises for a
    unit, the call raises the same exception whether or not such a
    script is there, unless the exception is a [ValueError], which it
    turns into [(None, [])]. *)
Theorem create_cn_script_runner_frame `{host : Host} (h : gmap loc object) (runner : loc)
    (units : list ControlNetUnitRequest) :
  (forall l o, h !! l = Some o ->
     (create_cn_script_runner runner units h).2 !! l = Some o) /\
  (forall l args, (create_cn_script_runner runner units h).1 = Ret (VRef l, args) ->
     h !! l = None) /\
  (forall ss argss,
     runner_scripts h runner ss ->
     Forall (fun s => lower (title s) <> "controlnet") ss ->
     Forall2 (fun u args => create_processing_unit_args u = Ret args) units argss ->
     (create_cn_script_runner runner units h).1 = Ret (VNone, [])) /\
  (forall ss good argss bad rest e,
     runner_scripts h runner ss ->
     units = (good ++ bad :: rest)%list ->
     Forall2 (fun u args => create_processing_unit_args u = Ret args) good argss ->
     create_processing_unit_args bad = Raise e ->
     (create_cn_script_runner runner units h).1
     = if is_ValueError e then Ret (VNone, []) else Raise e).
Proof.
  destruct (keeps_create_cn_script_runner h runner units h (reflexivity h)) as [Hsub Hnew].
  split; [|split; [|split]].
  - intros l o H. eapply lookup_weaken; eassumption.
  - intros l args E. apply (Hnew _ E).
  - intros ss argss (r & scripts & Hr & Hl & Hss) Hno Hargs.
    assert (forall l o, h !! l = Some o ->
              <[fresh (dom h) := ObjRunner r]> h !! l = Some o) as Hold
      by (intros; apply lookup_alloc_old; assumption).
    unfold create_cn_script_runner, try_except_ValueError.
    step (copy_copy_Some _ _ _ Hr).
    rewrite (for_each_args _ _ _ Hargs).
    step (lift_run (S := gmap loc object) (Ret ([VBool false] ++ concat argss)%list)
            (<[fresh (dom h) := ObjRunner r]> h)).
    step (get_alwayson_scripts_Some _ _ _ _ (Hold _ _ Hr) (Hold _ _ Hl)).
    step (script_titles_loop _ scripts ss []
            (Forall2_impl _ _ _ _ Hss (fun l s => Hold l (ObjScript s)))).
    simpl app. rewrite list_index_missing.
    + reflexivity.
    + intros Hin. apply in_map_iff in Hin as (s & Ht & Hs).
      rewrite Forall_forall in Hno. apply (Hno s); [|exact Ht].
      apply list_elem_of_In. exact Hs.
  - intros ss good argss bad rest e (r & scripts & Hr & _) -> Hgood Hbad.
    apply (create_cn_script_runner_failing_unit h runner _ good argss bad rest e Hr Hgood Hbad).
Qed.

(** Without a script titled 'controlnet', a unit whose image is not
    base64 still makes [create_cn_script_runner] raise. *)
Lemma create_cn_script_runner_raises_without_script :
  (create_cn_script_runner (host := Demo.host) 5%positive [Demo.unit_bad] Demo.store).1
  = Raise (HTTPException 500 "Invalid encoded image").
Proof. vm_compute. reflexivity. Qed.

(** ** The detect endpoint *)

Lemma emit_run (e : event) (t : list event) : emit e t = (Ret tt, (t ++ [e])%list).
Proof. reflexivity. Qed.

Lemma str_in_In (x : string) (l : list string) : str_in x l = true <-> In x l.
Proof.
  unfold str_in. rewrite existsb_exists. split.
  - intros (y & Hy & E). apply String.eqb_eq in E. subst. exact Hy.
  - intros H. exists x. split; [exact H | apply String.eqb_refl].
Qed.

Lemma annotate_selected `{host : Host} (b : DetectBody.t) (name : string)
    (f : ndarray -> result pyval) (img : ndarray) (t : list event) :
  selected_annotator b = Some (name, f) ->
  annotate b img t
  = (match f img with Ret v => Ret (Some v) | Raise e => Raise e end,
     (t ++ [EvAnnotate name img])%list).
Proof.
  destruct b as [m imgs res thr_a thr_b].
  unfold selected_annotator, annotator_table, annotate. simpl.
  repeat match goal with
         | |- context [String.eqb m ?k] =>
             destruct (String.eqb_spec m k) as [->|?];
             [simpl; intros [= <- <-];
              unfold annotator_call, sbind, emit, lift, sret; cbn [fst snd];
              match goal with |- context [match ?r with _ => _ end] => destruct r end;
              reflexivity
             | simpl]
         end.
  discriminate.
Qed.

Lemma selected_available `{host : Host} (b : DetectBody.t) :
  In (DetectBody.controlnet_module b) available_modules ->
  exists name f, selected_annotator b = Some (name, f).
Proof.
  destruct b as [m imgs res thr_a thr_b]. unfold available_modules, selected_annotator. simpl.
  intros H. repeat (destruct H as [<-|H]; [simpl; eauto|]). contradiction.
Qed.

Lemma unload_run (m : string) (t : list event) :
  unload m t = (Ret tt, (t ++ (unload m []).2)%list).
Proof.
  unfold unload.
  repeat match goal with
         | |- context [String.eqb m ?k] => destruct (String.eqb m k); simpl
         end; rewrite ?app_nil_r; reflexivity.
Qed.

Lemma unload_events (m : string) (e : event) :
  In e (unload m []).2 -> exists name, e = EvUnload name.
Proof.
  unfold unload.
  repeat match goal with
         | |- context [String.eqb m ?k] => destruct (String.eqb m k); simpl
         end; intros H; repeat (destruct H as [<-|H]; [eauto|]); contradiction.
Qed.

Lemma detect_loop `{host : Host} (b : DetectBody.t) (name : string)
    (f : ndarray -> result pyval)
    (inputs : list string) (arrays : list ndarray) (results : list pyval)
    (acc : list pyval) (t : list event) :
  selected_annotator b = Some (name, f) ->
  Forall3 (fun s a v => decode_to_nparray s = Ret a /\ f a = Ret v) inputs arrays results ->
  sfor (fun results input_image =>
          img <~ lift (decode_to_nparray input_image) ;;
          r <~ annotate b img ;;
          match r with
          | Some v => sret (results ++ [v])%list
          | None => sret results
          end) inputs acc t
  = (Ret (acc ++ results)%list, (t ++ map (EvAnnotate name) arrays)%list).
Proof.
  intros Hsel H. revert acc t.
  induction H as [|s a v inputs arrays results [Hs Hv] _ IH]; intros acc t; simpl.
  - rewrite !app_nil_r. reflexivity.
  - assert ((img <~ lift (decode_to_nparray s) ;;
             r <~ annotate b img ;;
             match r with
             | Some v => sret (acc ++ [v])%list
             | None => sret acc
             end) t
            = (Ret (acc ++ [v])%list, (t ++ [EvAnnotate name a])%list)) as Hbody.
    { rewrite Hs. step (lift_run (S := list event) (Ret a) t).
      erewrite sbind_Ret
        by (rewrite (annotate_selected b name f a t Hsel), Hv; reflexivity).
      reflexivity. }
    step Hbody. rewrite IH, <- !app_assoc. reflexivity.
Qed.

(** The annotator results behind a list of processed images. *)
Lemma processed_images_results `{host : Host} (b : DetectBody.t) (name : string)
    (f : ndarray -> result pyval)
    (inputs : list string) (arrays : list ndarray) (results64 : list pyval) :
  selected_annotator b = Some (name, f) ->
  Forall3 (processed_image b) inputs arrays results64 ->
  exists results,
    Forall3 (fun s a v => decode_to_nparray s = Ret a /\ f a = Ret v) inputs arrays results /\
    Forall2 (fun v r => encode_to_base64 v = Ret r) results results64.
Proof.
  intros Hsel H3.
  induction H3 as [|s a r ss aa rr [Hd (n' & f' & v & Hs' & Hv & He)] _ (results & IH3 & IH2)].
  - exists []. split; constructor.
  - rewrite Hsel in Hs'. injection Hs' as _ <-.
    exists (v :: results). split; constructor; auto.
Qed.




(** So does a sample format that [encode_pil_to_base64] does not know. *)
Lemma detect_unknown_format :
  (detect (host := Demo.host_with "gif") (Demo.detect_body "canny" [Demo.png_b64]) []).1
  = Raise (HTTPException 500 "Invalid image format").
Proof. vm_compute. reflexivity. Qed.

(** C8.  A request whose module is not one of the nine available modules
    is answered with no images and "Module not available"; a request
    with an available module and an empty list of images with no images
    and "No image selected".  In both cases the endpoint makes no call at
    all: the trace is left as it was, so no annotator is applied. *)
Theorem detect_refusal `{host : Host} (b : DetectBody.t) (t : list event) :
  available_modules
    = ["canny"; "depth"; "depth_leres"; "fake_scribble"; "hed"; "mlsd";
       "normal_map"; "openpose"; "segmentation"] /\
  (~ In (DetectBody.controlnet_module b) available_modules ->
   detect b t
   = (Ret (VDict [("images", VList []); ("info", VStr "Module not available")]), t)) /\
  (In (DetectBody.controlnet_module b) available_modules ->
   DetectBody.controlnet_input_images b = [] ->
   detect b t
   = (Ret (VDict [("images", VList []); ("info", VStr "No image selected")]), t)).
Proof.
  split; [reflexivity|]. split.
  - intros Hno. unfold detect. cbv zeta.
    destruct (str_in (DetectBody.controlnet_module b) available_modules) eqn:E.
    + apply str_in_In in E. contradiction.
    + reflexivity.
  - intros Hmod Hnil. unfold detect. cbv zeta.
    apply str_in_In in Hmod. rewrite Hmod, Hnil. reflexivity.
Qed.

(** ** The img2img endpoint *)

Lemma getattr_setattr_eq (p : list (string * pyval)) (k : string) (v : pyval) :
  getattr (setattr p k v) k = Ret v.
Proof.
  induction p as [|[k' v'] p IH]; simpl.
  - rewrite String.eqb_refl. reflexivity.
  - destruct (String.eqb k' k) eqn:E; simpl.
    + rewrite String.eqb_refl. reflexivity.
    + rewrite E. exact IH.
Qed.

Lemma getattr_setattr_ne (p : list (string * pyval)) (k k' : string) (v : pyval) :
  String.eqb k k' = false -> getattr (setattr p k v) k' = getattr p k'.
Proof.
  intros N. induction p as [|[k0 v0] p IH]; simpl.
  - rewrite N. reflexivity.
  - destruct (String.eqb k0 k) eqn:E; simpl.
    + apply String.eqb_eq in E. subst k0. rewrite N. reflexivity.
    + destruct (String.eqb k0 k'); [reflexivity | exact IH].
Qed.

(** [np.zeros(shape=shp).astype('uint8')] is an array of unsigned bytes
    of the shape [shp], all of them zero. *)
Lemma zeros_uint8 (shp : list Z) :
  dtype (astype_uint8 (np_zeros shp)) = np_uint8 /\
  shape (astype_uint8 (np_zeros shp)) = shp /\
  length (data (astype_uint8 (np_zeros shp))) = Z.to_nat (np_size shp) /\
  (forall x, In x (data (astype_uint8 (np_zeros shp))) -> x = 0).
Proof.
  unfold astype_uint8, np_zeros. cbn [dtype shape data].
  split; [reflexivity|]. split; [reflexivity|]. split.
  - rewrite length_map, repeat_length. reflexivity.
  - intros x Hx. apply in_map_iff in Hx as (y & <- & Hy).
    apply List.repeat_spec in Hy. subst y. reflexivity.
Qed.

Lemma control_arrays_inv `{host : Host} (cn_images cn_masks : list string)
    (cn_image_np cn_mask_np : ndarray) :
  control_arrays cn_images cn_masks = Ret (cn_image_np, cn_mask_np) ->
  (exists first, nth_error cn_images 0 = Some first /\
                 decode_to_nparray first = Ret cn_image_np) /\
  (cn_masks = [] -> cn_mask_np = astype_uint8 (np_zeros [512; 512; 3])) /\
  (forall first, nth_error cn_masks 0 = Some first ->
                 decode_to_nparray first = Ret cn_mask_np).
Proof.
  unfold control_arrays, index. intros H.
  destruct cn_images as [|first rest]; [discriminate|]. cbn [nth_error bind] in H.
  destruct (decode_to_nparray first) as [img|e] eqn:Himg; [|discriminate].
  cbn [bind] in H.
  destruct cn_masks as [|m ms].
  - cbn [bind] in H. injection H as <- <-.
    split; [exists first; auto|]. split; [reflexivity | discriminate].
  - cbn [nth_error bind] in H.
    destruct (decode_to_nparray m) as [msk|e] eqn:Hmsk; [|discriminate].
    cbn [bind] in H. injection H as <- <-.
    split; [exists first; auto|].
    split; [discriminate | intros ? [= <-]; exact Hmsk].
Qed.


Lemma sbind_inv {S A B} (m : stateful S A) (k : A -> stateful S B) (s s' : S) (r : result B) :
  sbind m k s = (r, s') ->
  (exists a s1, m s = (Ret a, s1) /\ k a s1 = (r, s')) \/
  (exists e, m s = (Raise e, s') /\ r = Raise e).
Proof.
  unfold sbind. destruct (m s) as [[a|e] s1]; intros H.
  - left. eauto.
  - right. injection H as <- <-. eauto.
Qed.

Lemma lift_inv {S A} (m : result A) (s s' : S) (r : result A) :
  lift m s = (r, s') -> r = m /\ s' = s.
Proof. unfold lift. intros [= <- <-]. auto. Qed.

Lemma comprehension_Raise {A B} (f : A -> result B) (l : list A) (e : exn) :
  comprehension f l = Raise e -> exists x, In x l /\ f x = Raise e.
Proof.
  induction l as [|x l IH]; simpl; [discriminate|]. intros H.
  apply bind_Raise_inv in H as [H | (y & _ & H)]; [eauto|].
  apply bind_Raise_inv in H as [H | (ys & _ & H)]; [|discriminate].
  destruct (IH H) as (x' & Hin & Hx). eauto.
Qed.

Lemma comprehension_returns {A B} (f : A -> result B) (l : list A) :
  Forall (fun x => exists y, f x = Ret y) l -> exists ys, comprehension f l = Ret ys.
Proof.
  induction 1 as [|x l [y Hy] _ [ys IH]]; cbn [comprehension]; [eauto|].
  rewrite Hy, IH. cbn. eauto.
Qed.

(** Decoding in place (lines 346, 352, 431) catches nothing: it raises
    what [b64decode], [Image.open] or [np.array] raises. *)
Lemma decode_to_nparray_Raise `{host : Host} (s : string) (e : exn) :
  decode_to_nparray s = Raise e <->
  b64decode s = Raise e \/
  exists raw, b64decode s = Ret raw /\
    (Image_open raw = Raise e \/
     exists image, Image_open raw = Ret image /\ np_array image = Raise e).
Proof.
  unfold decode_to_nparray.
  destruct (b64decode s) as [raw|e1]; cbn [bind].
  - destruct (Image_open raw) as [image|e2] eqn:Him; cbn [bind].
    + destruct (np_array image) as [a|e3] eqn:Ha; cbn [bind].
      * split; [discriminate|].
        intros [H | (raw' & [= <-] & [H | (im & H & H')])]; congruence.
      * split; [intros [= <-]; eauto 10|].
        intros [H | (raw' & [= <-] & [H | (im & H & H')])]; congruence.
    + split; [intros [= <-]; eauto 10|].
      intros [H | (raw' & [= <-] & [H | (im & H & H')])]; congruence.
  - split; [intros [= <-]; auto|].
    intros [H | (raw' & H & _)]; congruence.
Qed.

(** Lines 346-353 raise the [IndexError] of an empty
    [controlnet_input_image], or what the decoding of the first control
    image or of the first control mask raises. *)
Lemma control_arrays_Raise `{host : Host} (cn_images cn_masks : list string) (e : exn) :
  control_arrays cn_images cn_masks = Raise e ->
  (cn_images = [] /\ e = IndexError "controlnet_input_image[0]") \/
  (exists first, index "controlnet_input_image[0]" cn_images 0 = Ret first /\
                 decode_to_nparray first = Raise e) \/
  (exists first, index "controlnet_mask[0]" cn_masks 0 = Ret first /\
                 decode_to_nparray first = Raise e).
Proof.
  unfold control_arrays, index. intros H.
  destruct cn_images as [|first rest]; cbn [nth_error bind] in H;
    [injection H as <-; auto|].
  destruct (decode_to_nparray first) as [img|e'] eqn:Himg; cbn [bind] in H;
    [|injection H as <-; right; left; eauto].
  destruct cn_masks as [|m ms]; cbn [nth_error bind] in H; [discriminate|].
  destruct (decode_to_nparray m) as [msk|e'] eqn:Hmsk; cbn [bind] in H; [discriminate|].
  injection H as <-. right. right. eauto.
Qed.

Lemma control_arrays_returns `{host : Host} (cn_images cn_masks : list string)
    (first : string) (cn_image_np : ndarray) :
  index "controlnet_input_image[0]" cn_images 0 = Ret first ->
  decode_to_nparray first = Ret cn_image_np ->
  (cn_masks = [] ->
   control_arrays cn_images cn_masks = Ret (cn_image_np, astype_uint8 (np_zeros [512; 512; 3]))) /\
  (forall first_mask cn_mask_np,
     index "controlnet_mask[0]" cn_masks 0 = Ret first_mask ->
     decode_to_nparray first_mask = Ret cn_mask_np ->
     control_arrays cn_images cn_masks = Ret (cn_image_np, cn_mask_np)).
Proof.
  intros Hi Hd. unfold control_arrays. rewrite Hi. cbn [bind]. rewrite Hd. cbn [bind].
  split.
  - intros ->. reflexivity.
  - intros fm am Hm Hdm. destruct cn_masks as [|m ms]; [discriminate|].
    rewrite Hm. cbn [bind]. rewrite Hdm. reflexivity.
Qed.

Lemma getattr_Raise (p : list (string * pyval)) (k : string) (e : exn) :
  getattr p k = Raise e -> e = AttributeError k.
Proof.
  induction p as [|[k' v] p IH]; simpl; [intros [= <-]; reflexivity|].
  destruct (String.eqb k' k); [discriminate | exact IH].
Qed.

Tactic Notation "inv_bind" hyp(E) "as" ident(a) ident(s) ident(E1) ident(e) :=
  apply sbind_inv in E as [(a & s & E1 & E) | (e & E1 & ->)].

Lemma console_run `{host : Host} (body : Img2ImgBody.t) (t : list event) :
  (if enable_console_prompts
   then emit (EvPrint (VStr (String "010" "img2img: " ++ Img2ImgBody.prompt body)))
   else sret tt) t
  = (Ret tt, (t ++ console_events body)%list).
Proof.
  unfold console_events. destruct enable_console_prompts; cbn;
    rewrite ?app_nil_r; reflexivity.
Qed.

Lemma log_run `{host : Host} (generation_info_js : string) (t : list event) :
  (if samples_log_stdout then emit (EvPrint (VStr generation_info_js)) else sret tt) t
  = (Ret tt, (t ++ log_events generation_info_js)%list).
Proof.
  unfold log_events. destruct samples_log_stdout; cbn; rewrite ?app_nil_r; reflexivity.
Qed.

(** The three ways a run of the endpoint can go: it fails before it has
    called the host; it fails on the processing object of the host; or
    it hands the processing object to [process_images]. *)
Lemma img2img_inv `{host : Host} (body : Img2ImgBody.t) (t t' : list event) (r : result pyval) :
  img2img body t = (r, t') ->
  (t' = t /\
   exists e, r = Raise e /\
     ((exists m, Img2ImgBody.mask body = Some m /\ m <> "" /\
                 decode_base64_to_image m = Raise e) \/
      (mask_decodes body /\
       comprehension decode_base64_to_image (Img2ImgBody.init_images body) = Raise e) \/
      (mask_decodes body /\
       (exists images,
          comprehension decode_base64_to_image (Img2ImgBody.init_images body) = Ret images) /\
       control_arrays (Img2ImgBody.controlnet_input_image body)
                      (Img2ImgBody.controlnet_mask body) = Raise e))) \/
  (t' = (t ++ console_events body)%list /\
   mask_decodes body /\
   (exists images,
      comprehension decode_base64_to_image (Img2ImgBody.init_images body) = Ret images) /\
   (exists arrays,
      control_arrays (Img2ImgBody.controlnet_input_image body)
                     (Img2ImgBody.controlnet_mask body) = Ret arrays) /\
   exists e kwargs, r = Raise e /\
     forallb (fun kv : string * pyval => negb (String.eqb kv.1 "extra_generation_params"))
             kwargs = true /\
     (getattr (StableDiffusionProcessingImg2Img kwargs) "extra_generation_params" = Raise e \/
      exists v, getattr (StableDiffusionProcessingImg2Img kwargs) "extra_generation_params"
                = Ret v /\ forall d, v <> VDict d)) \/
  (exists p,
     controlnet_attributes body p /\
     mask_decodes body /\
     (exists images,
        comprehension decode_base64_to_image (Img2ImgBody.init_images body) = Ret images) /\
     (exists arrays,
        control_arrays (Img2ImgBody.controlnet_input_image body)
                       (Img2ImgBody.controlnet_mask body) = Ret arrays /\
        getattr p "control_net_image"
        = Ret (VDict [("image", VArray arrays.1); ("mask", VArray arrays.2)])) /\
     img2img_generation body t p r t').
Proof.
  intros E. unfold img2img in E. cbv zeta in E.
  inv_bind E as mask s1 Hmask e.
  2: { apply lift_inv in Hmask as [Hmask ->]. left. split; [reflexivity|].
       exists e. split; [reflexivity|]. left.
       destruct (Img2ImgBody.mask body) as [m|]; [|discriminate].
       destruct (str_truthy m) eqn:Hm; [|discriminate].
       exists m. split; [reflexivity|]. split; [intros ->; discriminate|].
       symmetry in Hmask. apply bind_Raise_inv in Hmask as [Hm' | (im & _ & Hm')];
         [exact Hm' | discriminate]. }
  apply lift_inv in Hmask as [Hmask ->].
  assert (mask_decodes body) as Hmd.
  { unfold mask_decodes. destruct (Img2ImgBody.mask body) as [m|]; [|exact I].
    destruct (str_truthy m) eqn:Hm; [right | left; apply str_truthy_false; exact Hm].
    symmetry in Hmask. apply bind_Ret_inv in Hmask as (im & Him & _). eauto. }
  clear Hmask.
  inv_bind E as init_images s2 Hinit e.
  2: { apply lift_inv in Hinit as [Hinit ->]. left. split; [reflexivity|].
       exists e. split; [reflexivity|]. right. left. split; [exact Hmd|].
       symmetry. exact Hinit. }
  apply lift_inv in Hinit as [Hinit ->]. symmetry in Hinit.
  inv_bind E as arrays s3 Harrays e.
  2: { apply lift_inv in Harrays as [Harrays ->]. left. split; [reflexivity|].
       exists e. split; [reflexivity|]. right. right. split; [exact Hmd|].
       split; [eauto|]. symmetry. exact Harrays. }
  apply lift_inv in Harrays as [Harrays ->]. symmetry in Harrays.
  cbn [fold_left fst snd] in E.
  inv_bind E as u1 s4 Hprint e.
  2: { rewrite console_run in Hprint. discriminate. }
  rewrite console_run in Hprint. injection Hprint as _ <-.
  inv_bind E as params s5 Hparams e.
  2: { apply lift_inv in Hparams as [Hparams ->]. right. left. split; [reflexivity|].
       split; [exact Hmd|]. split; [eauto|]. split; [eauto|].
       rewrite !getattr_setattr_ne in Hparams by reflexivity.
       eexists e, _. split; [reflexivity|].
       split; [|left; symmetry; exact Hparams]. reflexivity. }
  apply lift_inv in Hparams as [Hparams ->].
  rewrite !getattr_setattr_ne in Hparams by reflexivity.
  inv_bind E as p s6 Hp e.
  2: { right. left.
       destruct params; try discriminate; injection Hp as <- <-;
         (split; [reflexivity|]); (split; [exact Hmd|]); (split; [eauto|]); (split; [eauto|]);
         eexists _, _; (split; [reflexivity|]);
         (split; [|right; eexists; (split; [symmetry; exact Hparams|]); intros d; discriminate]);
         reflexivity. }
  destruct params as [| | | | | | | | | | |d]; try discriminate.
  injection Hp as <- <-.
  match type of E with
  | context [EvProcessImages ?P] => set (p := P) in *
  end.
  assert (controlnet_attributes body p) as Hattrs.
  { unfold controlnet_attributes, p.
    repeat (split; [rewrite !getattr_setattr_ne by reflexivity; apply getattr_setattr_eq|]).
    eexists. split; apply getattr_setattr_eq. }
  assert (getattr p "control_net_image"
          = Ret (VDict [("image", VArray arrays.1); ("mask", VArray arrays.2)])) as Himage.
  { unfold p. rewrite !getattr_setattr_ne by reflexivity. apply getattr_setattr_eq. }
  clearbody p.
  right. right. exists p.
  split; [exact Hattrs|]. split; [exact Hmd|]. split; [eauto|]. split; [eauto|].
  inv_bind E as u2 s7 Hemit e; [|discriminate]. injection Hemit as _ <-.
  inv_bind E as processed s8 Hproc e.
  2: { apply lift_inv in Hproc as [Hproc ->]. left. exists e.
       split; [symmetry; exact Hproc|]. split; [reflexivity|].
       rewrite <- app_assoc. reflexivity. }
  apply lift_inv in Hproc as [Hproc ->]. symmetry in Hproc.
  inv_bind E as u3 s9 Hclose e; [|discriminate]. injection Hclose as _ <-.
  inv_bind E as u4 s10 Hlog e.
  2: { rewrite log_run in Hlog. discriminate. }
  rewrite log_run in Hlog. injection Hlog as _ <-.
  right. exists processed. split; [exact Hproc|].
  unfold sbind, lift, sret in E.
  destruct (comprehension encode_to_base64 _) as [b64images|e];
    injection E as <- <-; (split; [|reflexivity]);
    rewrite <- !app_assoc; reflexivity.
Qed.

(** When the images of the request decode and the host's processing
    objects have their generation parameters, the endpoint builds the
    processing object and hands it to [process_images]. *)
Lemma img2img_generates `{host : Host} (body : Img2ImgBody.t) (t : list event)
    (arrays : ndarray * ndarray) :
  mask_decodes body ->
  Forall (fun x => exists image, decode_base64_to_image x = Ret image)
         (Img2ImgBody.init_images body) ->
  control_arrays (Img2ImgBody.controlnet_input_image body)
                 (Img2ImgBody.controlnet_mask body) = Ret arrays ->
  processing_has_params ->
  exists p,
    controlnet_attributes body p /\
    getattr p "control_net_image"
    = Ret (VDict [("image", VArray arrays.1); ("mask", VArray arrays.2)]) /\
    img2img_generation body t p (img2img body t).1 (img2img body t).2.
Proof.
  intros Hmd Hinit Harrays Hparams.
  destruct (img2img body t) as [r t'] eqn:E.
  apply img2img_inv in E
    as [(-> & e & -> & H)
       | [(_ & _ & _ & _ & e & kw & _ & Hkw & H)
         | (p & Hattrs & _ & _ & (arrays' & Ha & Himage) & Hgen)]].
  - exfalso. destruct H as [(m & Hm & Hne & Hdec) | [(_ & Hi) | (_ & _ & Ha)]].
    + unfold mask_decodes in Hmd. rewrite Hm in Hmd.
      destruct Hmd as [-> | [image Him]]; [contradiction | congruence].
    + apply comprehension_returns in Hinit as [ys Hys]. congruence.
    + congruence.
  - exfalso. destruct (Hparams kw Hkw) as [params Hp].
    destruct H as [H | (v & H & Hv)]; [congruence|].
    rewrite Hp in H. injection H as <-. eapply Hv. reflexivity.
  - exists p. split; [exact Hattrs|]. split; [|exact Hgen].
    rewrite Harrays in Ha. injection Ha as <-. exact Himage.
Qed.

Lemma no_processing_in_console `{host : Host} (body : Img2ImgBody.t) (p : list (string * pyval)) :
  ~ In (EvProcessImages p) (console_events body).
Proof.
  unfold console_events. destruct enable_console_prompts; [|intros []].
  intros [H|[]]. discriminate.
Qed.

Lemma no_processing_in_log `{host : Host} (info : string) (p : list (string * pyval)) :
  ~ In (EvProcessImages p) (log_events info).
Proof.
  unfold log_events. destruct samples_log_stdout; [|intros []].
  intros [H|[]]. discriminate.
Qed.

(** The one processing object in the trace of a run: the one the
    endpoint built. *)
Lemma img2img_generation_calls `{host : Host} (body : Img2ImgBody.t)
    (p q : list (string * pyval)) (r : result pyval) (t' : list event) :
  img2img_generation body [] p r t' -> In (EvProcessImages q) t' -> q = p.
Proof.
  intros [(e & _ & _ & ->) | (processed & _ & -> & _)] Hin; cbn [app] in Hin;
    apply in_app_or in Hin as [Hin | Hin];
    try (apply no_processing_in_console in Hin; destruct Hin).
  - destruct Hin as [Hin | []]. congruence.
  - destruct Hin as [Hin | [Hin | Hin]]; [congruence | discriminate|].
    apply no_processing_in_log in Hin. destruct Hin.
Qed.

(** C6.  When [controlnet_input_image] is not empty, the access to its
    first element (line 346) is in bounds, and so is the access to the
    first element of [controlnet_mask] (line 352) whenever this list is
    not empty: lines 346-353 raise nothing but what the decoding of one
    of these first elements raises.  When the images of the request
    decode, the endpoint goes on to [process_images], and the processing
    object it hands over holds the decoded first control image and, as
    the mask, the decoded first control mask or, when [controlnet_mask]
    is empty, the placeholder of line 350: an array of unsigned bytes of
    shape 512x512x3 whose elements are all zero.  With an empty
    [controlnet_mask], no processing object with another mask is ever
    handed over. *)
Theorem img2img_control_image_access `{host : Host} (body : Img2ImgBody.t) (t : list event) :
  Img2ImgBody.controlnet_input_image body <> [] ->
  (exists first,
     index "controlnet_input_image[0]" (Img2ImgBody.controlnet_input_image body) 0
     = Ret first) /\
  (Img2ImgBody.controlnet_mask body <> [] ->
   exists first,
     index "controlnet_mask[0]" (Img2ImgBody.controlnet_mask body) 0 = Ret first) /\
  (forall e,
     control_arrays (Img2ImgBody.controlnet_input_image body)
                    (Img2ImgBody.controlnet_mask body) = Raise e ->
     exists first,
       (index "controlnet_input_image[0]" (Img2ImgBody.controlnet_input_image body) 0
        = Ret first \/
        index "controlnet_mask[0]" (Img2ImgBody.controlnet_mask body) 0 = Ret first) /\
       decode_to_nparray first = Raise e) /\
  (forall first cn_image_np,
     mask_decodes body ->
     Forall (fun x => exists image, decode_base64_to_image x = Ret image)
            (Img2ImgBody.init_images body) ->
     processing_has_params ->
     index "controlnet_input_image[0]" (Img2ImgBody.controlnet_input_image body) 0
     = Ret first ->
     decode_to_nparray first = Ret cn_image_np ->
     (Img2ImgBody.controlnet_mask body = [] ->
      exists p rest,
        (img2img body t).2
        = (t ++ console_events body ++ EvProcessImages p :: rest)%list /\
        getattr p "control_net_image"
        = Ret (VDict [("image", VArray cn_image_np); ("mask", VArray zeros_512x512x3)])) /\
     (forall first_mask cn_mask_np,
        index "controlnet_mask[0]" (Img2ImgBody.controlnet_mask body) 0 = Ret first_mask ->
        decode_to_nparray first_mask = Ret cn_mask_np ->
        exists p rest,
          (img2img body t).2
          = (t ++ console_events body ++ EvProcessImages p :: rest)%list /\
          getattr p "control_net_image"
          = Ret (VDict [("image", VArray cn_image_np); ("mask", VArray cn_mask_np)]))) /\
  (Img2ImgBody.controlnet_mask body = [] ->
   forall p, In (EvProcessImages p) (calls (img2img body)) ->
     exists cn_image_np,
       getattr p "control_net_image"
       = Ret (VDict [("image", VArray cn_image_np); ("mask", VArray zeros_512x512x3)])) /\
  (dtype zeros_512x512x3 = np_uint8 /\
   shape zeros_512x512x3 = [512; 512; 3] /\
   Z.of_nat (length (data zeros_512x512x3)) = 512 * 512 * 3 /\
   forall x, In x (data zeros_512x512x3) -> x = 0).
Proof.
  intros Hne.
  assert (forall arrays,
            mask_decodes body ->
            Forall (fun x => exists image, decode_base64_to_image x = Ret image)
                   (Img2ImgBody.init_images body) ->
            processing_has_params ->
            control_arrays (Img2ImgBody.controlnet_input_image body)
                           (Img2ImgBody.controlnet_mask body) = Ret arrays ->
            exists p rest,
              (img2img body t).2
              = (t ++ console_events body ++ EvProcessImages p :: rest)%list /\
              getattr p "control_net_image"
              = Ret (VDict [("image", VArray arrays.1); ("mask", VArray arrays.2)]))
    as Hforward.
  { intros arrays Hmd Hinit Hparams Harrays.
    destruct (img2img_generates body t arrays Hmd Hinit Harrays Hparams)
      as (p & _ & Himage & [(e & _ & _ & Ht) | (processed & _ & Ht & _)]);
      exists p; eexists; (split; [rewrite Ht; reflexivity | exact Himage]). }
  split; [|split; [|split; [|split; [|split]]]].
  - destruct (Img2ImgBody.controlnet_input_image body) as [|first rest];
      [contradiction | exists first; reflexivity].
  - intros Hm. destruct (Img2ImgBody.controlnet_mask body) as [|first rest];
      [contradiction | exists first; reflexivity].
  - intros e He.
    apply control_arrays_Raise in He as [[Hnil _] | [(first & Hi & Hd) | (first & Hi & Hd)]];
      [contradiction | eauto | eauto].
  - intros first cn_image_np Hmd Hinit Hparams Hi Hd.
    destruct (control_arrays_returns _ (Img2ImgBody.controlnet_mask body) _ _ Hi Hd)
      as [Hzero Hmask].
    split.
    + intros Hnil. apply (Hforward _ Hmd Hinit Hparams (Hzero Hnil)).
    + intros first_mask cn_mask_np Hm Hdm.
      apply (Hforward _ Hmd Hinit Hparams (Hmask _ _ Hm Hdm)).
  - intros Hnil p Hp. unfold calls in Hp.
    destruct (img2img body []) as [r t'] eqn:E. cbn [snd] in Hp.
    apply img2img_inv in E
      as [(-> & _) | [(-> & _) | (q & _ & _ & _ & (arrays & Ha & Himage) & Hgen)]].
    + destruct Hp.
    + cbn [app] in Hp. apply no_processing_in_console in Hp. destruct Hp.
    + rewrite (img2img_generation_calls _ _ _ _ _ Hgen Hp).
      destruct arrays as [img msk].
      apply control_arrays_inv in Ha as (_ & Hz & _).
      cbn [fst snd] in Himage. rewrite (Hz Hnil) in Himage. eauto.
  - destruct (zeros_uint8 [512; 512; 3]) as (Hd & Hs & Hl & Hz).
    unfold zeros_512x512x3. split; [exact Hd|]. split; [exact Hs|]. split; [|exact Hz].
    rewrite Hl, Z2Nat.id by (vm_compute; discriminate). vm_compute. reflexivity.
Qed.

Lemma demo_processing_has_params : processing_has_params (host := Demo.host).
Proof.
  intros kwargs Hkw. exists []. unfold StableDiffusionProcessingImg2Img; cbn.
  unfold Demo.new_processing.
  induction kwargs as [|[k v] kwargs IH]; [reflexivity|].
  cbn [forallb fst] in Hkw. apply andb_true_iff in Hkw as [Hk Hkw].
  cbn [app getattr]. apply negb_true_iff in Hk. rewrite Hk. exact (IH Hkw).
Qed.

Lemma img2img_control_image_access_witness :
  exists p rest cn_image_np,
    (img2img (host := Demo.host) (Demo.img2img_body [Demo.png_b64] []) []).2
    = EvProcessImages p :: rest /\
    getattr p "control_net_image"
    = Ret (VDict [("image", VArray cn_image_np); ("mask", VArray zeros_512x512x3)]).
Proof.
  destruct (decode_to_nparray (host := Demo.host) Demo.png_b64) as [a|e] eqn:Ha;
    [|vm_compute in Ha; discriminate].
  destruct (img2img_control_image_access (host := Demo.host)
              (Demo.img2img_body [Demo.png_b64] []) []) as (_ & _ & _ & H & _).
  - discriminate.
  - destruct (H Demo.png_b64 a) as [Hzero _].
    + exact I.
    + constructor.
    + exact demo_processing_has_params.
    + reflexivity.
    + exact Ha.
    + destruct (Hzero eq_refl) as (p & rest & Ht & Himage).
      exists p, rest, a. split; [exact Ht | exact Himage].
Defined.

(** ** The deprecated flat fields *)

Lemma deprecated_lookup (req : gmap string pyval) (k : string) :
  filter (fun kv => is_deprecated_key kv.1 = true) req !! k
  = if is_deprecated_key k then req !! k else None.
Proof.
  destruct (is_deprecated_key k) eqn:Hk.
  - destruct (req !! k) as [v|] eqn:Hv.
    + apply map_lookup_filter_Some. auto.
    + apply map_lookup_filter_None. auto.
  - apply map_lookup_filter_None. right. intros v _. simpl. congruence.
Qed.

Lemma copy_exclude_lookup (req : gmap string pyval) (k : string) :
  copy_exclude req (dom (filter (fun kv => is_deprecated_key kv.1 = true) req)) !! k
  = if is_deprecated_key k then None else req !! k.
Proof.
  unfold copy_exclude.
  destruct (req !! k) as [v|] eqn:Hv.
  - destruct (is_deprecated_key k) eqn:Hk.
    + apply map_lookup_filter_None. right. intros v' _ Hnot. apply Hnot. simpl.
      apply elem_of_dom. exists v. rewrite deprecated_lookup, Hk. exact Hv.
    + apply map_lookup_filter_Some. split; [exact Hv|]. simpl.
      intros Hin. apply elem_of_dom in Hin as [v' Hv'].
      rewrite deprecated_lookup, Hk in Hv'. discriminate.
  - destruct (is_deprecated_key k); apply map_lookup_filter_None; auto.
Qed.

Lemma all_None_values (d : gmap string pyval) :
  forallb is_None (map_to_list d).*2 = true <-> forall k v, d !! k = Some v -> v = VNone.
Proof.
  rewrite forallb_forall. split.
  - intros H k v Hkv.
    assert (is_None v = true) as Hn.
    { apply H. apply list_elem_of_In. apply list_elem_of_fmap.
      exists (k, v). split; [reflexivity|]. apply elem_of_map_to_list. exact Hkv. }
    destruct v; try discriminate. reflexivity.
  - intros H v Hin. apply list_elem_of_In, list_elem_of_fmap in Hin as ([k v'] & -> & Hin).
    apply elem_of_map_to_list in Hin. rewrite (H k v' Hin). reflexivity.
Qed.

(** The early return of line 209. *)
Lemma nest_deprecated_cn_fields_early (req : gmap string pyval) :
  (forall k v, is_deprecated_key k = true -> req !! k = Some v -> v = VNone) ->
  nest_deprecated_cn_fields req
  = Ret (copy_exclude req (dom (filter (fun kv => is_deprecated_key kv.1 = true) req))).
Proof.
  intros Hnone. unfold nest_deprecated_cn_fields. cbv zeta.
  replace (forallb is_None
             (map_to_list (filter (fun kv => is_deprecated_key kv.1 = true) req)).*2)
    with true; [reflexivity|].
  symmetry. apply all_None_values. intros k v Hkv.
  rewrite deprecated_lookup in Hkv.
  destruct (is_deprecated_key k) eqn:Hk; [|discriminate]. eauto.
Qed.

(** X1.  When every flat field [controlnet_*] of the request (the keys with
    this prefix other than [controlnet_units]) is [None],
    [nest_deprecated_cn_fields] returns a request that has the same
    [controlnet_units] and the same value for every other field that is
    not a flat field, and has no flat field. *)
Theorem nest_deprecated_cn_fields_absent (txt2imgreq : gmap string pyval) :
  (forall k v, is_deprecated_key k = true -> txt2imgreq !! k = Some v -> v = VNone) ->
  exists result,
    nest_deprecated_cn_fields txt2imgreq = Ret result /\
    result !! "controlnet_units" = txt2imgreq !! "controlnet_units" /\
    (forall k, is_deprecated_key k = false -> result !! k = txt2imgreq !! k) /\
    (forall k, is_deprecated_key k = true -> result !! k = None).
Proof.
  intros Hnone. eexists. split; [|split; [|split]].
  - apply nest_deprecated_cn_fields_early. exact Hnone.
  - rewrite copy_exclude_lookup. reflexivity.
  - intros k Hk. rewrite copy_exclude_lookup, Hk. reflexivity.
  - intros k Hk. rewrite copy_exclude_lookup, Hk. reflexivity.
Qed.

Lemma nest_deprecated_cn_fields_absent_witness :
  exists result,
    nest_deprecated_cn_fields Demo.nested_request = Ret result /\
    result !! "controlnet_units" = Some (VList [VUnit Demo.unit_default]) /\
    result !! "controlnet_module" = None.
Proof.
  destruct (nest_deprecated_cn_fields_absent Demo.nested_request) as (result & E & Hu & _ & Hd).
  - intros k v Hk Hv.
    assert (filter (fun kv => is_deprecated_key kv.1 = true) Demo.nested_request !! k = Some v)
      as Hf by (rewrite deprecated_lookup, Hk; exact Hv).
    apply (proj1 (all_None_values _)) in Hf; [exact Hf | vm_compute; reflexivity].
  - exists result. split; [exact E|]. split; [rewrite Hu; reflexivity | apply Hd; reflexivity].
Defined.

(** *** A request with a flat field set *)

Lemma prefix_slice (p s : string) :
  String.prefix p s = true -> s = p ++ slice_from (String.length p) s.
Proof.
  revert s. induction p as [|c p IH]; intros s H; [reflexivity|].
  destruct s as [|c' s]; [discriminate|]. simpl in H.
  destruct (Ascii.ascii_dec c c') as [->|]; [|discriminate].
  simpl. f_equal. apply IH. exact H.
Qed.

Lemma deprecated_key_prefix (k : string) :
  is_deprecated_key k = true -> k = "controlnet_" ++ slice_from (String.length "controlnet_") k.
Proof.
  unfold is_deprecated_key, startswith. intros H.
  apply andb_true_iff in H as [H _]. apply prefix_slice. exact H.
Qed.

Lemma slice_prefixed (f : string) : slice_from (String.length "controlnet_") ("controlnet_" ++ f) = f.
Proof. reflexivity. Qed.

Lemma strip_prefix_lookup (req : gmap string pyval) (f : string) :
  strip_prefix (filter (fun kv => is_deprecated_key kv.1 = true) req) !! f
  = if is_deprecated_key ("controlnet_" ++ f) then req !! ("controlnet_" ++ f) else None.
Proof.
  rewrite <- deprecated_lookup.
  set (D := filter (fun kv => is_deprecated_key kv.1 = true) req).
  assert (forall k v, (k, v) ∈ map_to_list D -> is_deprecated_key k = true) as Hdep.
  { intros k v Hin. apply elem_of_map_to_list in Hin. unfold D in Hin.
    rewrite deprecated_lookup in Hin. destruct (is_deprecated_key k); [reflexivity|discriminate]. }
  unfold strip_prefix.
  set (g := fun kv : string * pyval => (slice_from (String.length "controlnet_") kv.1, kv.2)).
  assert (NoDup (g <$> map_to_list D).*1) as Hnd.
  { rewrite <- list_fmap_compose.
    apply NoDup_fmap_2_strong; [|apply NoDup_map_to_list].
    intros [k1 v1] [k2 v2] H1 H2 E. simpl in E.
    assert (k1 = k2) as <-.
    { rewrite (deprecated_key_prefix k1 (Hdep _ _ H1)), (deprecated_key_prefix k2 (Hdep _ _ H2)).
      f_equal. exact E. }
    apply elem_of_map_to_list in H1, H2. congruence. }
  destruct (D !! ("controlnet_" ++ f)) as [v|] eqn:Hv.
  - apply elem_of_list_to_map_1; [exact Hnd|].
    apply list_elem_of_fmap. exists ("controlnet_" ++ f, v). split; [reflexivity|].
    apply elem_of_map_to_list. exact Hv.
  - apply not_elem_of_list_to_map_1. intros Hin.
    apply list_elem_of_fmap in Hin as ([f' v] & E & Hin).
    apply list_elem_of_fmap in Hin as ([k v'] & E' & Hin).
    unfold g in E'. cbn [fst snd] in E, E'. injection E' as -> ->. subst f.
    pose proof (Hdep _ _ Hin) as Hk. apply deprecated_key_prefix in Hk.
    apply elem_of_map_to_list in Hin.
    assert (D !! k = None) as Hnone by (rewrite Hk; exact Hv).
    congruence.
Qed.

(** Lines 212-214: the loop that fills in the defaults. *)
Lemma fill_defaults_loop (l : list (string * pyval)) (d0 : gmap string pyval) :
  (forall k, In (k, VNone) l -> exists w, get_deprecated_field_default k = Ret w) ->
  exists d1,
    for_each (fun (d : gmap string pyval) kv =>
                if is_None kv.2 then
                  v <- get_deprecated_field_default kv.1 ;; Ret (<[kv.1 := v]> d)
                else Ret d) l d0 = Ret d1 /\
    forall k, d1 !! k
              = if existsb (fun kv => String.eqb kv.1 k && is_None kv.2) l
                then match get_deprecated_field_default k with
                     | Ret w => Some w
                     | Raise _ => None
                     end
                else d0 !! k.
Proof.
  revert d0. induction l as [|[k0 v0] l IH]; intros d0 Hdef.
  - exists d0. split; reflexivity.
  - cbn [for_each fst snd].
    destruct (is_None v0) eqn:Hn.
    + assert (v0 = VNone) as -> by (destruct v0; try discriminate; reflexivity).
      destruct (Hdef k0 (or_introl eq_refl)) as [w Hw]. rewrite Hw. cbn [bind].
      destruct (IH (<[k0 := w]> d0)) as (d1 & E & Hd1).
      { intros k Hin. apply Hdef. right. exact Hin. }
      exists d1. split; [exact E|]. intros k. rewrite Hd1. cbn [existsb fst snd is_None].
      rewrite andb_true_r.
      destruct (String.eqb_spec k0 k) as [->|Hne]; cbn [orb].
      * rewrite Hw. rewrite lookup_insert_eq.
        destruct (existsb _ l); reflexivity.
      * rewrite lookup_insert_ne by exact Hne. reflexivity.
    + cbn [bind]. destruct (IH d0) as (d1 & E & Hd1).
      { intros k Hin. apply Hdef. right. exact Hin. }
      exists d1. split; [exact E|]. intros k. rewrite Hd1. cbn [existsb fst snd].
      rewrite Hn, andb_false_r. reflexivity.
Qed.

Lemma existsb_None_entry (d : gmap string pyval) (k : string) :
  existsb (fun kv : string * pyval => String.eqb kv.1 k && is_None kv.2) (map_to_list d) = true
  <-> d !! k = Some VNone.
Proof.
  rewrite existsb_exists. split.
  - intros ([k' v] & Hin & H). apply andb_true_iff in H as [Hk Hv]. simpl in *.
    apply String.eqb_eq in Hk. subst k'.
    destruct v; try discriminate.
    apply list_elem_of_In, elem_of_map_to_list in Hin. exact Hin.
  - intros H. exists (k, VNone). split.
    + apply list_elem_of_In, elem_of_map_to_list. exact H.
    + simpl. rewrite String.eqb_refl. reflexivity.
Qed.

(** Lines 216-217: whatever the dictionary holds, [input_image] and
    [mask] become the empty string. *)
Lemma image_fields_loop (d : gmap string pyval) :
  for_each (fun (d : gmap string pyval) k =>
              cond <- get_deprecated_field_default k ;;
              v <- (if truthy cond then
                      l <- dict_getitem d k ;; getitem "deprecated_cn_fields[k][0]" l 0
                    else Ret (VStr "")) ;;
              Ret (<[k := v]> d))
           ["input_image"; "mask"] d
  = Ret (<["mask" := VStr ""]> (<["input_image" := VStr ""]> d)).
Proof. reflexivity. Qed.

(** The keyword arguments that reach [ControlNetUnitRequest] at line 219. *)
Lemma nest_kwargs (req : gmap string pyval) :
  declared_flat_fields req ->
  exists d1,
    for_each (fun (d : gmap string pyval) kv =>
                if is_None kv.2 then
                  v <- get_deprecated_field_default kv.1 ;; Ret (<[kv.1 := v]> d)
                else Ret d)
             (map_to_list (strip_prefix (filter (fun kv => is_deprecated_key kv.1 = true) req)))
             (strip_prefix (filter (fun kv => is_deprecated_key kv.1 = true) req)) = Ret d1 /\
    forall f, is_image_field f = false -> is_Some (cn_fields !! f) ->
              is_deprecated_key ("controlnet_" ++ f) = true ->
              argument d1 f = Ret (flat_value req f).
Proof.
  intros Hdecl.
  set (S := strip_prefix (filter (fun kv => is_deprecated_key kv.1 = true) req)).
  destruct (fill_defaults_loop (map_to_list S) S) as (d1 & E & Hd1).
  { intros k Hin. apply list_elem_of_In, elem_of_map_to_list in Hin.
    unfold S in Hin. rewrite strip_prefix_lookup in Hin.
    destruct (is_deprecated_key ("controlnet_" ++ k)) eqn:Hk; [|discriminate].
    destruct (Hdecl _ _ Hk Hin) as (f & Ef & [field Hf]).
    apply (f_equal (slice_from (String.length "controlnet_"))) in Ef.
    rewrite !slice_prefixed in Ef. subst f.
    unfold get_deprecated_field_default, cn_fields_getitem. rewrite Hf.
    destruct (is_image_field k); eauto. }
  exists d1. split; [exact E|]. intros f Himg [field Hf] Hk.
  unfold argument, flat_value, field_default. rewrite Hd1.
  destruct (existsb _ (map_to_list S)) eqn:Hex.
  - apply existsb_None_entry in Hex. unfold S in Hex.
    rewrite strip_prefix_lookup, Hk in Hex. rewrite Hex.
    unfold get_deprecated_field_default, cn_fields_getitem. rewrite Himg, Hf. reflexivity.
  - assert (S !! f <> Some VNone) as Hnot.
    { intros H. apply existsb_None_entry in H. congruence. }
    unfold S in Hnot |- *. rewrite strip_prefix_lookup, Hk in Hnot |- *.
    destruct (req !! ("controlnet_" ++ f)) as [v|].
    + destruct v; try reflexivity. contradiction.
    + unfold cn_fields_getitem. rewrite Hf. reflexivity.
Qed.

(** Every run of [nest_deprecated_cn_fields] that goes past line 209. *)
Lemma nest_deprecated_cn_fields_late (req : gmap string pyval) (units : list pyval)
    (module_ model_ resize_mode_ : string) (weight_ threshold_a_ threshold_b_ guidance_ : float)
    (lowvram_ guessmode_ : bool) (processor_res_ : Z) :
  req !! "controlnet_units" = Some (VList units) ->
  declared_flat_fields req ->
  some_flat_field_set req ->
  validate_str "module" (flat_value req "module") = Ret module_ ->
  validate_str "model" (flat_value req "model") = Ret model_ ->
  validate_float "weight" (flat_value req "weight") = Ret weight_ ->
  validate_str "resize_mode" (flat_value req "resize_mode") = Ret resize_mode_ ->
  validate_bool "lowvram" (flat_value req "lowvram") = Ret lowvram_ ->
  validate_int "processor_res" (flat_value req "processor_res") = Ret processor_res_ ->
  validate_float "threshold_a" (flat_value req "threshold_a") = Ret threshold_a_ ->
  validate_float "threshold_b" (flat_value req "threshold_b") = Ret threshold_b_ ->
  validate_float "guidance" (flat_value req "guidance") = Ret guidance_ ->
  validate_bool "guessmode" (flat_value req "guessmode") = Ret guessmode_ ->
  nest_deprecated_cn_fields req
  = Ret (<["controlnet_units" :=
             VList (VUnit (mk_unit "" "" module_ model_ weight_ resize_mode_ lowvram_
                             processor_res_ threshold_a_ threshold_b_ guidance_ guessmode_)
                    :: units)]>
           (copy_exclude req (dom (filter (fun kv => is_deprecated_key kv.1 = true) req)))).
Proof.
  intros Hunits Hdecl (k0 & v0 & Hk0 & Hv0 & Hset) H1 H2 H3 H4 H5 H6 H7 H8 H9 H10.
  unfold nest_deprecated_cn_fields. cbv zeta.
  replace (forallb is_None
             (map_to_list (filter (fun kv => is_deprecated_key kv.1 = true) req)).*2)
    with false.
  2: { symmetry. apply not_true_is_false. intros H.
       apply Hset. apply (proj1 (all_None_values _) H k0).
       rewrite deprecated_lookup, Hk0. exact Hv0. }
  destruct (nest_kwargs req Hdecl) as (d1 & -> & Harg). cbn [bind].
  rewrite image_fields_loop. cbn [bind].
  unfold new_ControlNetUnitRequest, field_of.
  assert (forall f, is_image_field f = false ->
            argument (<["mask" := VStr ""]> (<["input_image" := VStr ""]> d1)) f = argument d1 f)
    as Hother.
  { intros f Hf. unfold argument.
    rewrite !lookup_insert_ne; [reflexivity| |].
    - intros <-. discriminate.
    - intros <-. discriminate. }
  assert (argument (<["mask" := VStr ""]> (<["input_image" := VStr ""]> d1)) "input_image"
          = Ret (VStr "")) as ->.
  { unfold argument. rewrite lookup_insert_ne by discriminate.
    rewrite lookup_insert_eq. reflexivity. }
  assert (argument (<["mask" := VStr ""]> (<["input_image" := VStr ""]> d1)) "mask"
          = Ret (VStr "")) as ->.
  { unfold argument. rewrite lookup_insert_eq. reflexivity. }
  cbn [bind validate_str].
  rewrite !Hother by reflexivity.
  rewrite !Harg by (first [reflexivity | eexists; vm_compute; reflexivity]).
  cbn [bind]. rewrite H1. cbn [bind]. rewrite H2. cbn [bind]. rewrite H3. cbn [bind].
  rewrite H4. cbn [bind]. rewrite H5. cbn [bind]. rewrite H6. cbn [bind].
  rewrite H7. cbn [bind]. rewrite H8. cbn [bind]. rewrite H9. cbn [bind].
  rewrite H10. cbn [bind].
  unfold controlnet_units_insert0.
  rewrite copy_exclude_lookup. cbn. rewrite Hunits. reflexivity.
Qed.

(** X2.  On a request that has a flat field set, whose flat fields are
    among the twelve declared ones and hold [None] or a value of the
    type of their field, [nest_deprecated_cn_fields] returns: the result
    has no flat field, keeps every other field, and its
    [controlnet_units] is the old list with one new unit in front.  The
    new unit takes [module], [model], [weight], [resize_mode],
    [lowvram], [processor_res], [threshold_a], [threshold_b], [guidance]
    and [guessmode] from the flat field where it is set and from the
    default of [cn_fields] where it is [None]; its [input_image] and
    [mask] are the empty string, whatever [controlnet_input_image] and
    [controlnet_mask] hold (line 217 tests the default of the field, the
    empty list, not its value). *)
Theorem nest_deprecated_cn_fields_flat (txt2imgreq : gmap string pyval) (units : list pyval)
    (module_ model_ resize_mode_ : string) (weight_ threshold_a_ threshold_b_ guidance_ : float)
    (lowvram_ guessmode_ : bool) (processor_res_ : Z) :
  txt2imgreq !! "controlnet_units" = Some (VList units) ->
  declared_flat_fields txt2imgreq ->
  some_flat_field_set txt2imgreq ->
  validate_str "module" (flat_value txt2imgreq "module") = Ret module_ ->
  validate_str "model" (flat_value txt2imgreq "model") = Ret model_ ->
  validate_float "weight" (flat_value txt2imgreq "weight") = Ret weight_ ->
  validate_str "resize_mode" (flat_value txt2imgreq "resize_mode") = Ret resize_mode_ ->
  validate_bool "lowvram" (flat_value txt2imgreq "lowvram") = Ret lowvram_ ->
  validate_int "processor_res" (flat_value txt2imgreq "processor_res") = Ret processor_res_ ->
  validate_float "threshold_a" (flat_value txt2imgreq "threshold_a") = Ret threshold_a_ ->
  validate_float "threshold_b" (flat_value txt2imgreq "threshold_b") = Ret threshold_b_ ->
  validate_float "guidance" (flat_value txt2imgreq "guidance") = Ret guidance_ ->
  validate_bool "guessmode" (flat_value txt2imgreq "guessmode") = Ret guessmode_ ->
  exists result,
    nest_deprecated_cn_fields txt2imgreq = Ret result /\
    result !! "controlnet_units"
    = Some (VList (VUnit (mk_unit "" "" module_ model_ weight_ resize_mode_ lowvram_
                            processor_res_ threshold_a_ threshold_b_ guidance_ guessmode_)
                   :: units)) /\
    (forall k, k <> "controlnet_units" -> is_deprecated_key k = false ->
               result !! k = txt2imgreq !! k) /\
    (forall k, is_deprecated_key k = true -> result !! k = None).
Proof.
  intros Hunits Hdecl Hset H1 H2 H3 H4 H5 H6 H7 H8 H9 H10.
  eexists. split; [|split; [|split]].
  - apply (nest_deprecated_cn_fields_late _ _ _ _ _ _ _ _ _ _ _ _
             Hunits Hdecl Hset H1 H2 H3 H4 H5 H6 H7 H8 H9 H10).
  - apply lookup_insert_eq.
  - intros k Hk Hdep. rewrite lookup_insert_ne by congruence.
    rewrite copy_exclude_lookup, Hdep. reflexivity.
  - intros k Hdep. rewrite lookup_insert_ne by (intros <-; discriminate).
    rewrite copy_exclude_lookup, Hdep. reflexivity.
Qed.

(** A check of [declared_flat_fields] on the entries of a request. *)
Lemma declared_flat_fields_check (req : gmap string pyval) :
  forallb (fun kv : string * pyval =>
             negb (is_deprecated_key kv.1)
             || existsb (fun f => String.eqb kv.1 ("controlnet_" ++ f)) (map_to_list cn_fields).*1)
          (map_to_list req) = true ->
  declared_flat_fields req.
Proof.
  intros H k v Hk Hv. rewrite forallb_forall in H.
  specialize (H (k, v)). cbn [fst] in H. rewrite Hk in H. cbn [negb orb] in H.
  assert (In (k, v) (map_to_list req)) as Hin
    by (apply list_elem_of_In, elem_of_map_to_list; exact Hv).
  apply H, existsb_exists in Hin as (f & Hf & E).
  apply String.eqb_eq in E. exists f. split; [exact E|].
  apply list_elem_of_In, list_elem_of_fmap in Hf as ([f' field] & -> & Hf).
  apply elem_of_map_to_list in Hf. eauto.
Qed.

Lemma nest_deprecated_cn_fields_flat_witness :
  Demo.flat_request !! "controlnet_input_image" = Some (VList [VStr "A"]) /\
  exists result,
    nest_deprecated_cn_fields Demo.flat_request = Ret result /\
    result !! "controlnet_units"
    = Some (VList [VUnit (mk_unit "" "" "canny" "None" 1 "Scale to Fit (Inner Fit)" false
                            64 64 64 1 true)]).
Proof.
  split; [vm_compute; reflexivity|].
  destruct (nest_deprecated_cn_fields_flat Demo.flat_request [] "canny" "None"
              "Scale to Fit (Inner Fit)" 1 64 64 1 false true 64)
    as (result & E & Hu & _); try (vm_compute; reflexivity).
  - apply declared_flat_fields_check. vm_compute. reflexivity.
  - exists "controlnet_module", (VStr "canny").
    split; [reflexivity|]. split; [vm_compute; reflexivity | discriminate].
  - exists result. split; [exact E | exact Hu].
Defined.

(** What [nest_deprecated_cn_fields] returns, when it returns. *)
Lemma nest_deprecated_cn_fields_inv (req result : gmap string pyval) :
  nest_deprecated_cn_fields req = Ret result ->
  result = copy_exclude req (dom (filter (fun kv => is_deprecated_key kv.1 = true) req)) \/
  exists unit units,
    result = <["controlnet_units" := VList (VUnit unit :: units)]>
               (copy_exclude req (dom (filter (fun kv => is_deprecated_key kv.1 = true) req))).
Proof.
  unfold nest_deprecated_cn_fields. cbv zeta.
  destruct (forallb is_None _); [intros [= <-]; left; reflexivity|].
  intros H. right.
  apply bind_Ret_inv in H as (d1 & _ & H).
  apply bind_Ret_inv in H as (d2 & _ & H).
  apply bind_Ret_inv in H as (unit & _ & H).
  unfold controlnet_units_insert0 in H.
  destruct (copy_exclude req _ !! "controlnet_units") as [[]|]; try discriminate.
  injection H as <-. eauto.
Qed.

(** X3.  Whenever [nest_deprecated_cn_fields] returns, its result has
    no flat field, and nesting the result again returns it unchanged. *)
Theorem nest_deprecated_cn_fields_idempotent (txt2imgreq result : gmap string pyval) :
  nest_deprecated_cn_fields txt2imgreq = Ret result ->
  (forall k, is_deprecated_key k = true -> result !! k = None) /\
  nest_deprecated_cn_fields result = Ret result.
Proof.
  intros H.
  assert (forall k, is_deprecated_key k = true -> result !! k = None) as Hnone.
  { intros k Hk. apply nest_deprecated_cn_fields_inv in H as [-> | (unit & units & ->)].
    - rewrite copy_exclude_lookup, Hk. reflexivity.
    - rewrite lookup_insert_ne by (intros <-; discriminate).
      rewrite copy_exclude_lookup, Hk. reflexivity. }
  split; [exact Hnone|].
  rewrite nest_deprecated_cn_fields_early.
  - f_equal. apply map_eq. intros k. rewrite copy_exclude_lookup.
    destruct (is_deprecated_key k) eqn:Hk; [symmetry; auto | reflexivity].
  - intros k v Hk Hv. rewrite (Hnone k Hk) in Hv. discriminate.
Qed.

Lemma nest_deprecated_cn_fields_idempotent_witness :
  exists result,
    nest_deprecated_cn_fields Demo.nested_request = Ret result /\
    nest_deprecated_cn_fields result = Ret result.
Proof.
  assert (nest_deprecated_cn_fields Demo.nested_request
          = Ret (copy_exclude Demo.nested_request
                   (dom (filter (fun kv => is_deprecated_key kv.1 = true) Demo.nested_request))))
    as E.
  { apply nest_deprecated_cn_fields_early. intros k v Hk Hv.
    assert (filter (fun kv => is_deprecated_key kv.1 = true) Demo.nested_request !! k = Some v)
      as Hf by (rewrite deprecated_lookup, Hk; exact Hv).
    apply (proj1 (all_None_values _)) in Hf; [exact Hf | vm_compute; reflexivity]. }
  eexists. split; [exact E|].
  apply (nest_deprecated_cn_fields_idempotent _ _ E).
Defined.

(** *** The two shapes of a request *)

Lemma flat_fields_all_None (req : gmap string pyval) :
  (forall k v, is_deprecated_key k = true -> req !! k = Some v -> v = VNone) ->
  forallb is_None (map_to_list (filter (fun kv => is_deprecated_key kv.1 = true) req)).*2 = true.
Proof.
  intros Hnone. apply all_None_values. intros k v Hv.
  rewrite deprecated_lookup in Hv.
  destruct (is_deprecated_key k) eqn:Hk; [|discriminate]. apply (Hnone k v Hk Hv).
Qed.

(** C5.  When every flat field [controlnet_*] of the request is [None]
    or absent, [nest_deprecated_cn_fields] returns, and the request it
    returns is the given one without its flat fields: it has the same
    [controlnet_units], every field that is not a flat field with the
    value it had, no flat field, and no field that the given request
    did not have. *)
Theorem nest_deprecated_cn_fields_frame (txt2imgreq : gmap string pyval) :
  (forall k v, is_deprecated_key k = true -> txt2imgreq !! k = Some v -> v = VNone) ->
  exists result,
    nest_deprecated_cn_fields txt2imgreq = Ret result /\
    result !! "controlnet_units" = txt2imgreq !! "controlnet_units" /\
    (forall k, is_deprecated_key k = false -> result !! k = txt2imgreq !! k) /\
    (forall k, is_deprecated_key k = true -> result !! k = None) /\
    result ⊆ txt2imgreq /\
    dom result = filter (fun k => is_deprecated_key k = false) (dom txt2imgreq).
Proof.
  intros Hnone.
  exists (copy_exclude txt2imgreq
            (dom (filter (fun kv => is_deprecated_key kv.1 = true) txt2imgreq))).
  split; [|split; [|split; [|split; [|split]]]].
  - unfold nest_deprecated_cn_fields. cbv zeta.
    rewrite (flat_fields_all_None _ Hnone). reflexivity.
  - rewrite copy_exclude_lookup. reflexivity.
  - intros k Hk. rewrite copy_exclude_lookup, Hk. reflexivity.
  - intros k Hk. rewrite copy_exclude_lookup, Hk. reflexivity.
  - apply map_subseteq_spec. intros k v. rewrite copy_exclude_lookup.
    destruct (is_deprecated_key k); [discriminate | auto].
  - apply set_eq. intros k. rewrite elem_of_filter, !elem_of_dom.
    rewrite copy_exclude_lookup.
    destruct (is_deprecated_key k); split.
    + intros [v H]. discriminate.
    + intros [H _]. discriminate.
    + intros H. auto.
    + intros [_ H]. exact H.
Qed.

Lemma nest_deprecated_cn_fields_frame_witness :
  exists result,
    nest_deprecated_cn_fields Demo.nested_request = Ret result /\
    result !! "controlnet_units" = Some (VList [VUnit Demo.unit_default]) /\
    result !! "prompt" = Some (VStr "a cat") /\
    result !! "controlnet_module" = None.
Proof.
  destruct (nest_deprecated_cn_fields_frame Demo.nested_request)
    as (result & E & Hu & Hother & Hd & _).
  - intros k v Hk Hv.
    assert (filter (fun kv => is_deprecated_key kv.1 = true) Demo.nested_request !! k = Some v)
      as Hf by (rewrite deprecated_lookup, Hk; exact Hv).
    apply (proj1 (all_None_values _)) in Hf; [exact Hf | vm_compute; reflexivity].
  - exists result. split; [exact E|]. split; [rewrite Hu; reflexivity|].
    split; [rewrite Hother by reflexivity; reflexivity | apply Hd; reflexivity].
Defined.

(** C2.  The unit that [nest_deprecated_cn_fields] builds from the flat
    fields, when one of them is set, has the empty string as its
    [input_image] and as its [mask], whatever the lists
    [controlnet_input_image] and [controlnet_mask] hold: the condition
    of line 217 is [get_deprecated_field_default(k)], the empty list for
    both fields, so the first element of the list is never taken. *)
Theorem nest_deprecated_cn_fields_image_fields (txt2imgreq result : gmap string pyval) :
  some_flat_field_set txt2imgreq ->
  nest_deprecated_cn_fields txt2imgreq = Ret result ->
  exists unit units,
    txt2imgreq !! "controlnet_units" = Some (VList units) /\
    result !! "controlnet_units" = Some (VList (VUnit unit :: units)) /\
    input_image unit = "" /\ mask unit = "".
Proof.
  intros (k0 & v0 & Hk0 & Hv0 & Hset) H.
  unfold nest_deprecated_cn_fields in H. cbv zeta in H.
  replace (forallb is_None
             (map_to_list (filter (fun kv => is_deprecated_key kv.1 = true) txt2imgreq)).*2)
    with false in H.
  2: { symmetry. apply not_true_is_false. intros Hall.
       apply Hset. apply (proj1 (all_None_values _) Hall k0).
       rewrite deprecated_lookup, Hk0. exact Hv0. }
  apply bind_Ret_inv in H as (d1 & _ & H).
  rewrite image_fields_loop in H. cbn [bind] in H.
  apply bind_Ret_inv in H as (unit & Hunit & H).
  unfold controlnet_units_insert0 in H. rewrite copy_exclude_lookup in H.
  cbn [is_deprecated_key startswith String.prefix String.eqb Ascii.eqb Bool.eqb andb negb] in H.
  destruct (txt2imgreq !! "controlnet_units") as [v|] eqn:Hunits; [|discriminate].
  destruct v; try discriminate.
  injection H as <-.
  eexists unit, _. split; [reflexivity|]. split; [apply lookup_insert_eq|].
  unfold new_ControlNetUnitRequest, field_of in Hunit.
  assert (argument (<["mask" := VStr ""]> (<["input_image" := VStr ""]> d1)) "input_image"
          = Ret (VStr "")) as Ei.
  { unfold argument. rewrite lookup_insert_ne by discriminate.
    rewrite lookup_insert_eq. reflexivity. }
  assert (argument (<["mask" := VStr ""]> (<["input_image" := VStr ""]> d1)) "mask"
          = Ret (VStr "")) as Em.
  { unfold argument. rewrite lookup_insert_eq. reflexivity. }
  rewrite Ei, Em in Hunit. cbn [bind validate_str] in Hunit.
  repeat (apply bind_Ret_inv in Hunit as (? & _ & Hunit)).
  injection Hunit as <-. split; reflexivity.
Qed.

Lemma nest_deprecated_cn_fields_image_fields_witness :
  Demo.flat_request !! "controlnet_input_image" = Some (VList [VStr "A"]) /\
  exists result unit,
    nest_deprecated_cn_fields Demo.flat_request = Ret result /\
    result !! "controlnet_units" = Some (VList [VUnit unit]) /\
    input_image unit = "".
Proof.
  split; [vm_compute; reflexivity|].
  assert (some_flat_field_set Demo.flat_request) as Hset.
  { exists "controlnet_module", (VStr "canny").
    split; [reflexivity|]. split; [vm_compute; reflexivity | discriminate]. }
  assert (Demo.flat_request !! "controlnet_units" = Some (VList [])) as Hunits
    by (vm_compute; reflexivity).
  assert (exists result, nest_deprecated_cn_fields Demo.flat_request = Ret result)
    as [result E].
  { eexists.
    apply (nest_deprecated_cn_fields_late Demo.flat_request [] "canny" "None"
             "Scale to Fit (Inner Fit)" 1 64 64 1 false true 64);
      try (vm_compute; reflexivity); [|exact Hset].
    apply declared_flat_fields_check. vm_compute. reflexivity. }
  destruct (nest_deprecated_cn_fields_image_fields _ _ Hset E)
    as (unit & units & Hu & Hr & Hi & _).
  rewrite Hunits in Hu. injection Hu as <-.
  exists result, unit. split; [exact E|]. split; [exact Hr | exact Hi].
Defined.

(** ** Routes *)

Lemma controlnet_routes_app (app1 app2 : list route) :
  controlnet_routes (app1 ++ app2) = (controlnet_routes app1 ++ controlnet_routes app2)%list.
Proof. unfold controlnet_routes. apply List.filter_app. Qed.

Lemma controlnet_api_routes (app : list route) :
  controlnet_api app = (app ++ [route_img2img; route_model_list; route_detect])%list.
Proof. unfold controlnet_api, add_api_route. rewrite <- !app_assoc. reflexivity. Qed.

(** C7, as amended.  Importing the module replaces [api.Api] by a
    subclass whose construction registers, after the routes of the
    original class, POST /controlnet/txt2img.  When the host has
    [script_callbacks.on_app_started], the import registers one more
    callback for the start of the application, after those already
    registered; when it has not, the failure is swallowed and no callback
    is registered.  The callback, run on an application, adds POST
    /controlnet/img2img, GET /controlnet/model_list and POST
    /controlnet/detect after the routes it finds, in this order.  So an
    application that had no route under /controlnet/ has exactly four,
    all different, once the new class is constructed on it and the
    callback is run, and exactly one when the callback is not run. *)
Theorem import_api_module_routes (m : host_modules) (app : list route) :
  api_Api (import_api_module m) app = (api_Api m app ++ [route_txt2img])%list /\
  controlnet_api app = (app ++ [route_img2img; route_model_list; route_detect])%list /\
  (forall callbacks, app_started_callbacks m = Some callbacks ->
     app_started_callbacks (import_api_module m) = Some (callbacks ++ [controlnet_api])%list) /\
  (app_started_callbacks m = None -> app_started_callbacks (import_api_module m) = None) /\
  controlnet_routes (api_Api (import_api_module m) app)
  = (controlnet_routes (api_Api m app) ++ [route_txt2img])%list /\
  controlnet_routes (controlnet_api app)
  = (controlnet_routes app ++ [route_img2img; route_model_list; route_detect])%list /\
  (controlnet_routes (api_Api m app) = [] ->
   controlnet_routes (api_Api (import_api_module m) app) = [route_txt2img] /\
   controlnet_routes (controlnet_api (api_Api (import_api_module m) app))
   = [route_txt2img; route_img2img; route_model_list; route_detect]) /\
  NoDup [route_txt2img; route_img2img; route_model_list; route_detect].
Proof.
  assert (api_Api (import_api_module m) app = (api_Api m app ++ [route_txt2img])%list) as Hclass
    by reflexivity.
  split; [exact Hclass|]. split; [apply controlnet_api_routes|].
  split; [intros callbacks Hcb; unfold import_api_module; cbn; rewrite Hcb; reflexivity|].
  split; [intros Hcb; unfold import_api_module; cbn; rewrite Hcb; reflexivity|].
  split; [rewrite Hclass, controlnet_routes_app; reflexivity|].
  split; [rewrite controlnet_api_routes, controlnet_routes_app; reflexivity|].
  split.
  - intros Hnone.
    rewrite controlnet_api_routes, controlnet_routes_app, Hclass, controlnet_routes_app, Hnone.
    split; reflexivity.
  - unfold route_txt2img, route_img2img, route_model_list, route_detect.
    repeat (apply NoDup_cons_2;
            [intros H; repeat (apply elem_of_cons in H as [H|H]; [discriminate|]);
             apply elem_of_nil in H; exact H|]).
    apply NoDup_nil_2.
Qed.

Lemma import_api_module_routes_witness :
  app_started_callbacks (import_api_module Demo.host_modules_now) = Some [controlnet_api] /\
  controlnet_routes (controlnet_api (api_Api (import_api_module Demo.host_modules_now) []))
  = [route_txt2img; route_img2img; route_model_list; route_detect].
Proof.
  destruct (import_api_module_routes Demo.host_modules_now [])
    as (_ & _ & Hregistered & _ & _ & _ & Hfour & _).
  split.
  - apply (Hregistered []). reflexivity.
  - apply Hfour. reflexivity.
Defined.

(** On a host without [script_callbacks.on_app_started] the import
    registers no callback: there is nothing to add the three routes of
    [controlnet_api], and the application has one route under
    /controlnet/, not four. *)
Lemma import_api_module_old_host :
  app_started_callbacks (import_api_module Demo.old_host_modules) = None /\
  controlnet_routes (api_Api (import_api_module Demo.old_host_modules) []) = [route_txt2img].
Proof. split; reflexivity. Qed.

(** ** Encoding *)

Lemma known_samples_format_cases `{host : Host} :
  known_samples_format <->
  String.eqb (lower samples_format) "png"
  || existsb (String.eqb (lower samples_format)) ["jpg"; "jpeg"; "webp"] = true.
Proof.
  unfold known_samples_format. cbn [In existsb].
  rewrite !orb_true_iff, !String.eqb_eq. intuition congruence.
Qed.

Lemma encode_pil_to_base64_unknown `{host : Host} (image : Image) :
  ~ known_samples_format ->
  encode_pil_to_base64 image = Raise (HTTPException 500 "Invalid image format").
Proof.
  rewrite known_samples_format_cases. unfold encode_pil_to_base64.
  destruct (String.eqb (lower samples_format) "png"); cbn [orb bind].
  - intros H. exfalso. auto.
  - destruct (existsb (String.eqb (lower samples_format)) ["jpg"; "jpeg"; "webp"]).
    + intros H. exfalso. auto.
    + reflexivity.
Qed.

Lemma encode_pil_to_base64_png `{host : Host} (image : Image) :
  lower samples_format = "png" ->
  encode_pil_to_base64 image
  = (raw <- Image_save image "PNG"
              (pnginfo (if negb (Nat.eqb (length (text_items (im_info image))) 0)
                        then Some (text_items (im_info image)) else None))
              jpeg_quality ;;
     Ret (b64encode raw)).
Proof. intros E. unfold encode_pil_to_base64. rewrite E. reflexivity. Qed.

Lemma encode_pil_to_base64_exif `{host : Host} (image : Image) :
  (In (lower samples_format) ["jpg"; "jpeg"] ->
   encode_pil_to_base64 image = saved_with_exif image "JPEG") /\
  (lower samples_format = "webp" ->
   encode_pil_to_base64 image = saved_with_exif image "WEBP").
Proof.
  unfold encode_pil_to_base64, saved_with_exif.
  split; [intros [E|[E|[]]]; symmetry in E | intros E]; rewrite E;
    cbn [String.eqb Ascii.eqb Bool.eqb existsb orb];
    (destruct (UserComment_dump _) as [comment|]; cbn [bind]; [|reflexivity]);
    destruct (piexif_dump comment) as [exif_bytes|]; cbn [bind]; reflexivity.
Qed.

(** With a known sample format, [encode_pil_to_base64] raises only what
    a library call raised. *)
Lemma encode_pil_to_base64_Raise `{host : Host} (image : Image) (e : exn) :
  encode_pil_to_base64 image = Raise e ->
  (~ known_samples_format /\ e = HTTPException 500 "Invalid image format") \/
  (known_samples_format /\ raised_by_save image e).
Proof.
  intros H. destruct (String.eqb_spec (lower samples_format) "png") as [Epng|Npng].
  - right. split; [left; symmetry; exact Epng|].
    rewrite (encode_pil_to_base64_png _ Epng) in H.
    apply bind_Raise_inv in H as [H | (raw & _ & H)]; [|discriminate].
    left. eauto.
  - destruct (existsb (String.eqb (lower samples_format)) ["jpg"; "jpeg"; "webp"]) eqn:Ex.
    + assert (known_samples_format) as Hk
        by (apply known_samples_format_cases; rewrite Ex; apply orb_true_r).
      right. split; [exact Hk|].
      assert (exists format, encode_pil_to_base64 image = saved_with_exif image format)
        as [format Hf].
      { destruct (encode_pil_to_base64_exif image) as [Hj Hw].
        destruct Hk as [E|[E|[E|[E|[]]]]]; [congruence | | |];
          [exists "JPEG"; apply Hj; rewrite <- E; cbn; auto
          |exists "JPEG"; apply Hj; rewrite <- E; cbn; auto
          |exists "WEBP"; apply Hw; symmetry; exact E]. }
      rewrite Hf in H. unfold saved_with_exif in H.
      apply bind_Raise_inv in H as [H | (comment & _ & H)]; [right; left; eauto|].
      apply bind_Raise_inv in H as [H | (exif_bytes & _ & H)]; [right; right; eauto|].
      apply bind_Raise_inv in H as [H | (raw & _ & H)]; [left; eauto | discriminate].
    + left.
      assert (~ known_samples_format) as Hk.
      { rewrite known_samples_format_cases, Ex.
        destruct (String.eqb_spec (lower samples_format) "png"); [contradiction|].
        discriminate. }
      split; [exact Hk|]. rewrite (encode_pil_to_base64_unknown _ Hk) in H. congruence.
Qed.

(** [encode_to_base64] raises what [Image.fromarray] raised on an
    array, or what [encode_pil_to_base64] raised on the image. *)
Lemma encode_to_base64_Raise `{host : Host} (v : pyval) (e : exn) :
  encode_to_base64 v = Raise e ->
  (exists a, v = VArray a /\ Image_fromarray a = Raise e) \/
  (exists image,
     (v = VImage image \/ exists a, v = VArray a /\ Image_fromarray a = Ret image) /\
     encode_pil_to_base64 image = Raise e).
Proof.
  destruct v; cbn [encode_to_base64]; try discriminate; intros H.
  - apply bind_Raise_inv in H as [H | (raw & _ & H)]; [|discriminate].
    unfold encode_np_to_base64 in H.
    apply bind_Raise_inv in H as [H | (pil & Hpil & H)]; [left; eauto|].
    right. exists pil. split; [right; eauto | exact H].
  - apply bind_Raise_inv in H as [H | (raw & _ & H)]; [|discriminate].
    right. eauto.
Qed.

(** X4.  [encode_pil_to_base64] looks at [opts.samples_format] without
    regard to the case of its letters: for [png] it saves the image as
    PNG, for [jpg] and [jpeg] as JPEG with an EXIF block made of the
    parameters of the image, for [webp] as WEBP with such an EXIF
    block, each time with the quality [opts.jpeg_quality], and returns
    the base64 encoding of the bytes saved; for any other format it
    raises [HTTPException(500, "Invalid image format")].  With a known
    format it raises only what [image.save] or one of the two [dump]
    functions of piexif raised. *)
Theorem encode_pil_to_base64_format `{host : Host} (image : Image) :
  (lower samples_format = "png" ->
   exists metadata,
     encode_pil_to_base64 image
     = (raw <- Image_save image "PNG" (pnginfo metadata) jpeg_quality ;;
        Ret (b64encode raw))) /\
  (In (lower samples_format) ["jpg"; "jpeg"] ->
   encode_pil_to_base64 image
   = (comment <- UserComment_dump
                   (parameters_or_empty (info_get_parameters (im_info image))) ;;
      exif_bytes <- piexif_dump comment ;;
      raw <- Image_save image "JPEG" (exif exif_bytes) jpeg_quality ;;
      Ret (b64encode raw))) /\
  (lower samples_format = "webp" ->
   encode_pil_to_base64 image
   = (comment <- UserComment_dump
                   (parameters_or_empty (info_get_parameters (im_info image))) ;;
      exif_bytes <- piexif_dump comment ;;
      raw <- Image_save image "WEBP" (exif exif_bytes) jpeg_quality ;;
      Ret (b64encode raw))) /\
  (~ known_samples_format ->
   encode_pil_to_base64 image = Raise (HTTPException 500 "Invalid image format")) /\
  (forall e, encode_pil_to_base64 image = Raise e ->
     (~ known_samples_format /\ e = HTTPException 500 "Invalid image format") \/
     (known_samples_format /\
      ((exists format o, Image_save image format o jpeg_quality = Raise e) \/
       (exists parameters, UserComment_dump parameters = Raise e) \/
       (exists comment, piexif_dump comment = Raise e)))).
Proof.
  split; [|split; [|split; [|split]]].
  - intros E. eexists. apply encode_pil_to_base64_png. exact E.
  - apply encode_pil_to_base64_exif.
  - apply encode_pil_to_base64_exif.
  - apply encode_pil_to_base64_unknown.
  - intros e H. apply encode_pil_to_base64_Raise. exact H.
Qed.

Lemma text_items_filter (items : list (info_value * info_value)) :
  map (fun kv : string * string => (InfoStr kv.1, InfoStr kv.2)) (text_items items)
  = List.filter is_text_item items.
Proof.
  induction items as [|[key value] items IH]; [reflexivity|].
  destruct key, value; cbn [text_items List.filter is_text_item map fst snd];
    rewrite ?IH; reflexivity.
Qed.

(** X5.  With the sample format [png], the text chunks that
    [encode_pil_to_base64] hands to [image.save] are the items of
    [image.info] whose key and value are both [str], in the order of
    [image.info]; when there is no such item it passes [pnginfo=None]. *)
Theorem encode_pil_to_base64_png_metadata `{host : Host} (image : Image) :
  lower samples_format = "png" ->
  exists metadata,
    encode_pil_to_base64 image
    = (raw <- Image_save image "PNG" (pnginfo metadata) jpeg_quality ;;
       Ret (b64encode raw)) /\
    (metadata = None <-> List.filter is_text_item (im_info image) = []) /\
    (forall items, metadata = Some items ->
       map (fun kv : string * string => (InfoStr kv.1, InfoStr kv.2)) items
       = List.filter is_text_item (im_info image)).
Proof.
  intros E. eexists. split; [apply encode_pil_to_base64_png; exact E|].
  rewrite <- text_items_filter.
  destruct (text_items (im_info image)) as [|item items]; cbn.
  - split; [split; intros _; reflexivity | discriminate].
  - split; [split; discriminate | intros items' [= <-]; reflexivity].
Qed.

Lemma encode_pil_to_base64_png_metadata_witness :
  exists metadata,
    encode_pil_to_base64 (host := Demo.host)
      (mk_Image "RGB" (1, 1)
         [(InfoStr "dpi", InfoInt 72); (InfoStr "parameters", InfoStr "a cat")] [])
    = (raw <- @Image_save Demo.host
                (mk_Image "RGB" (1, 1)
                   [(InfoStr "dpi", InfoInt 72); (InfoStr "parameters", InfoStr "a cat")] [])
                "PNG" (pnginfo metadata) (@jpeg_quality Demo.host) ;;
       Ret (@b64encode Demo.host raw)) /\
    metadata = Some [("parameters", "a cat")].
Proof.
  destruct (encode_pil_to_base64_png_metadata (host := Demo.host)
              (mk_Image "RGB" (1, 1)
                 [(InfoStr "dpi", InfoInt 72); (InfoStr "parameters", InfoStr "a cat")] []))
    as (metadata & E & Hnone & Hsome).
  - reflexivity.
  - exists metadata. split; [exact E|].
    destruct metadata as [items|].
    + specialize (Hsome items eq_refl). cbn in Hsome.
      destruct items as [|[k v] [|]]; try discriminate.
      injection Hsome as -> ->. reflexivity.
    + destruct Hnone as [Hnone _]. specialize (Hnone eq_refl). discriminate.
Defined.


(** ** Decoding: the header of a data URI *)

(** X7.  Every exception that leaves [decode_base64_to_image] is
    [HTTPException(500, "Invalid encoded image")] or, for a string that
    starts with [data:image/], the [IndexError] of one of the two
    splits of line 37, which are outside the [try].  A data URI without
    a semicolon raises the first [IndexError]; one whose text after the
    semicolon has no comma raises the second. *)
Theorem decode_base64_to_image_errors `{host : Host} (encoding : string) :
  (forall e, decode_base64_to_image encoding = Raise e ->
     e = HTTPException 500 "Invalid encoded image" \/
     (startswith encoding "data:image/" = true /\ header_error e)) /\
  (startswith encoding "data:image/" = true -> occurs ";" encoding = false ->
   decode_base64_to_image encoding = Raise (IndexError "encoding.split(';')[1]")) /\
  (forall subtype rest,
     encoding = "data:image/" ++ subtype ++ ";" ++ rest ->
     occurs ";" subtype = false -> occurs ";" rest = false -> occurs "," rest = false ->
     decode_base64_to_image encoding
     = Raise (IndexError "encoding.split(';')[1].split(',')[1]")).
Proof.
  split; [|split].
  - intros e. apply decode_base64_to_image_raises.
  - intros Hp Hs. unfold decode_base64_to_image, strip_header.
    rewrite Hp, (split_absent _ _ Hs). reflexivity.
  - intros subtype rest -> Hs Hr1 Hr2. unfold decode_base64_to_image, strip_header, startswith.
    rewrite prefix_app.
    replace ("data:image/" ++ subtype ++ ";" ++ rest)
      with (("data:image/" ++ subtype) ++ String ";" rest)
      by (rewrite str_app_assoc; reflexivity).
    rewrite split_at_first by (rewrite occurs_app, Hs; reflexivity).
    rewrite (split_absent _ _ Hr1). cbn [index nth_error bind].
    rewrite (split_absent _ _ Hr2). reflexivity.
Qed.

(** X8.  [to_base64_nparray] raises what [decode_base64_to_image]
    raises, or what [np.array] raises on the decoded image, which no
    [try] catches; it returns exactly when both return, and the array it
    returns is [np.array] of the decoded image converted to unsigned
    bytes: its element type is uint8, it has the shape and the number of
    elements of [np.array(image)], and every element lies between 0 and
    255. *)
Theorem to_base64_nparray_spec `{host : Host} (encoding : string) :
  (forall e, to_base64_nparray encoding = Raise e <->
     decode_base64_to_image encoding = Raise e \/
     exists image, decode_base64_to_image encoding = Ret image /\ np_array image = Raise e) /\
  (forall a, to_base64_nparray encoding = Ret a <->
     exists image array,
       decode_base64_to_image encoding = Ret image /\ np_array image = Ret array /\
       a = astype_uint8 array) /\
  (forall a, to_base64_nparray encoding = Ret a ->
     dtype a = np_uint8 /\
     Forall (fun x => 0 <= x < 256) (data a) /\
     exists image array,
       decode_base64_to_image encoding = Ret image /\ np_array image = Ret array /\
       shape a = shape array /\
       length (data a) = length (data array)).
Proof.
  assert (forall a, to_base64_nparray encoding = Ret a <->
            exists image array,
              decode_base64_to_image encoding = Ret image /\ np_array image = Ret array /\
              a = astype_uint8 array) as Hret.
  { intros a. unfold to_base64_nparray. split.
    - intros H. apply bind_Ret_inv in H as (image & Him & H).
      apply bind_Ret_inv in H as (array & Ha & [= <-]). eauto.
    - intros (image & array & -> & Ha & ->). cbn [bind]. rewrite Ha. reflexivity. }
  split; [intros e; apply to_base64_nparray_Raise|]. split; [exact Hret|].
  intros a H. apply Hret in H as (image & array & Him & Ha & ->).
  split; [reflexivity|]. split.
  - unfold astype_uint8. cbn [data]. apply Forall_forall. intros x Hx.
    apply list_elem_of_In, in_map_iff in Hx as (y & <- & _).
    apply Z.mod_pos_bound. lia.
  - exists image, array. split; [exact Him|]. split; [exact Ha|]. split; [reflexivity|].
    unfold astype_uint8. cbn [data]. apply length_map.
Qed.

(** ** Script arguments: where an exception comes from *)

(** X9.  [create_processing_unit_args] raises exactly what decoding
    the image raises when [input_image] is not empty and does not
    decode, and otherwise what decoding the mask raises when [mask] is
    not empty and does not decode.  Nothing else makes it raise; the
    image is decoded before the mask. *)
Theorem create_processing_unit_args_errors `{host : Host} (unit_request : ControlNetUnitRequest)
    (e : exn) :
  create_processing_unit_args unit_request = Raise e <->
  (input_image unit_request <> "" /\
   to_base64_nparray (input_image unit_request) = Raise e) \/
  ((input_image unit_request = "" \/
    exists a, to_base64_nparray (input_image unit_request) = Ret a) /\
   mask unit_request <> "" /\
   to_base64_nparray (mask unit_request) = Raise e).
Proof.
  unfold create_processing_unit_args.
  destruct (str_truthy (input_image unit_request)) eqn:Hi.
  - assert (input_image unit_request <> "") as Hne by (intros E; rewrite E in Hi; discriminate).
    destruct (to_base64_nparray (input_image unit_request)) as [a|e1]; cbn [bind].
    + destruct (str_truthy (mask unit_request)) eqn:Hm.
      * assert (mask unit_request <> "") as Hne' by (intros E; rewrite E in Hm; discriminate).
        destruct (to_base64_nparray (mask unit_request)) as [b|e2]; cbn [bind].
        -- split; [discriminate|]. intros [[_ H] | (_ & _ & H)]; discriminate.
        -- split.
           ++ intros [= <-]. right. eauto.
           ++ intros [[_ H] | (_ & _ & H)]; [discriminate | congruence].
      * apply str_truthy_false in Hm. cbn. split; [discriminate|].
        intros [[_ H] | (_ & H & _)]; [discriminate | contradiction].
    + split.
      * intros [= <-]. left. auto.
      * intros [[_ H] | ([H | [a H]] & _)]; [congruence | contradiction | discriminate].
  - apply str_truthy_false in Hi. cbn [bind].
    destruct (str_truthy (mask unit_request)) eqn:Hm.
    + assert (mask unit_request <> "") as Hne' by (intros E; rewrite E in Hm; discriminate).
      destruct (to_base64_nparray (mask unit_request)) as [b|e2]; cbn [bind].
      * split; [discriminate|]. intros [[H _] | (_ & _ & H)]; [contradiction | discriminate].
      * split.
        -- intros [= <-]. right. auto.
        -- intros [[H _] | (_ & _ & H)]; [contradiction | congruence].
    + apply str_truthy_false in Hm. cbn. split; [discriminate|].
      intros [[H _] | (_ & H & _)]; contradiction.
Qed.

(** ** The detect endpoint: failures *)

Lemma detect_body_run `{host : Host} (b : DetectBody.t) (name : string)
    (f : ndarray -> result pyval) (s : string) (acc : list pyval) (t : list event) :
  selected_annotator b = Some (name, f) ->
  (img <~ lift (decode_to_nparray s) ;;
   r <~ annotate b img ;;
   match r with
   | Some v => sret (acc ++ [v])%list
   | None => sret acc
   end) t
  = match decode_to_nparray s with
    | Ret a =>
        (match f a with Ret v => Ret (acc ++ [v])%list | Raise e => Raise e end,
         (t ++ [EvAnnotate name a])%list)
    | Raise e => (Raise e, t)
    end.
Proof.
  intros Hsel. unfold sbind at 1. unfold lift at 1.
  destruct (decode_to_nparray s) as [a|e]; [|reflexivity].
  unfold sbind. rewrite (annotate_selected b name f a t Hsel).
  destruct (f a); reflexivity.
Qed.

(** When the loop of lines 430-450 raises, an input did not decode or
    the annotator raised on a decoded input; when it returns, what it
    added to the results are results of the annotator. *)
Lemma detect_loop_inv `{host : Host} (b : DetectBody.t) (name : string)
    (f : ndarray -> result pyval) (inputs : list string)
    (acc : list pyval) (t t' : list event) (r : result (list pyval)) :
  selected_annotator b = Some (name, f) ->
  sfor (fun results input_image =>
          img <~ lift (decode_to_nparray input_image) ;;
          r <~ annotate b img ;;
          match r with
          | Some v => sret (results ++ [v])%list
          | None => sret results
          end) inputs acc t = (r, t') ->
  match r with
  | Ret results =>
      forall v, In v results -> In v acc \/ annotator_result b inputs v
  | Raise e =>
      (exists s, In s inputs /\ decode_to_nparray s = Raise e) \/
      annotator_raised b inputs e
  end.
Proof.
  intros Hsel. revert acc t.
  induction inputs as [|s inputs IH]; intros acc t H.
  - injection H as <- <-. auto.
  - cbn [sfor] in H. unfold sbind at 1 in H.
    rewrite (detect_body_run b name f s acc t Hsel) in H.
    destruct (decode_to_nparray s) as [a|e] eqn:Hs.
    + destruct (f a) as [v|e] eqn:Hv.
      * apply IH in H. destruct r as [results|e].
        -- intros w Hw. destruct (H w Hw) as [Hin | (s' & a' & n' & f' & Hin & P)].
           ++ apply in_app_or in Hin as [Hin | [<- | []]]; [auto|].
              right. exists s, a, name, f. cbn [In]. auto.
           ++ right. exists s', a', n', f'. cbn [In]. auto.
        -- destruct H as [(s' & Hin & P) | (s' & a' & n' & f' & Hin & P)].
           ++ left. exists s'. cbn [In]. auto.
           ++ right. exists s', a', n', f'. cbn [In]. auto.
      * injection H as <- <-. right. exists s, a, name, f. cbn [In]. auto.
    + injection H as <- <-. left. exists s. cbn [In]. auto.
Qed.

Lemma detect_loop_stops `{host : Host} (b : DetectBody.t) (name : string)
    (f : ndarray -> result pyval)
    (good : list string) (arrays : list ndarray) (bad : string) (rest : list string)
    (acc : list pyval) (t : list event) :
  selected_annotator b = Some (name, f) ->
  Forall2 (annotated b) good arrays ->
  forall e,
    (decode_to_nparray bad = Raise e ->
     sfor (fun results input_image =>
             img <~ lift (decode_to_nparray input_image) ;;
             r <~ annotate b img ;;
             match r with
             | Some v => sret (results ++ [v])%list
             | None => sret results
             end) (good ++ bad :: rest) acc t
     = (Raise e, (t ++ map (EvAnnotate name) arrays)%list)) /\
    (forall a, decode_to_nparray bad = Ret a -> f a = Raise e ->
     sfor (fun results input_image =>
             img <~ lift (decode_to_nparray input_image) ;;
             r <~ annotate b img ;;
             match r with
             | Some v => sret (results ++ [v])%list
             | None => sret results
             end) (good ++ bad :: rest) acc t
     = (Raise e, (t ++ map (EvAnnotate name) (arrays ++ [a]))%list)).
Proof.
  intros Hsel H e. revert acc t.
  induction H as [|s a good arrays [Hs (n' & f' & v & Hsel' & Hv)] _ IH]; intros acc t;
    cbn [app sfor map].
  - split.
    + intros Hbad. unfold sbind at 1.
      rewrite (detect_body_run b name f bad acc t Hsel), Hbad, app_nil_r. reflexivity.
    + intros a Hbad Ha. unfold sbind at 1.
      rewrite (detect_body_run b name f bad acc t Hsel), Hbad, Ha. reflexivity.
  - rewrite Hsel in Hsel'. injection Hsel' as _ <-.
    assert ((img <~ lift (decode_to_nparray s) ;;
             r <~ annotate b img ;;
             match r with
             | Some v => sret (acc ++ [v])%list
             | None => sret acc
             end) t
            = (Ret (acc ++ [v])%list, (t ++ [EvAnnotate name a])%list)) as Hbody
      by (rewrite (detect_body_run b name f s acc t Hsel), Hs, Hv; reflexivity).
    destruct (IH (acc ++ [v])%list (t ++ [EvAnnotate name a])%list) as [IH1 IH2].
    split.
    + intros Hbad. step Hbody. rewrite (IH1 Hbad), <- app_assoc. reflexivity.
    + intros a' Hbad Ha. step Hbody. rewrite (IH2 a' Hbad Ha), <- app_assoc. reflexivity.
Qed.

(** X10.  When an input image of a detect request does not decode, the
    endpoint raises what the decoding raised, unchanged; when the
    annotator raises on a decoded input, the endpoint raises that.  By
    then it has applied the annotator to the images before the failing
    one, in order (and to the failing one, if it was the annotator that
    failed) and to none after it, and it has not unloaded the model. *)
Theorem detect_stops_at_undecodable `{host : Host} (b : DetectBody.t) (t : list event)
    (good : list string) (arrays : list ndarray) (bad : string) (rest : list string) (e : exn) :
  In (DetectBody.controlnet_module b) available_modules ->
  DetectBody.controlnet_input_images b = (good ++ bad :: rest)%list ->
  Forall2 (annotated b) good arrays ->
  exists name f msg,
    selected_annotator b = Some (name, f) /\
    (decode_to_nparray bad = Raise e ->
     detect b t = (Raise e, (t ++ EvPrint msg :: map (EvAnnotate name) arrays)%list)) /\
    (forall a, decode_to_nparray bad = Ret a -> f a = Raise e ->
     detect b t
     = (Raise e, (t ++ EvPrint msg :: map (EvAnnotate name) (arrays ++ [a]))%list)) /\
    (forall model annotated_arrays,
       ~ In (EvUnload model) (EvPrint msg :: map (EvAnnotate name) annotated_arrays)).
Proof.
  intros Hmod Himgs Hgood.
  destruct (selected_available b Hmod) as (name & f & Hsel).
  exists name, f. eexists. split; [exact Hsel|].
  assert (forall arrays' : list ndarray,
            sfor (fun results input_image =>
                    img <~ lift (decode_to_nparray input_image) ;;
                    r <~ annotate b img ;;
                    match r with
                    | Some v => sret (results ++ [v])%list
                    | None => sret results
                    end) (good ++ bad :: rest) []
                 (t ++ [EvPrint (VStr ("Detecting "
                                         ++ pretty (length (good ++ bad :: rest))
                                         ++ " images with the "
                                         ++ DetectBody.controlnet_module b
                                         ++ " module."))])%list
            = (Raise e, ((t ++ [EvPrint (VStr ("Detecting "
                                         ++ pretty (length (good ++ bad :: rest))
                                         ++ " images with the "
                                         ++ DetectBody.controlnet_module b
                                         ++ " module."))])
                         ++ map (EvAnnotate name) arrays')%list) ->
            detect b t
            = (Raise e, (t ++ EvPrint (VStr ("Detecting "
                                         ++ pretty (length (good ++ bad :: rest))
                                         ++ " images with the "
                                         ++ DetectBody.controlnet_module b
                                         ++ " module."))
                           :: map (EvAnnotate name) arrays')%list)) as Hdetect.
  { intros arrays' Hloop. unfold detect. cbv zeta.
    apply str_in_In in Hmod. rewrite Hmod, Himgs.
    replace (Nat.eqb (length (good ++ bad :: rest)) 0) with false
      by (destruct good; reflexivity).
    cbn [negb]. cbv iota.
    match goal with
    | |- context [emit (EvPrint ?m)] => step (emit_run (EvPrint m) t)
    end.
    erewrite (sbind_Raise _ _ _ _ _ Hloop).
    rewrite <- app_assoc. reflexivity. }
  destruct (detect_loop_stops b name f good arrays bad rest []
              (t ++ [EvPrint (VStr ("Detecting "
                                      ++ pretty (length (good ++ bad :: rest))
                                      ++ " images with the "
                                      ++ DetectBody.controlnet_module b
                                      ++ " module."))])%list Hsel Hgood e) as [H1 H2].
  split; [|split].
  - intros Hbad. apply Hdetect, H1, Hbad.
  - intros a Hbad Ha. apply Hdetect, (H2 a Hbad Ha).
  - intros model more [E|Hin]; [discriminate|].
    apply in_map_iff in Hin as (a & E & _). discriminate.
Qed.

Lemma detect_stops_at_undecodable_witness :
  exists t',
    detect (host := Demo.host)
      (Demo.detect_body "hed" [Demo.png_b64; Demo.not_b64; Demo.png_b64]) []
    = (Raise binascii_Error, t') /\
    length t' = 2%nat.
Proof.
  destruct (decode_to_nparray (host := Demo.host) Demo.png_b64) as [a|e] eqn:Ha;
    [|vm_compute in Ha; discriminate].
  edestruct (detect_stops_at_undecodable (host := Demo.host)
               (Demo.detect_body "hed" [Demo.png_b64; Demo.not_b64; Demo.png_b64]) []
               [Demo.png_b64] [a] Demo.not_b64 [Demo.png_b64] binascii_Error)
    as (name & f & msg & _ & E & _).
  - right. right. right. right. left. reflexivity.
  - reflexivity.
  - constructor; [|constructor]. split; [exact Ha|].
    eexists _, _, _. split; reflexivity.
  - eexists. split; [apply E; vm_compute; reflexivity | reflexivity].
Defined.

(** X11.  Whenever the detect endpoint raises, the module of the
    request is an available one and its list of images is not empty,
    and the exception comes from one of three places, none of which is
    inside a [try]: the decoding of an input image, the annotator
    applied to a decoded input, or the encoding of a result of the
    annotator. *)
Theorem detect_errors `{host : Host} (b : DetectBody.t) (t : list event) (e : exn) :
  (detect b t).1 = Raise e ->
  In (DetectBody.controlnet_module b) available_modules /\
  DetectBody.controlnet_input_images b <> [] /\
  ((exists s, In s (DetectBody.controlnet_input_images b) /\
              decode_to_nparray s = Raise e) \/
   annotator_raised b (DetectBody.controlnet_input_images b) e \/
   (exists v, annotator_result b (DetectBody.controlnet_input_images b) v /\
              encode_to_base64 v = Raise e)).
Proof.
  intros H. destruct (detect b t) as [r t'] eqn:E. cbn [fst] in H. subst r.
  unfold detect in E. cbv zeta in E.
  destruct (str_in (DetectBody.controlnet_module b) available_modules) eqn:Hmod;
    cbn [negb] in E; cbv iota in E; [|discriminate].
  apply str_in_In in Hmod. split; [exact Hmod|].
  destruct (selected_available b Hmod) as (name & f & Hsel).
  destruct (DetectBody.controlnet_input_images b) as [|s inputs] eqn:Himgs;
    [discriminate|].
  split; [discriminate|].
  cbn [length Nat.eqb] in E.
  apply sbind_inv in E as [(u & t1 & _ & E) | (e' & He & _)]; [|discriminate].
  apply sbind_inv in E as [(results & t2 & Hloop & E) | (e' & Hloop & [= <-])].
  - apply (detect_loop_inv b name f _ _ _ _ _ Hsel) in Hloop.
    apply sbind_inv in E as [(u' & t3 & _ & E) | (e' & Hun & _)].
    + apply sbind_inv in E as [(results64 & t4 & _ & E) | (e' & Henc & [= <-])];
        [discriminate|].
      apply lift_inv in Henc as [Henc _]. symmetry in Henc.
      apply comprehension_Raise in Henc as (v & Hin & Hv).
      right. right. exists v. split; [|exact Hv].
      destruct (Hloop v Hin) as [[] | Hres]. exact Hres.
    + rewrite unload_run in Hun. discriminate.
  - apply (detect_loop_inv b name f _ _ _ _ _ Hsel) in Hloop.
    destruct Hloop as [Hdec | Hann]; auto.
Qed.

Lemma detect_errors_witness :
  exists s, In s [Demo.not_b64] /\
            decode_to_nparray (host := Demo.host) s = Raise binascii_Error.
Proof.
  destruct (detect_errors (host := Demo.host) (Demo.detect_body "canny" [Demo.not_b64]) []
              binascii_Error)
    as (_ & _ & [H | [(s & a & name & f & [<-|[]] & Hd & _)
                     | (v & (s & a & name & f & [<-|[]] & Hd & _) & _)]]).
  - vm_compute. reflexivity.
  - exact H.
  - vm_compute in Hd. discriminate.
  - vm_compute in Hd. discriminate.
Defined.

(** ** The img2img endpoint: every run *)

(** X12.  A request to [/controlnet/img2img] with an empty
    [controlnet_input_image], which is the default of this field, is
    never served: the endpoint raises before it has printed or
    generated anything.  When the mask and the init images decode, what
    it raises is the [IndexError] of [controlnet_input_image[0]]. *)
Theorem img2img_without_control_image `{host : Host} (body : Img2ImgBody.t) (t : list event) :
  Img2ImgBody.controlnet_input_image body = [] ->
  (exists e, img2img body t = (Raise e, t)) /\
  (mask_decodes body ->
   Forall (fun x => exists image, decode_base64_to_image x = Ret image)
          (Img2ImgBody.init_images body) ->
   img2img body t = (Raise (IndexError "controlnet_input_image[0]"), t)).
Proof.
  intros Hnil.
  assert (control_arrays (Img2ImgBody.controlnet_input_image body)
                         (Img2ImgBody.controlnet_mask body)
          = Raise (IndexError "controlnet_input_image[0]")) as Hc
    by (rewrite Hnil; reflexivity).
  destruct (img2img body t) as [r t'] eqn:E.
  apply img2img_inv in E
    as [(-> & e & -> & H) | [(_ & _ & _ & (arrays & Ha) & _)
                            | (p & _ & _ & _ & (arrays & Ha & _) & _)]].
  - split; [eauto|]. intros Hmd Hinit.
    destruct H as [(m & Hm & Hne & Hdec) | [(_ & Hi) | (_ & _ & Ha)]].
    + unfold mask_decodes in Hmd. rewrite Hm in Hmd.
      destruct Hmd as [-> | [image Him]]; [contradiction | congruence].
    + apply comprehension_returns in Hinit as [ys Hys]. congruence.
    + congruence.
  - congruence.
  - congruence.
Qed.

Lemma img2img_without_control_image_witness :
  img2img (host := Demo.host) (Demo.img2img_body [] []) []
  = (Raise (IndexError "controlnet_input_image[0]"), []).
Proof.
  destruct (img2img_without_control_image (host := Demo.host) (Demo.img2img_body [] []) [])
    as [_ H].
  - reflexivity.
  - apply H; [exact I | constructor].
Defined.

(** X13.  Every processing object that [/controlnet/img2img] hands to
    [process_images] carries the ControlNet arguments of the request as
    attributes: [control_net_enabled] and [control_net_api_access] are
    [True], [control_net_scribble_mode] and [control_net_rgbbgr_mode]
    are [False], the module, model, weight, resize mode, low-VRAM flag,
    processor resolution, thresholds, guidance strength and guess mode
    are those of the request; its [scripts] are the img2img scripts of
    the host, its [script_args] are the list of the one element 0, and
    its [extra_generation_params] hold the mask blur of the request
    under "Mask blur". *)
Theorem img2img_hands_controlnet_arguments `{host : Host} (body : Img2ImgBody.t)
    (p : list (string * pyval)) :
  In (EvProcessImages p) (calls (img2img body)) -> controlnet_attributes body p.
Proof.
  unfold calls. intros Hin.
  destruct (img2img body []) as [r t'] eqn:E. cbn [snd] in Hin.
  apply img2img_inv in E
    as [(-> & _) | [(-> & _) | (q & Hattrs & _ & _ & _ & Hgen)]].
  - destruct Hin.
  - cbn [app] in Hin. apply no_processing_in_console in Hin. destruct Hin.
  - rewrite (img2img_generation_calls _ _ _ _ _ Hgen Hin). exact Hattrs.
Qed.

Lemma img2img_hands_controlnet_arguments_witness :
  exists p,
    In (EvProcessImages p)
       (calls (img2img (host := Demo.host) (Demo.img2img_body [Demo.png_b64] [Demo.png_b64]))) /\
    getattr p "control_net_module" = Ret (VStr "canny") /\
    getattr p "script_args" = Ret (VList [VInt 0]).
Proof.
  assert (exists p,
            calls (img2img (host := Demo.host) (Demo.img2img_body [Demo.png_b64] [Demo.png_b64]))
            = [EvProcessImages p; EvClose]) as [p Hc]
    by (vm_compute; eexists; reflexivity).
  assert (In (EvProcessImages p)
             (calls (img2img (host := Demo.host)
                       (Demo.img2img_body [Demo.png_b64] [Demo.png_b64])))) as Hin
    by (rewrite Hc; left; reflexivity).
  exists p. split; [exact Hin|].
  pose proof (img2img_hands_controlnet_arguments (host := Demo.host) _ p Hin) as H.
  split; apply H.
Defined.

(** X14.  When the mask of the request is absent, empty or decodes, its
    init images decode, its first control image and, if there is one,
    its first control mask decode, and the processing objects of the
    host have their dictionary of generation parameters,
    [/controlnet/img2img] builds one processing object with the
    ControlNet arguments and hands it to [process_images], printing
    before as the options say.  When [process_images] returns, the
    endpoint closes the processing object, prints the generation info
    if the options say so, and encodes the images generated, none when
    [opts.do_not_show_images] is set: when they encode, the response
    holds the encodings and the generation info; when one does not,
    the endpoint raises what the encoding raised.  When
    [process_images] raises, the endpoint raises the same exception,
    and the processing object is not closed. *)
Theorem img2img_success `{host : Host} (body : Img2ImgBody.t) (t : list event)
    (arrays : ndarray * ndarray) :
  mask_decodes body ->
  Forall (fun x => exists image, decode_base64_to_image x = Ret image)
         (Img2ImgBody.init_images body) ->
  control_arrays (Img2ImgBody.controlnet_input_image body)
                 (Img2ImgBody.controlnet_mask body) = Ret arrays ->
  processing_has_params ->
  exists p,
    controlnet_attributes body p /\
    getattr p "control_net_image"
    = Ret (VDict [("image", VArray arrays.1); ("mask", VArray arrays.2)]) /\
    (forall processed b64images,
       process_images p = Ret processed ->
       comprehension encode_to_base64
         (if do_not_show_images then [] else images processed) = Ret b64images ->
       img2img body t
       = (Ret (VDict [("images", VList b64images); ("info", VStr (js processed))]),
          (t ++ console_events body ++ [EvProcessImages p; EvClose]
             ++ log_events (js processed))%list)) /\
    (forall processed,
       process_images p = Ret processed -> do_not_show_images = true ->
       img2img body t
       = (Ret (VDict [("images", VList []); ("info", VStr (js processed))]),
          (t ++ console_events body ++ [EvProcessImages p; EvClose]
             ++ log_events (js processed))%list)) /\
    (forall processed e,
       process_images p = Ret processed ->
       comprehension encode_to_base64
         (if do_not_show_images then [] else images processed) = Raise e ->
       img2img body t
       = (Raise e,
          (t ++ console_events body ++ [EvProcessImages p; EvClose]
             ++ log_events (js processed))%list)) /\
    (forall e,
       process_images p = Raise e ->
       img2img body t = (Raise e, (t ++ console_events body ++ [EvProcessImages p])%list)).
Proof.
  intros Hmd Hinit Harrays Hparams.
  destruct (img2img_generates body t arrays Hmd Hinit Harrays Hparams)
    as (p & Hattrs & Himage & Hgen).
  exists p. split; [exact Hattrs|]. split; [exact Himage|].
  destruct (img2img body t) as [r t'] eqn:E. cbn [fst snd] in Hgen.
  assert (forall processed out,
            process_images p = Ret processed ->
            (b64images <- comprehension encode_to_base64
                            (if do_not_show_images then [] else images processed) ;;
             Ret (VDict [("images", VList b64images); ("info", VStr (js processed))])) = out ->
            (r, t') = (out, (t ++ console_events body ++ [EvProcessImages p; EvClose]
                               ++ log_events (js processed))%list)) as Hreturned.
  { intros processed out Hp <-.
    destruct Hgen as [(e & He & _) | (processed' & Hp' & -> & ->)]; [congruence|].
    rewrite Hp in Hp'. injection Hp' as <-. reflexivity. }
  split; [|split; [|split]].
  - intros processed b64images Hp Henc. apply (Hreturned _ _ Hp).
    rewrite Henc. reflexivity.
  - intros processed Hp Hshow. apply (Hreturned _ _ Hp). rewrite Hshow. reflexivity.
  - intros processed e Hp Henc. apply (Hreturned _ _ Hp). rewrite Henc. reflexivity.
  - intros e He.
    destruct Hgen as [(e' & He' & -> & ->) | (processed & Hp & _)]; congruence.
Qed.

Lemma img2img_success_witness :
  exists p,
    img2img (host := Demo.host) (Demo.img2img_body [Demo.png_b64] [Demo.png_b64]) []
    = (Ret (VDict [("images", VList []); ("info", VStr "{}")]),
       [EvProcessImages p; EvClose]) /\
    getattr p "control_net_enabled" = Ret (VBool true).
Proof.
  destruct (decode_to_nparray (host := Demo.host) Demo.png_b64) as [a|e] eqn:Ha;
    [|vm_compute in Ha; discriminate].
  destruct (img2img_success (host := Demo.host)
              (Demo.img2img_body [Demo.png_b64] [Demo.png_b64]) [] (a, a))
    as (p & Hattrs & _ & Hreturns & _).
  - exact I.
  - constructor.
  - unfold control_arrays. cbn [Demo.img2img_body Img2ImgBody.controlnet_input_image
      Img2ImgBody.controlnet_mask index nth_error bind]. rewrite Ha. reflexivity.
  - exact demo_processing_has_params.
  - exists p. split; [|apply Hattrs].
    apply (Hreturns {| images := []; js := "{}" |} []); reflexivity.
Defined.

(** X15.  [/controlnet/img2img] refuses a request with an image that
    does not decode before it has printed or generated anything, with
    the exception of the decoding.  The mask and the init images go
    through [decode_base64_to_image]: that is
    [HTTPException(500, "Invalid encoded image")] or the [IndexError]
    of a malformed data URI header.  The control image and the control
    mask are decoded in place, outside any [try]: the endpoint raises
    what [b64decode], [Image.open] or [np.array] raised on the first
    element, unchanged, or the [IndexError] of an empty
    [controlnet_input_image]. *)
Theorem img2img_refuses_undecodable `{host : Host} (body : Img2ImgBody.t) (t : list event) :
  (forall m e,
     Img2ImgBody.mask body = Some m -> m <> "" -> decode_base64_to_image m = Raise e ->
     img2img body t = (Raise e, t)) /\
  (forall e,
     mask_decodes body ->
     comprehension decode_base64_to_image (Img2ImgBody.init_images body) = Raise e ->
     img2img body t = (Raise e, t) /\
     (e = HTTPException 500 "Invalid encoded image" \/ header_error e)) /\
  (forall e,
     mask_decodes body ->
     Forall (fun x => exists image, decode_base64_to_image x = Ret image)
            (Img2ImgBody.init_images body) ->
     control_arrays (Img2ImgBody.controlnet_input_image body)
                    (Img2ImgBody.controlnet_mask body) = Raise e ->
     img2img body t = (Raise e, t) /\
     ((Img2ImgBody.controlnet_input_image body = [] /\
       e = IndexError "controlnet_input_image[0]") \/
      exists first,
        (index "controlnet_input_image[0]" (Img2ImgBody.controlnet_input_image body) 0
         = Ret first \/
         index "controlnet_mask[0]" (Img2ImgBody.controlnet_mask body) 0 = Ret first) /\
        (b64decode first = Raise e \/
         exists raw, b64decode first = Ret raw /\
           (Image_open raw = Raise e \/
            exists image, Image_open raw = Ret image /\ np_array image = Raise e)))).
Proof.
  split; [|split].
  - intros m e Hm Hne Hdec.
    destruct (img2img body t) as [r t'] eqn:E.
    apply img2img_inv in E
      as [(-> & e' & -> & H) | [(_ & Hmd & _) | (p & _ & Hmd & _)]].
    + destruct H as [(m' & Hm' & _ & Hdec') | [(Hmd & _) | (Hmd & _)]].
      * congruence.
      * unfold mask_decodes in Hmd. rewrite Hm in Hmd.
        destruct Hmd as [-> | [image Him]]; [contradiction | congruence].
      * unfold mask_decodes in Hmd. rewrite Hm in Hmd.
        destruct Hmd as [-> | [image Him]]; [contradiction | congruence].
    + unfold mask_decodes in Hmd. rewrite Hm in Hmd.
      destruct Hmd as [-> | [image Him]]; [contradiction | congruence].
    + unfold mask_decodes in Hmd. rewrite Hm in Hmd.
      destruct Hmd as [-> | [image Him]]; [contradiction | congruence].
  - intros e Hmd Hinit. split.
    + destruct (img2img body t) as [r t'] eqn:E.
      apply img2img_inv in E
        as [(-> & e' & -> & H) | [(_ & _ & [ims Hi] & _) | (p & _ & _ & [ims Hi] & _)]];
        [|congruence|congruence].
      destruct H as [(m & Hm & Hne & Hdec) | [(_ & Hi) | (_ & [ims Hi] & _)]];
        [|congruence|congruence].
      unfold mask_decodes in Hmd. rewrite Hm in Hmd.
      destruct Hmd as [-> | [image Him]]; [contradiction | congruence].
    + apply comprehension_Raise in Hinit as (x & _ & Hx).
      destruct (decode_base64_to_image_raises x e Hx) as [-> | [_ He]]; auto.
  - intros e Hmd Hinit Harr. split.
    + destruct (img2img body t) as [r t'] eqn:E.
      apply img2img_inv in E
        as [(-> & e' & -> & H) | [(_ & _ & _ & [arrays Ha] & _)
                                 | (p & _ & _ & _ & (arrays & Ha & _) & _)]];
        [|congruence|congruence].
      destruct H as [(m & Hm & Hne & Hdec) | [(_ & Hi) | (_ & _ & Ha)]].
      * unfold mask_decodes in Hmd. rewrite Hm in Hmd.
        destruct Hmd as [-> | [image Him]]; [contradiction | congruence].
      * apply comprehension_returns in Hinit as [ys Hys]. congruence.
      * congruence.
    + apply control_arrays_Raise in Harr
        as [[Hnil ->] | [(first & Hi & Hd) | (first & Hi & Hd)]]; [auto | |];
        right; exists first; (split; [auto|]); apply decode_to_nparray_Raise; exact Hd.
Qed.

(** ** Sampler names *)

(** X16.  [validate_sampler_name] returns the name it was given, and
    only for a name that [all_samplers_map] maps to a configuration that
    is not [None]; for every other name it raises
    [HTTPException(404, "Sampler not found")]. *)
Theorem validate_sampler_name_spec (all_samplers_map : gmap string pyval) (name : string) :
  ((exists config, all_samplers_map !! name = Some config /\ config <> VNone) <->
   validate_sampler_name all_samplers_map name = Ret name) /\
  ((all_samplers_map !! name = None \/ all_samplers_map !! name = Some VNone) <->
   validate_sampler_name all_samplers_map name = Raise (HTTPException 404 "Sampler not found")) /\
  (forall r, validate_sampler_name all_samplers_map name = Ret r -> r = name) /\
  (forall new config,
     new <> name ->
     validate_sampler_name (<[new := config]> all_samplers_map) name
     = validate_sampler_name all_samplers_map name).
Proof.
  assert (forall v, is_None v = true <-> v = VNone) as Hnone
    by (intros v; destruct v; cbn; split; congruence).
  unfold validate_sampler_name. split; [|split; [|split]].
  - destruct (all_samplers_map !! name) as [config|].
    + destruct (is_None config) eqn:Hn.
      * apply Hnone in Hn. split; [|discriminate].
        intros (c & [= <-] & Hc). contradiction.
      * split; [reflexivity|]. intros _. exists config. split; [reflexivity|].
        intros Hc. apply Hnone in Hc. congruence.
    + cbn [is_None]. split; [intros (c & Hc & _); discriminate | discriminate].
  - destruct (all_samplers_map !! name) as [config|].
    + destruct (is_None config) eqn:Hn.
      * apply Hnone in Hn. subst config. split; [reflexivity | auto].
      * split; [|discriminate]. intros [H|[= H]]; [discriminate|].
        apply Hnone in H. congruence.
    + cbn [is_None]. split; [reflexivity | auto].
  - intros r. destruct (is_None _); [discriminate | intros [= <-]; reflexivity].
  - intros new config Hne. rewrite lookup_insert_ne by exact Hne. reflexivity.
Qed.

(** ** OverrideInit *)

Lemma getattr_fold_setattr_other (kwargs : list (string * pyval)) (p : list (string * pyval))
    (k : string) :
  (forall v, ~ In (k, v) kwargs) ->
  getattr (fold_left (fun p kv => setattr p kv.1 kv.2) kwargs p) k = getattr p k.
Proof.
  revert p. induction kwargs as [|[k0 v0] kwargs IH]; intros p Hk; [reflexivity|].
  cbn [fold_left fst snd]. rewrite IH.
  - apply getattr_setattr_ne. apply String.eqb_neq. intros ->. apply (Hk v0). left. reflexivity.
  - intros v Hin. apply (Hk v). right. exact Hin.
Qed.

Lemma getattr_fold_setattr_last (pre post : list (string * pyval)) (p : list (string * pyval))
    (k : string) (v : pyval) :
  (forall v', ~ In (k, v') post) ->
  getattr (fold_left (fun p kv => setattr p kv.1 kv.2) (pre ++ (k, v) :: post) p) k = Ret v.
Proof.
  intros Hpost. rewrite fold_left_app. cbn [fold_left fst snd].
  rewrite getattr_fold_setattr_other by exact Hpost.
  apply getattr_setattr_eq.
Qed.

(** X17.  A block run under [OverrideInit(cls, **kwargs)] sees a class
    whose [__init__] runs the original [__init__] and then sets each
    keyword argument as an attribute: an object built in the block has
    the value of the last keyword argument of each name, and every other
    attribute as the original [__init__] left it.  When the block ends,
    by returning or by raising, the original [__init__] is back, and
    the result or the exception of the block is that of the [with]
    statement. *)
Theorem OverrideInit_spec {A} (kwargs : list (string * pyval)) (body : stateful world A)
    (w : world) :
  let inside := mk_world (objects w) (override_init (Txt2Img_init w) kwargs) (api_calls w) in
  Txt2Img_init (with_OverrideInit kwargs body w).2 = Txt2Img_init w /\
  (with_OverrideInit kwargs body w).1 = (body inside).1 /\
  objects (with_OverrideInit kwargs body w).2 = objects (body inside).2 /\
  api_calls (with_OverrideInit kwargs body w).2 = api_calls (body inside).2 /\
  (forall args k,
     (forall v, ~ In (k, v) kwargs) ->
     getattr (Txt2Img_init inside args) k = getattr (Txt2Img_init w args) k) /\
  (forall args pre k v post,
     kwargs = (pre ++ (k, v) :: post)%list -> (forall v', ~ In (k, v') post) ->
     getattr (Txt2Img_init inside args) k = Ret v).
Proof.
  cbv zeta. unfold with_OverrideInit.
  destruct (body _) as [r w'] eqn:E. cbn [fst snd Txt2Img_init objects api_calls].
  split; [reflexivity|]. split; [reflexivity|]. split; [reflexivity|]. split; [reflexivity|].
  split.
  - intros args k Hk. unfold override_init. apply getattr_fold_setattr_other. exact Hk.
  - intros args pre k v post -> Hpost. unfold override_init.
    apply getattr_fold_setattr_last. exact Hpost.
Qed.

(** ** The txt2img route *)

Section Txt2ImgProps.
Context {host : Host} {txt2img_host : Txt2ImgHost}.

Lemma on_objects_run {A} (m : stateful heap A) (w : world) :
  on_objects m w = ((m (objects w)).1,
                    mk_world (m (objects w)).2 (Txt2Img_init w) (api_calls w)).
Proof. unfold on_objects. destruct (m (objects w)). reflexivity. Qed.

(** The last statement of [api_txt2img], lines 174-178. *)
Lemma locked_call (script_runner : pyval) (txt2imgreq : gmap string pyval) (w : world) :
  with_queue_lock
    (with_OverrideInit [("scripts", script_runner)] (call_text2imgapi txt2imgreq)) w
  = ((text2imgapi (override_init (Txt2Img_init w) [("scripts", script_runner)])
        txt2imgreq (objects w)).1,
     mk_world
       (text2imgapi (override_init (Txt2Img_init w) [("scripts", script_runner)])
          txt2imgreq (objects w)).2
       (Txt2Img_init w)
       (api_calls w ++ [EvAcquire; EvText2ImgApi txt2imgreq; EvRelease])%list).
Proof.
  unfold with_queue_lock, with_OverrideInit, call_text2imgapi, record_call.
  cbn [objects Txt2Img_init api_calls]. rewrite on_objects_run.
  cbn [objects Txt2Img_init api_calls fst snd].
  rewrite <- !app_assoc. reflexivity.
Qed.

(** X18.  However a txt2img request is served, when [api_txt2img] is
    left, by returning or by raising, the [__init__] of
    [StableDiffusionProcessingTxt2Img] is the one it was before; and
    either nothing was called, or the lock of the queue was acquired,
    [text2imgapi] was called once, and the lock was released, in this
    order. *)
Theorem api_txt2img_restores (txt2imgreq : gmap string pyval) (w : world) :
  Txt2Img_init (api_txt2img txt2imgreq w).2 = Txt2Img_init w /\
  (api_calls (api_txt2img txt2imgreq w).2 = api_calls w \/
   exists req,
     api_calls (api_txt2img txt2imgreq w).2
     = (api_calls w ++ [EvAcquire; EvText2ImgApi req; EvRelease])%list).
Proof.
  destruct (api_txt2img txt2imgreq w) as [r w'] eqn:E. cbn [snd].
  unfold api_txt2img in E.
  inv_bind E as req1 w1 H1 e.
  2: { apply lift_inv in H1 as [_ ->]. auto. }
  apply lift_inv in H1 as [_ ->].
  inv_bind E as units w2 H2 e.
  2: { apply lift_inv in H2 as [_ ->]. auto. }
  apply lift_inv in H2 as [_ ->].
  inv_bind E as created w3 H3 e.
  2: { rewrite on_objects_run in H3. injection H3 as _ <-. auto. }
  rewrite on_objects_run in H3. injection H3 as _ <-.
  cbv zeta in E.
  inv_bind E as req2 w4 H4 e.
  2: { apply lift_inv in H4 as [_ ->]. auto. }
  apply lift_inv in H4 as [_ ->].
  inv_bind E as req3 w5 H5 e.
  2: { apply lift_inv in H5 as [_ ->]. auto. }
  apply lift_inv in H5 as [_ ->].
  rewrite locked_call in E. injection E as _ <-.
  cbn [Txt2Img_init api_calls]. eauto.
Qed.

(** X19.  A request that [nest_deprecated_cn_fields] turns into
    [nested], whose [controlnet_units] are units and whose [script_args]
    is a list, and for which [create_cn_script_runner] returns the
    pair [(script_runner, args)], is served as follows: [text2imgapi]
    of the host is called once, under the lock, with the request
    [nested] without its [controlnet_units] and with [args] appended to
    its [script_args]; every processing object built during the call
    has [script_runner] as its [scripts] and its other attributes as the
    original [__init__] sets them; the response or the exception of
    [text2imgapi] is that of the route. *)
Theorem api_txt2img_spec (txt2imgreq nested : gmap string pyval) (w : world)
    (units : list ControlNetUnitRequest) (script_args args : list pyval)
    (script_runner : pyval) (h : gmap loc object) :
  nest_deprecated_cn_fields txt2imgreq = Ret nested ->
  nested !! "controlnet_units" = Some (VList (VUnit <$> units)) ->
  nested !! "script_args" = Some (VList script_args) ->
  create_cn_script_runner scripts_txt2img units (objects w) = (Ret (script_runner, args), h) ->
  let init := override_init (Txt2Img_init w) [("scripts", script_runner)] in
  let passed := delete "controlnet_units"
                  (<["script_args" := VList (script_args ++ args)]> nested) in
  api_txt2img txt2imgreq w
  = ((text2imgapi init passed h).1,
     mk_world (text2imgapi init passed h).2 (Txt2Img_init w)
       (api_calls w ++ [EvAcquire; EvText2ImgApi passed; EvRelease])%list) /\
  passed !! "controlnet_units" = None /\
  passed !! "script_args" = Some (VList (script_args ++ args)) /\
  (forall k, k <> "controlnet_units" -> k <> "script_args" -> passed !! k = nested !! k) /\
  (forall kwargs, getattr (init kwargs) "scripts" = Ret script_runner) /\
  (forall kwargs k, k <> "scripts" ->
     getattr (init kwargs) k = getattr (Txt2Img_init w kwargs) k).
Proof.
  intros Hnest Hunits Hargs Hcreate. cbv zeta.
  split; [|split; [|split; [|split; [|split]]]].
  - unfold api_txt2img.
    erewrite sbind_Ret.
    2: { unfold lift. rewrite Hnest. reflexivity. }
    assert (get_controlnet_units nested = Ret units) as Hget.
    { unfold get_controlnet_units. rewrite Hunits. clear.
      induction units as [|u units IH]; [reflexivity|].
      cbn [fmap list_fmap comprehension bind]. 
      change (list_fmap _ _ VUnit units) with (VUnit <$> units). rewrite IH. reflexivity. }
    erewrite sbind_Ret.
    2: { unfold lift. rewrite Hget. reflexivity. }
    erewrite sbind_Ret.
    2: { rewrite on_objects_run, Hcreate. reflexivity. }
    cbv zeta. cbn [fst snd].
    erewrite sbind_Ret.
    2: { unfold lift, iadd_script_args. rewrite Hargs. reflexivity. }
    erewrite sbind_Ret.
    2: { unfold lift, delattr. rewrite lookup_insert_ne by discriminate.
         rewrite Hunits. reflexivity. }
    rewrite locked_call. reflexivity.
  - apply lookup_delete_eq.
  - rewrite lookup_delete_ne by discriminate. apply lookup_insert_eq.
  - intros k Hk1 Hk2. rewrite lookup_delete_ne by congruence.
    apply lookup_insert_ne. congruence.
  - intros kwargs. unfold override_init. cbn [fold_left fst snd]. apply getattr_setattr_eq.
  - intros kwargs k Hk. unfold override_init. cbn [fold_left fst snd].
    apply getattr_setattr_ne. apply String.eqb_neq. congruence.
Qed.

(** X20.  A txt2img request is refused before the lock of the queue is
    taken and before [text2imgapi] is called when
    [nest_deprecated_cn_fields] raises, and when
    [create_cn_script_runner] raises, as it does for a unit whose image
    does not decode; the exception is the one raised there. *)
Theorem api_txt2img_refuses (txt2imgreq : gmap string pyval) (w : world) (e : exn) :
  (nest_deprecated_cn_fields txt2imgreq = Raise e ->
   api_txt2img txt2imgreq w = (Raise e, w)) /\
  (forall nested units h,
     nest_deprecated_cn_fields txt2imgreq = Ret nested ->
     nested !! "controlnet_units" = Some (VList (VUnit <$> units)) ->
     create_cn_script_runner scripts_txt2img units (objects w) = (Raise e, h) ->
     api_txt2img txt2imgreq w = (Raise e, mk_world h (Txt2Img_init w) (api_calls w))).
Proof.
  split.
  - intros Hnest. unfold api_txt2img, sbind, lift. rewrite Hnest. reflexivity.
  - intros nested units h Hnest Hunits Hcreate. unfold api_txt2img.
    erewrite sbind_Ret.
    2: { unfold lift. rewrite Hnest. reflexivity. }
    assert (get_controlnet_units nested = Ret units) as Hget.
    { unfold get_controlnet_units. rewrite Hunits. clear.
      induction units as [|u units IH]; [reflexivity|].
      cbn [fmap list_fmap comprehension bind].
      change (list_fmap _ _ VUnit units) with (VUnit <$> units). rewrite IH. reflexivity. }
    erewrite sbind_Ret.
    2: { unfold lift. rewrite Hget. reflexivity. }
    erewrite sbind_Raise; [reflexivity|].
    rewrite on_objects_run, Hcreate. reflexivity.
Qed.

End Txt2ImgProps.

Lemma api_txt2img_spec_witness :
  exists runner args,
    (api_txt2img (host := Demo.host) (txt2img_host := DemoApi.txt2img_host)
       DemoApi.request DemoApi.world0).1
    = Ret (VDict [("scripts", VRef runner); ("script_args", VList args)]) /\
    length args = 15%nat.
Proof.
  assert (nest_deprecated_cn_fields DemoApi.request
          = Ret (copy_exclude DemoApi.request
                   (dom (filter (fun kv => is_deprecated_key kv.1 = true) DemoApi.request))))
    as Hnest.
  { apply nest_deprecated_cn_fields_early. intros k v Hk Hv.
    assert (filter (fun kv => is_deprecated_key kv.1 = true) DemoApi.request !! k = Some v)
      as Hf by (rewrite deprecated_lookup, Hk; exact Hv).
    apply (proj1 (all_None_values _)) in Hf; [exact Hf | vm_compute; reflexivity]. }
  assert (exists runner args h,
            create_cn_script_runner (host := Demo.host)
              (scripts_txt2img (Txt2ImgHost := DemoApi.txt2img_host))
              [Demo.unit_default] (objects DemoApi.world0)
            = (Ret (VRef runner, args), h) /\ length args = 15%nat)
    as (runner & args & h & Hcreate & Hlen)
    by (vm_compute; eexists _, _, _; split; reflexivity).
  destruct (api_txt2img_spec (host := Demo.host) (txt2img_host := DemoApi.txt2img_host)
              DemoApi.request _ DemoApi.world0 [Demo.unit_default] [] args (VRef runner) h
              Hnest)
    as (E & _).
  - rewrite copy_exclude_lookup. vm_compute. reflexivity.
  - rewrite copy_exclude_lookup. vm_compute. reflexivity.
  - exact Hcreate.
  - exists runner, args. split; [|exact Hlen].
    rewrite E. cbn [fst]. vm_compute. reflexivity.
Defined.

(** ** The JSON schema of the request *)

Lemma setattr_new (p : list (string * pyval)) (k : string) (v : pyval) :
  ~ In k p.*1 -> setattr p k v = (p ++ [(k, v)])%list.
Proof.
  induction p as [|[k' v'] p IH]; intros Hk; [reflexivity|].
  cbn [setattr app]. cbn in Hk.
  destruct (String.eqb_spec k' k) as [->|Hne]; [tauto|].
  rewrite IH by tauto. reflexivity.
Qed.

Lemma setattr_same (p : list (string * pyval)) (k : string) (v : pyval) :
  dict_lookup p k = Some v -> setattr p k v = p.
Proof.
  induction p as [|[k' v'] p IH]; [discriminate|]. cbn [dict_lookup setattr].
  destruct (String.eqb_spec k' k) as [->|Hne].
  - intros [= ->]. reflexivity.
  - intros H. rewrite (IH H). reflexivity.
Qed.

Lemma dict_lookup_setattr_eq (p : list (string * pyval)) (k : string) (v : pyval) :
  dict_lookup (setattr p k v) k = Some v.
Proof.
  induction p as [|[k' v'] p IH]; cbn [setattr dict_lookup].
  - rewrite String.eqb_refl. reflexivity.
  - destruct (String.eqb k' k) eqn:E; cbn [dict_lookup].
    + rewrite String.eqb_refl. reflexivity.
    + rewrite E. exact IH.
Qed.

Lemma dict_lookup_setattr_ne (p : list (string * pyval)) (k k' : string) (v : pyval) :
  k <> k' -> dict_lookup (setattr p k v) k' = dict_lookup p k'.
Proof.
  intros Hne. induction p as [|[k0 v0] p IH]; cbn [setattr dict_lookup].
  - destruct (String.eqb_spec k k'); [contradiction | reflexivity].
  - destruct (String.eqb_spec k0 k) as [->|Hk0]; cbn [dict_lookup].
    + destruct (String.eqb_spec k k'); [contradiction | reflexivity].
    + destruct (String.eqb k0 k'); [reflexivity | exact IH].
Qed.

Lemma dict_get_lookup (d : list (string * pyval)) (k : string) (dflt : pyval) :
  dict_get d k dflt = match dict_lookup d k with Some v => v | None => dflt end.
Proof.
  induction d as [|[k' v] d IH]; [reflexivity|]. cbn [dict_get dict_lookup].
  destruct (String.eqb k' k); [reflexivity | exact IH].
Qed.

Lemma docs_default_applied_idempotent (v : list (string * pyval)) :
  docs_default_applied (docs_default_applied v) = docs_default_applied v.
Proof.
  unfold docs_default_applied.
  destruct (is_None (dict_get v "docs_default" VNone)) eqn:Hn; cbn [negb].
  - rewrite Hn. reflexivity.
  - assert (dict_get (setattr v "default" (dict_get v "docs_default" VNone)) "docs_default" VNone
            = dict_get v "docs_default" VNone) as E.
    { rewrite !dict_get_lookup. rewrite dict_lookup_setattr_ne by discriminate. reflexivity. }
    rewrite E, Hn. cbn [negb]. apply setattr_same. apply dict_lookup_setattr_eq.
Qed.

Lemma not_deprecated_applied (v : list (string * pyval)) :
  not_deprecated (docs_default_applied v) = not_deprecated v.
Proof.
  unfold not_deprecated, docs_default_applied.
  destruct (negb (is_None (dict_get v "docs_default" VNone))); [|reflexivity].
  rewrite !dict_get_lookup. rewrite dict_lookup_setattr_ne by discriminate. reflexivity.
Qed.

(** Lines 138-143 on a dictionary of dictionaries. *)
Lemma schema_extra_loop_run (items props seen : list (string * pyval)) :
  Forall (fun kv => is_dict kv.2) items ->
  NoDup items.*1 ->
  (forall k, In k items.*1 -> ~ In k props.*1) ->
  for_each schema_extra_step items (props, seen)
  = Ret ((props ++ map property_updated (List.filter property_shown items))%list,
         (seen ++ map property_updated items)%list).
Proof.
  intros Hdict. revert props seen.
  induction Hdict as [|[k value] items [v Hv] _ IH]; intros props seen Hnd Hnew.
  - cbn. rewrite !app_nil_r. reflexivity.
  - cbn [snd] in Hv. subst value. cbn [for_each]. unfold schema_extra_step at 1.
    cbn [fst snd]. cbv zeta. cbn [bind].
    apply NoDup_cons in Hnd as [Hk Hnd]. cbn [fmap list_fmap fst] in Hk.
    rewrite IH; [|exact Hnd|].
    + cbn [List.filter map]. unfold property_shown at 2. cbn [snd].
      unfold property_updated at 3. cbn [fst snd].
      destruct (not_deprecated v).
      * rewrite setattr_new by (apply Hnew; left; reflexivity).
        cbn [map]. unfold property_updated at 2. cbn [fst snd].
        rewrite <- !app_assoc. reflexivity.
      * rewrite <- !app_assoc. reflexivity.
    + intros k' Hin. destruct (not_deprecated v).
      * rewrite setattr_new by (apply Hnew; left; reflexivity).
        rewrite fmap_app. intros Hin'. apply in_app_or in Hin' as [Hin'|[<-|[]]].
        -- apply (Hnew k'); [right; exact Hin | exact Hin'].
        -- apply Hk. apply list_elem_of_In. exact Hin.
      * apply Hnew. right. exact Hin.
Qed.

Lemma schema_extra_loop_dicts (items : list (string * pyval))
    (acc acc' : list (string * pyval) * list (string * pyval)) :
  for_each schema_extra_step items acc = Ret acc' ->
  Forall (fun kv => is_dict kv.2) items.
Proof.
  revert acc. induction items as [|[k value] items IH]; intros acc H; [constructor|].
  cbn [for_each] in H. unfold schema_extra_step at 1 in H. cbn [snd] in H.
  destruct value; try discriminate. cbv zeta in H. cbn [bind] in H.
  constructor; [eexists; reflexivity | eapply IH; exact H].
Qed.

Lemma schema_extra_run (schema items : list (string * pyval)) :
  dict_lookup schema "properties" = Some (VDict items) ->
  Forall (fun kv => is_dict kv.2) items ->
  NoDup items.*1 ->
  schema_extra schema = Ret (setattr schema "properties" (VDict (properties_after items))).
Proof.
  intros Hprops Hdict Hnd. unfold schema_extra, schema_extra_loop. rewrite Hprops.
  rewrite (schema_extra_loop_run items [] [] Hdict Hnd) by (intros k _ []).
  cbn [app bind fst snd]. unfold properties_after.
  destruct (List.filter property_shown items) as [|kv shown]; reflexivity.
Qed.

(** X21.  On a schema whose [properties] are a dictionary of
    dictionaries, [schema_extra] leaves every entry of the schema but
    [properties] as it is, and replaces the properties by those that are
    not deprecated, in their order; when every property is deprecated,
    or there is none, the properties stay, the deprecated ones
    included.  Each property that stays has its [default] set to its
    [docs_default] when it has one that is not [None], and is otherwise
    unchanged.  A schema without [properties] is returned as it is. *)
Theorem schema_extra_spec (schema : list (string * pyval)) :
  (dict_lookup schema "properties" = None -> schema_extra schema = Ret schema) /\
  (forall items,
     dict_lookup schema "properties" = Some (VDict items) ->
     Forall (fun kv => is_dict kv.2) items ->
     NoDup items.*1 ->
     exists after,
       schema_extra schema = Ret after /\
       dict_lookup after "properties" = Some (VDict (properties_after items)) /\
       (forall k, k <> "properties" -> dict_lookup after k = dict_lookup schema k) /\
       (Exists (fun kv => property_shown kv = true) items ->
        properties_after items = map property_updated (List.filter property_shown items)) /\
       (Forall (fun kv => property_shown kv = false) items ->
        properties_after items = map property_updated items)) /\
  (forall v,
     (dict_get v "docs_default" VNone <> VNone ->
      dict_lookup (docs_default_applied v) "default" = Some (dict_get v "docs_default" VNone)) /\
     (dict_get v "docs_default" VNone = VNone -> docs_default_applied v = v) /\
     (forall k, k <> "default" ->
        dict_lookup (docs_default_applied v) k = dict_lookup v k)).
Proof.
  split; [|split].
  - intros H. unfold schema_extra. rewrite H. reflexivity.
  - intros items Hprops Hdict Hnd. eexists. split; [|split; [|split; [|split]]].
    + apply schema_extra_run; eassumption.
    + apply dict_lookup_setattr_eq.
    + intros k Hk. apply dict_lookup_setattr_ne. congruence.
    + intros Hex. unfold properties_after.
      destruct (List.filter property_shown items) as [|kv shown] eqn:E; [|reflexivity].
      exfalso. apply Exists_exists in Hex as (kv & Hin & Hkv).
      assert (In kv (List.filter property_shown items)) as Hin'.
      { apply filter_In. split; [apply list_elem_of_In; exact Hin | exact Hkv]. }
      rewrite E in Hin'. destruct Hin'.
    + intros Hall. unfold properties_after.
      destruct (List.filter property_shown items) as [|kv shown] eqn:E; [reflexivity|].
      exfalso. assert (In kv (List.filter property_shown items)) as Hin
        by (rewrite E; left; reflexivity).
      apply filter_In in Hin as [Hin Hkv]. rewrite Forall_forall in Hall.
      apply list_elem_of_In in Hin. rewrite (Hall kv Hin) in Hkv. discriminate.
  - intros v. unfold docs_default_applied. split; [|split].
    + intros H. destruct (dict_get v "docs_default" VNone); try contradiction;
        cbn [is_None negb]; apply dict_lookup_setattr_eq.
    + intros ->. reflexivity.
    + intros k Hk. destruct (negb _); [|reflexivity].
      apply dict_lookup_setattr_ne. congruence.
Qed.

Lemma map_property_updated_keys (items : list (string * pyval)) :
  (map property_updated items).*1 = items.*1.
Proof.
  induction items as [|[k v] items IH]; [reflexivity|].
  cbn [map fmap list_fmap]. f_equal; [|exact IH].
  unfold property_updated. cbn [snd]. destruct v; reflexivity.
Qed.

Lemma properties_after_idempotent (items : list (string * pyval)) :
  Forall (fun kv => is_dict kv.2) items ->
  properties_after (properties_after items) = properties_after items.
Proof.
  intros Hdict.
  assert (forall l, Forall (fun kv : string * pyval => is_dict kv.2) l ->
            map property_updated (map property_updated l) = map property_updated l) as Hupd.
  { intros l Hl. induction Hl as [|[k value] l [v Hv] _ IH]; [reflexivity|].
    cbn [snd] in Hv. subst value. cbn [map]. rewrite IH. f_equal.
    unfold property_updated. cbn [fst snd]. rewrite docs_default_applied_idempotent.
    reflexivity. }
  assert (forall l, Forall (fun kv : string * pyval => is_dict kv.2) l ->
            List.filter property_shown (map property_updated l)
            = map property_updated (List.filter property_shown l)) as Hfilter.
  { intros l Hl. induction Hl as [|[k value] l [v Hv] _ IH]; [reflexivity|].
    cbn [snd] in Hv. subst value. cbn [map List.filter].
    replace (property_shown (property_updated (k, VDict v)))
      with (property_shown (k, VDict v))
      by (unfold property_shown, property_updated; cbn [fst snd];
          rewrite not_deprecated_applied; reflexivity).
    destruct (property_shown (k, VDict v)); cbn [map]; rewrite IH; reflexivity. }
  assert (forall l, List.filter property_shown (List.filter property_shown l)
                    = List.filter property_shown l) as Hff.
  { intros l. induction l as [|kv l IH]; [reflexivity|]. cbn [List.filter].
    destruct (property_shown kv) eqn:E; [|exact IH].
    cbn [List.filter]. rewrite E, IH. reflexivity. }
  assert (forall l, Forall (fun kv : string * pyval => is_dict kv.2) l ->
            Forall (fun kv : string * pyval => is_dict kv.2) (List.filter property_shown l))
    as Hsub.
  { intros l Hl. apply Forall_forall. intros kv Hin.
    apply list_elem_of_In, filter_In in Hin as [Hin _].
    rewrite Forall_forall in Hl. apply Hl. apply list_elem_of_In. exact Hin. }
  unfold properties_after.
  destruct (List.filter property_shown items) as [|kv shown] eqn:E.
  - rewrite (Hfilter _ Hdict), E. cbn [map]. apply Hupd. exact Hdict.
  - assert (Forall (fun kv : string * pyval => is_dict kv.2) (kv :: shown)) as Hd
      by (rewrite <- E; apply Hsub; exact Hdict).
    assert (List.filter property_shown (kv :: shown) = kv :: shown) as Hs
      by (rewrite <- E; apply Hff).
    rewrite (Hfilter _ Hd), Hs.
    destruct (map property_updated (kv :: shown)) as [|kv' shown'] eqn:E'; [discriminate|].
    rewrite <- E'. apply Hupd. exact Hd.
Qed.

(** X22.  [schema_extra] is idempotent: what it returns for a schema
    whose properties have distinct names, it returns again, unchanged,
    when it is applied to its result. *)
Theorem schema_extra_idempotent (schema after : list (string * pyval)) :
  (forall items, dict_lookup schema "properties" = Some (VDict items) -> NoDup items.*1) ->
  schema_extra schema = Ret after ->
  schema_extra after = Ret after.
Proof.
  intros Hnd H. pose proof H as H0. unfold schema_extra in H.
  destruct (dict_lookup schema "properties") as [value|] eqn:Hprops.
  - destruct value as [| | | | | | | | | | |items]; try discriminate.
    apply bind_Ret_inv in H as (acc & Hloop & _).
    apply schema_extra_loop_dicts in Hloop.
    specialize (Hnd items eq_refl).
    rewrite (schema_extra_run _ _ Hprops Hloop Hnd) in H0. injection H0 as <-.
    assert (Forall (fun kv : string * pyval => is_dict kv.2) (properties_after items)) as Hd.
    { unfold properties_after.
      assert (forall l, Forall (fun kv : string * pyval => is_dict kv.2) l ->
                Forall (fun kv : string * pyval => is_dict kv.2) (map property_updated l)) as Hm.
      { intros l Hl. induction Hl as [|[k value] l [v Hv] _ IH]; [constructor|].
        cbn [snd] in Hv. subst value. cbn [map]. constructor; [|exact IH].
        unfold property_updated. cbn [fst snd]. eexists. reflexivity. }
      destruct (List.filter property_shown items) as [|kv shown] eqn:E; [apply Hm; exact Hloop|].
      apply Hm. rewrite <- E. apply Forall_forall. intros kv' Hin.
      apply list_elem_of_In, filter_In in Hin as [Hin _].
      rewrite Forall_forall in Hloop. apply Hloop. apply list_elem_of_In. exact Hin. }
    assert (NoDup (properties_after items).*1) as Hnd'.
    { unfold properties_after.
      destruct (List.filter property_shown items) as [|kv shown] eqn:E;
        rewrite map_property_updated_keys; [exact Hnd|].
      rewrite <- E. clear -Hnd. induction items as [|[k v] items IH]; [constructor|].
      apply NoDup_cons in Hnd as [Hk Hnd]. cbn [List.filter].
      destruct (property_shown (k, v)); [|apply IH; exact Hnd].
      cbn [fmap list_fmap fst]. apply NoDup_cons. split; [|apply IH; exact Hnd].
      intros Hin. apply Hk. apply list_elem_of_fmap in Hin as ([k' v'] & -> & Hin).
      apply list_elem_of_In, filter_In in Hin as [Hin _].
      apply list_elem_of_fmap. exists (k', v'). split; [reflexivity|].
      apply list_elem_of_In. exact Hin. }
    rewrite (schema_extra_run _ (properties_after items)
               (dict_lookup_setattr_eq _ _ _) Hd Hnd').
    rewrite (properties_after_idempotent _ Hloop).
    f_equal. apply setattr_same. apply dict_lookup_setattr_eq.
  - injection H as <-. exact H0.
Qed.

Lemma schema_extra_idempotent_witness :
  exists after properties,
    schema_extra DemoApi.schema = Ret after /\
    schema_extra after = Ret after /\
    dict_lookup after "properties" = Some (VDict properties) /\
    properties.*1 = ["controlnet_units"].
Proof.
  assert (exists after properties,
            schema_extra DemoApi.schema = Ret after /\
            dict_lookup after "properties" = Some (VDict properties) /\
            properties.*1 = ["controlnet_units"]) as (after & properties & E & Hp & Hk)
    by (vm_compute; eexists _, _; split; [reflexivity | split; reflexivity]).
  exists after, properties. split; [exact E|]. split; [|split; [exact Hp | exact Hk]].
  apply (schema_extra_idempotent DemoApi.schema); [|exact E].
  intros items [= <-]. cbn [fmap list_fmap fst].
  repeat (apply NoDup_cons; split; [intros Hin; repeat (apply elem_of_cons in Hin as [Hin|Hin]; [discriminate|]); inversion Hin|]).
  apply NoDup_nil. exact I.
Defined.

(** ** Which script is copied: the new runner *)

(** X23.  When several always-on scripts are titled 'controlnet' (in
    any case of the letters), [create_cn_script_runner] copies the
    first of them: with [s] the first such script, the new runner has
    one always-on script, a copy of [s] with [args_from = 0] and
    [args_to] the number of arguments.  The new runner is an object
    that was not in the store, and it has the other attributes of the
    runner it was copied from. *)
Theorem create_cn_script_runner_first `{host : Host} (h : gmap loc object) (runner : loc)
    (r : ScriptRunner) (before after : list Script) (s : Script)
    (units : list ControlNetUnitRequest) (argss : list (list pyval)) :
  h !! runner = Some (ObjRunner r) ->
  runner_scripts h runner (before ++ s :: after) ->
  Forall (fun s' => lower (title s') <> "controlnet") before ->
  lower (title s) = "controlnet" ->
  Forall2 (fun u args => create_processing_unit_args u = Ret args) units argss ->
  exists (cn_script_runner : loc) (r' : ScriptRunner) (h' : gmap loc object),
    create_cn_script_runner runner units h
      = (Ret (VRef cn_script_runner, VBool false :: concat argss), h') /\
    h !! cn_script_runner = None /\
    h' !! cn_script_runner = Some (ObjRunner r') /\
    runner_attrs r' = runner_attrs r /\
    runner_scripts h' cn_script_runner
      [mk_Script (title s) (VInt 0) (VInt (1 + 14 * Z.of_nat (length units))) (script_attrs s)].
Proof.
  intros Hr (r0 & scripts & Hr0 & Hl & Hss) Hbefore Htitle Hargs.
  assert (r0 = r) as -> by congruence.
  pose proof (list_index_first_title before after s Hbefore Htitle) as Hidx.
  destruct (create_cn_script_runner_at h runner r scripts _ units argss _ s
              Hr Hl Hss Hargs Hidx (nth_error_middle before after s))
    as (cn & cs & lst & h' & E & Hnew & Hcn & Hlst & Hcs).
  exists cn, (mk_ScriptRunner lst (runner_attrs r)), h'.
  split; [exact E|]. split; [exact Hnew|]. split; [exact Hcn|]. split; [reflexivity|].
  exists (mk_ScriptRunner lst (runner_attrs r)), [cs].
  split; [exact Hcn|]. split; [exact Hlst|].
  constructor; [|constructor]. rewrite Hcs.
  cbn [length]. rewrite (concat_args_length _ _ Hargs).
  replace (Z.of_nat (S (14 * length units))) with (1 + 14 * Z.of_nat (length units)) by lia.
  reflexivity.
Qed.

Lemma create_cn_script_runner_first_witness :
  exists cn_script_runner r' h' args,
    create_cn_script_runner (host := Demo.host) 1%positive [Demo.unit_png]
      Demo.store_two_controlnets
      = (Ret (VRef cn_script_runner, VBool false :: args), h') /\
    length args = 14%nat /\
    h' !! cn_script_runner = Some (ObjRunner r') /\
    runner_attrs r' = [("name", VStr "txt2img")] /\
    runner_scripts h' cn_script_runner
      [mk_Script "ControlNet" (VInt 0) (VInt 15) [("first", VBool true)]].
Proof.
  destruct (create_cn_script_runner_first (host := Demo.host) Demo.store_two_controlnets
              1%positive
              (mk_ScriptRunner 2%positive [("name", VStr "txt2img")])
              [mk_Script "Seed" (VInt 0) (VInt 3) []]
              [mk_Script "controlnet" (VInt 18) (VInt 33) []]
              (mk_Script "ControlNet" (VInt 3) (VInt 18) [("first", VBool true)])
              [Demo.unit_png]
              [unit_args Demo.unit_png
                 (VArray {| dtype := np_uint8; shape := [1; 1; 3]; data := [0; 0; 0] |})
                 (VArray zero_1x1x1)])
    as (cn & r' & h' & E & _ & Hcn & Hattrs & Hscripts).
  - reflexivity.
  - exists (mk_ScriptRunner 2%positive [("name", VStr "txt2img")]),
           [3%positive; 4%positive; 5%positive].
    split; [reflexivity|]. split; [reflexivity|].
    repeat constructor.
  - constructor; [discriminate | constructor].
  - reflexivity.
  - repeat constructor.
  - eexists cn, r', h', _. split; [exact E|]. split; [reflexivity|].
    split; [exact Hcn|]. split; [exact Hattrs | exact Hscripts].
Defined.
